(** * hdf5extract: key classification, per-kind rendering and grid composition

    A shallow embedding of [MirrorFusion/examples/brushnet/scripts/hdf5extract.py].

    Conventions of the embedding.
    - Python [str] is [string]; lists are [list]; [None]-able arguments are
      [option].
    - A call that can raise returns in the error monad [result]; code that
      prints, plots or touches the file system runs in [Py], which threads the
      file system and collects, in order, the calls made to [print], to
      [matplotlib.pyplot] and to [random.sample].
    - Functions of the standard library and of third-party packages ([re],
      [cv2], [PIL], [random], [glob], PNG decoding) are interfaces (type
      classes); a concrete matcher for a fragment of the pattern syntax of
      [re] is given so that the classifier can be run on the default pattern
      lists.
    - Calls to [matplotlib.pyplot] are recorded with their arguments; failures
      inside the plotting library itself are not part of the embedding. *)

From Stdlib Require Import Ascii ZArith.
From stdpp Require Import base gmap strings list pretty.

Local Open Scope Z_scope.
Local Open Scope nat_scope.

(** * Part I: the program *)

(** ** Exceptions and the error monad *)

Inductive exn : Set :=
| ReError            (* re.error: the pattern does not compile *)
| TypeError
| ValueError
| IndexError
| KeyError
| AttributeError
| ImportError (msg : string)
| OSError
| FileNotFoundError.

Definition result (A : Type) : Type := exn + A.

Definition ok {A} (a : A) : result A := inr a.
Definition raise {A} (e : exn) : result A := inl e.

#[global] Instance result_ret : MRet result := fun A a => inr a.
#[global] Instance result_bind : MBind result := fun A B f m =>
  match m with inl e => inl e | inr a => f a end.

(** ** The module-level constants *)

Definition default_rgb_keys : list string := ["colors"; "normals"; "diffuse"; "nocs"].
Definition default_flow_keys : list string := ["forward_flow"; "backward_flow"].
Definition default_segmap_keys : list string := ["segmap"; ".*_segmaps"].
Definition default_segcolormap_keys : list string := ["segcolormap"].
Definition default_depth_keys : list string := ["distance"; "depth"; "stereo-depth"].
Definition all_default_keys : list string :=
  default_rgb_keys ++ default_flow_keys ++ default_segmap_keys ++
  default_segcolormap_keys ++ default_depth_keys.

(** ** The key classifier *)

(** What [key_matches] returns: a [bool], or the pair [(bool, index)] when
    [return_index] is set. The index is [None] in the pair [(False, None)]. *)
Inductive km_value : Set :=
| KBool (b : bool)
| KPair (b : bool) (i : option nat).

(** Truth value of a returned object in an [if]: a bool is itself, a
    two-element tuple is always true. *)
Definition truthy (v : km_value) : bool :=
  match v with KBool b => b | KPair _ _ => true end.

(** [_, key_index = v]: unpacking a bool raises. *)
Definition unpack_pair (v : km_value) : result (bool * option nat) :=
  match v with KPair b i => ok (b, i) | KBool _ => raise TypeError end.

(** [key_index < n]: ordering [None] against an [int] raises. *)
Definition index_lt (i : option nat) (n : nat) : result bool :=
  match i with Some k => ok (k <? n) | None => raise TypeError end.

(** [re.fullmatch(pattern, key)] seen as a test: [None] when the pattern does
    not compile ([re.error]), [Some true] for a match object, [Some false]
    for [None]. *)
Class ReEngine := re_fullmatch : string -> string -> option bool.

(** The loop of [key_matches], [p] being the index of the head of [patterns]
    in the list the function was called with. *)
Fixpoint key_matches_from {engine : ReEngine} (p : nat) (key : string)
    (patterns : list string) (return_index : bool) : result km_value :=
  match patterns with
  | [] => ok (if return_index then KPair false None else KBool false)
  | pattern :: rest =>
      match re_fullmatch pattern key with
      | None => raise ReError
      | Some true => ok (if return_index then KPair true (Some p) else KBool true)
      | Some false => key_matches_from (S p) key rest return_index
      end
  end.

Definition key_matches {engine : ReEngine} (key : string) (patterns : list string)
    (return_index : bool) : result km_value :=
  key_matches_from 0 key patterns return_index.

(** [i] is the index of the first pattern of [ps] that [k] fully matches,
    every earlier pattern having been tried without a match. *)
Definition first_full_match {engine : ReEngine} (k : string) (ps : list string)
    (i : nat) : Prop :=
  (exists p, ps !! i = Some p /\ re_fullmatch p k = Some true) /\
  forall j p, j < i -> ps !! j = Some p -> re_fullmatch p k = Some false.

(** No pattern of [ps] fully matches [k]. *)
Definition no_full_match {engine : ReEngine} (k : string) (ps : list string) : Prop :=
  forall p, p ∈ ps -> re_fullmatch p k = Some false.

(** Every pattern of [ps] compiles. *)
Definition patterns_compile {engine : ReEngine} (k : string) (ps : list string) : Prop :=
  forall p, p ∈ ps -> re_fullmatch p k <> None.

(** ** A matcher for a fragment of the pattern syntax of [re]

    The fragment: ordinary characters, [.], a backslash followed by a
    punctuation character, and one of the postfix operators [*], [+], [?]
    after an item. It contains every default pattern of the script. For a
    pattern outside the fragment [py_fullmatch] answers [None]. *)

Module Regex.

Inductive regex : Set :=
| Void
| Eps
| Lit (c : ascii)
| AnyChar
| Seq (r s : regex)
| Alt (r s : regex)
| Star (r : regex).

Definition newline : ascii := "010"%char.

Definition ascii_eqb (a b : ascii) : bool := bool_decide (a = b).

Fixpoint nullable (r : regex) : bool :=
  match r with
  | Void | Lit _ | AnyChar => false
  | Eps | Star _ => true
  | Seq r s => nullable r && nullable s
  | Alt r s => nullable r || nullable s
  end.

(** Brzozowski derivative. [.] matches any character except a newline. *)
Fixpoint deriv (c : ascii) (r : regex) : regex :=
  match r with
  | Void | Eps => Void
  | Lit d => if ascii_eqb c d then Eps else Void
  | AnyChar => if ascii_eqb c newline then Void else Eps
  | Seq r s =>
      if nullable r then Alt (Seq (deriv c r) s) (deriv c s)
      else Seq (deriv c r) s
  | Alt r s => Alt (deriv c r) (deriv c s)
  | Star r => Seq (deriv c r) (Star r)
  end.

Fixpoint matches (r : regex) (s : string) : bool :=
  match s with
  | "" => nullable r
  | String c s' => matches (deriv c r) s'
  end.

(** The words of a regular expression. *)
Inductive lang : regex -> string -> Prop :=
| lang_eps : lang Eps ""
| lang_lit c : lang (Lit c) (String c "")
| lang_any c : c <> newline -> lang AnyChar (String c "")
| lang_seq r s u v : lang r u -> lang s v -> lang (Seq r s) (u +:+ v)
| lang_alt_l r s u : lang r u -> lang (Alt r s) u
| lang_alt_r r s u : lang s u -> lang (Alt r s) u
| lang_star_nil r : lang (Star r) ""
| lang_star_app r u v : lang r u -> lang (Star r) v -> lang (Star r) (u +:+ v).

(** Items of a pattern while it is read left to right. *)
Inductive pstate : Set :=
| PStart                 (* nothing pending *)
| PAtom (a : regex)      (* an item that may still take a postfix operator *)
| PQuant.                (* a postfix operator was just read *)

Definition is_quantifier (c : ascii) : bool :=
  match c with "*" | "+" | "?" => true | _ => false end%char.

Definition quantify (c : ascii) (a : regex) : regex :=
  match c with
  | "*" => Star a
  | "+" => Seq a (Star a)
  | _ => Alt Eps a
  end%char.

(** Characters with a meaning of their own that the fragment leaves out. *)
Definition is_unsupported (c : ascii) : bool :=
  match c with
  | "^" | "$" | "{" | "}" | "[" | "]" | "|" | "(" | ")" => true
  | _ => false
  end%char.

Definition is_backslash (c : ascii) : bool :=
  match c with "\" => true | _ => false end%char.

(** ASCII punctuation: a backslash before one of these stands for the
    character itself. *)
Definition is_punct (c : ascii) : bool :=
  let n := nat_of_ascii c in
  (33 <=? n) && (n <=? 47) || (58 <=? n) && (n <=? 64) ||
  (91 <=? n) && (n <=? 96) || (123 <=? n) && (n <=? 126).

Definition flush (st : pstate) (r : regex) : regex :=
  match st with PAtom a => Seq a r | _ => r end.

Fixpoint parse (st : pstate) (s : string) : option regex :=
  match s with
  | "" => Some (flush st Eps)
  | String c rest =>
      if is_quantifier c then
        match st with
        | PAtom a => Seq (quantify c a) <$> parse PQuant rest
        | _ => None
        end
      else if is_backslash c then
        match rest with
        | String d rest' =>
            if is_punct d then flush st <$> parse (PAtom (Lit d)) rest'
            else None
        | "" => None
        end
      else if is_unsupported c then None
      else flush st <$>
             parse (PAtom (if ascii_eqb c "."%char then AnyChar else Lit c)) rest
  end.

Definition py_fullmatch (pattern key : string) : option bool :=
  r ← parse PStart pattern; Some (matches r key).

(** A pattern made of ordinary characters only. *)
Definition plain_char (c : ascii) : bool :=
  negb (is_quantifier c || is_backslash c || is_unsupported c ||
        ascii_eqb c "."%char).

Fixpoint plain (s : string) : bool :=
  match s with
  | "" => true
  | String c s' => plain_char c && plain s'
  end.

(** The expression read from a pattern of ordinary characters. *)
Fixpoint literal (p : string) : regex :=
  match p with
  | "" => Eps
  | String c p' => Seq (Lit c) (literal p')
  end.

End Regex.

(** The matcher above as an engine for [key_matches]. *)
Definition py_engine : ReEngine := Regex.py_fullmatch.

(** ** Strings: the methods of [str], [os.path] and [pathlib] the script uses *)

Fixpoint str_take (n : nat) (s : string) : string :=
  match n, s with
  | S n', String c s' => String c (str_take n' s')
  | _, _ => ""
  end.

Fixpoint str_drop (n : nat) (s : string) : string :=
  match n, s with
  | S n', String _ s' => str_drop n' s'
  | _, _ => s
  end.

(** [s.startswith(p)] *)
Definition startswith (p s : string) : bool := String.prefix p s.

(** [s.endswith(p)] *)
Definition endswith (p s : string) : bool :=
  bool_decide (str_drop (String.length s - String.length p) s = p).

(** [s.find(old)] *)
Fixpoint str_find (old s : string) : option nat :=
  if String.prefix old s then Some 0
  else match s with
       | "" => None
       | String _ s' => S <$> str_find old s'
       end.

(** [old in s] *)
Definition str_contains (old s : string) : bool :=
  bool_decide (is_Some (str_find old s)).

(** [s.rfind(c)] for a one-character [c]. *)
Fixpoint rfind_char (c : ascii) (s : string) : option nat :=
  match s with
  | "" => None
  | String d s' =>
      match rfind_char c s' with
      | Some i => Some (S i)
      | None => if bool_decide (d = c) then Some 0 else None
      end
  end.

(** [s.rstrip(c)] for a one-character [c]. *)
Fixpoint rstrip_char (c : ascii) (s : string) : string :=
  match s with
  | "" => ""
  | String d s' =>
      let t := rstrip_char c s' in
      if bool_decide (t = "") && bool_decide (d = c) then "" else String d t
  end.

(** The scan of [s.replace(old, new)] for a non-empty [old]: occurrences are
    replaced left to right without overlap; [skip] counts the characters of
    the occurrence just replaced that are still to be passed over. *)
Fixpoint replace_go (old new : string) (skip : nat) (s : string) : string :=
  match s with
  | "" => ""
  | String c s' =>
      match skip with
      | S k => replace_go old new k s'
      | 0 =>
          if String.prefix old s
          then new +:+ replace_go old new (String.length old - 1) s'
          else String c (replace_go old new 0 s')
      end
  end.

Fixpoint intersperse_str (new s : string) : string :=
  match s with
  | "" => new
  | String c s' => new +:+ String c (intersperse_str new s')
  end.

(** [s.replace(old, new)] *)
Definition str_replace (old new s : string) : string :=
  match old with
  | "" => intersperse_str new s
  | _ => replace_go old new 0 s
  end.

(** [sep.join(l)] *)
Definition str_join (sep : string) (l : list string) : string :=
  String.concat sep l.

(** [s.split(c)] for a one-character [c]; [cur] is the piece being read,
    reversed. *)
Fixpoint split_go (c : ascii) (cur : string) (s : string) : list string :=
  match s with
  | "" => [String.rev cur]
  | String d s' =>
      if bool_decide (d = c) then String.rev cur :: split_go c "" s'
      else split_go c (String d cur) s'
  end.

Definition str_split (c : ascii) (s : string) : list string := split_go c "" s.

(** [s.isdigit()] on ASCII text. *)
Fixpoint all_digits (s : string) : bool :=
  match s with
  | "" => true
  | String c s' => bool_decide (is_Some (Ascii.is_nat c)) && all_digits s'
  end.

Definition isdigit (s : string) : bool :=
  negb (bool_decide (s = "")) && all_digits s.

(** [int(s)] for a string of digits, read left to right. *)
Fixpoint int_of_digits (acc : nat) (s : string) : nat :=
  match s with
  | "" => acc
  | String c s' => int_of_digits (10 * acc + default 0 (Ascii.is_nat c)) s'
  end.

(** [str(n)] *)
Definition str_of_nat (n : nat) : string := pretty n.

(** [str(z)] *)
Definition str_of_Z (z : Z) : string := pretty z.

(** [str(t)] for a tuple of integers, as printed for an array shape. *)
Definition str_of_shape (sh : list nat) : string :=
  match sh with
  | [] => "()"
  | [n] => "(" +:+ str_of_nat n +:+ ",)"
  | _ => "(" +:+ str_join ", " (str_of_nat <$> sh) +:+ ")"
  end.

Module os_path.

Definition slash : ascii := "/"%char.
Definition dot : ascii := "."%char.

(** [os.path.basename]: what follows the last slash. *)
Definition basename (p : string) : string :=
  match rfind_char slash p with
  | Some i => str_drop (S i) p
  | None => p
  end.

(** [os.path.dirname]: what precedes the last slash, without trailing
    slashes unless it consists of slashes only. *)
Definition dirname (p : string) : string :=
  let head := match rfind_char slash p with
              | Some i => str_take (S i) p
              | None => ""
              end in
  if bool_decide (rstrip_char slash head = "") then head
  else rstrip_char slash head.

Fixpoint all_dots (s : string) : bool :=
  match s with
  | "" => true
  | String c s' => bool_decide (c = dot) && all_dots s'
  end.

(** [os.path.splitext]: split at the last dot of the last component, leading
    dots of that component not counting. *)
Definition splitext (p : string) : string * string :=
  let name_start := match rfind_char slash p with Some i => S i | None => 0 end in
  match rfind_char dot p with
  | Some d =>
      if (name_start <=? d) &&
         negb (all_dots (str_take (d - name_start) (str_drop name_start p)))
      then (str_take d p, str_drop d p)
      else (p, "")
  | None => (p, "")
  end.

(** [os.path.join] of two components. *)
Definition join (a b : string) : string :=
  if startswith "/" b then b
  else if bool_decide (a = "") || endswith "/" a then a +:+ b
  else a +:+ "/" +:+ b.

End os_path.

(** [pathlib.PurePosixPath] *)
Module pathlib.

Record pure_path : Set := PurePath { root : string; parts : list string }.

(** Parsing: empty components and [.] components are dropped; exactly two
    leading slashes are kept as they are, any other number collapses to one. *)
Definition Path (s : string) : pure_path :=
  {| root := if startswith "//" s && negb (startswith "///" s) then "//"
             else if startswith "/" s then "/" else "";
     parts := filter (fun c => c <> "" /\ c <> ".") (str_split os_path.slash s) |}.

(** [str(p)] *)
Definition str (p : pure_path) : string :=
  match root p, parts p with
  | "", [] => "."
  | r, ps => r +:+ str_join "/" ps
  end.

(** [p.name] *)
Definition name (p : pure_path) : string := default "" (last (parts p)).

(** [p.suffix]: from the last dot of the name on, unless that dot is the
    first or the last character of the name. *)
Definition suffix (p : pure_path) : string :=
  let n := name p in
  match rfind_char os_path.dot n with
  | Some i => if (0 <? i) && (i <? String.length n - 1) then str_drop i n else ""
  | None => ""
  end.

(** [p.with_suffix(suffix)] *)
Definition with_suffix (p : pure_path) (new_suffix : string) : result pure_path :=
  if str_contains "/" new_suffix then raise ValueError
  else if negb (bool_decide (new_suffix = "")) && negb (startswith "." new_suffix)
          || bool_decide (new_suffix = ".") then raise ValueError
  else if bool_decide (name p = "") then raise ValueError
  else
    let old_suffix := suffix p in
    let stem := str_take (String.length (name p) - String.length old_suffix) (name p) in
    ok {| root := root p;
          parts := take (length (parts p) - 1) (parts p) ++ [stem +:+ new_suffix] |}.

End pathlib.

(** ** Arrays

    A [numpy] array is its shape and its cells, a cell being addressed by one
    index per axis. *)

Record ndarray (V : Type) : Type := NdArray { shape : list nat; cell : list nat -> V }.
Arguments NdArray {V} _ _.
Arguments shape {V} _.
Arguments cell {V} _ _.

Section Arrays.
Context {V : Type}.

(** [len(a.shape)] *)
Definition ndim (a : ndarray V) : nat := length (shape a).

(** [a.shape[k]] *)
Definition shape_at (a : ndarray V) (k : nat) : result nat :=
  match shape a !! k with Some d => ok d | None => raise IndexError end.

(** [np.zeros(sh)], [np.ones(sh) * v]: every cell holds [v]. *)
Definition full (sh : list nat) (v : V) : ndarray V :=
  {| shape := sh; cell := fun _ => v |}.

(** [a[i]] *)
Definition sub_array (a : ndarray V) (i : nat) : ndarray V :=
  {| shape := tail (shape a); cell := fun idx => cell a (i :: idx) |}.

(** The items of [enumerate(a)]: iteration runs over the first axis. *)
Definition iter_first (a : ndarray V) : result (list (nat * ndarray V)) :=
  match shape a with
  | [] => raise TypeError
  | n :: _ => ok ((fun i => (i, sub_array a i)) <$> seq 0 n)
  end.

(** The array [a[:, :, None]] of an array with two axes or more: an axis of
    length one is inserted in third position. *)
Definition with_new_axis2 (a : ndarray V) : ndarray V :=
  {| shape := take 2 (shape a) ++ 1 :: drop 2 (shape a);
     cell := fun idx => cell a (take 2 idx ++ drop 3 idx) |}.

(** [a[:, :, None]] *)
Definition new_axis2 (a : ndarray V) : result (ndarray V) :=
  if ndim a <? 2 then raise IndexError else ok (with_new_axis2 a).

(** The array [a[:, :, i]] for [i] within the third axis: that axis is
    dropped and its index fixed to [i]. *)
Definition channel_at (a : ndarray V) (i : nat) : ndarray V :=
  {| shape := take 2 (shape a) ++ drop 3 (shape a);
     cell := fun idx => cell a (take 2 idx ++ i :: drop 2 idx) |}.

(** [a[:, :, i]] *)
Definition index_axis2 (a : ndarray V) (i : nat) : result (ndarray V) :=
  match shape a !! 2 with
  | None => raise IndexError
  | Some c => if i <? c then ok (channel_at a i) else raise IndexError
  end.

(** The array [a[:, :, :n]] of an array with three axes or more: the third
    axis is cut to its first [n] positions. *)
Definition first_channels (a : ndarray V) (n : nat) : ndarray V :=
  {| shape := take 2 (shape a) ++ (n `min` default 0 (shape a !! 2)) :: drop 3 (shape a);
     cell := cell a |}.

(** [a[:, :, :n]] *)
Definition slice_axis2_to (a : ndarray V) (n : nat) : result (ndarray V) :=
  match shape a !! 2 with
  | None => raise IndexError
  | Some _ => ok (first_channels a n)
  end.

(** All the indices of an array of shape [sh], in row-major order. *)
Fixpoint indices (sh : list nat) : list (list nat) :=
  match sh with
  | [] => [[]]
  | n :: sh' => i ← seq 0 n; (fun idx => i :: idx) <$> indices sh'
  end.

(** The cells in row-major order. *)
Definition cells (a : ndarray V) : list V := cell a <$> indices (shape a).

(** An elementwise operation. *)
Definition map_cells (f : V -> V) (a : ndarray V) : ndarray V :=
  {| shape := shape a; cell := fun idx => f (cell a idx) |}.

(** The larger of two values for an order test [leb]. *)
Definition max_step (leb : V -> V -> bool) (m x : V) : V :=
  if leb m x then x else m.

(** [a.max()]: an empty array has no maximum. *)
Definition amax (leb : V -> V -> bool) (a : ndarray V) : result V :=
  match cells a with
  | [] => raise ValueError
  | v :: vs => ok (foldl (max_step leb) v vs)
  end.

(** Broadcasting, on reversed shapes: may a value of shape [src] be stored in
    a region of shape [dst]? Axes are aligned from the last one; a source axis
    must have the length of the region's axis or length one, and source axes
    beyond those of the region must have length one. *)
Fixpoint bcast_ok (src dst : list nat) : bool :=
  match src, dst with
  | [], _ => true
  | s :: src', [] => (s =? 1) && bcast_ok src' []
  | s :: src', d :: dst' => ((s =? d) || (s =? 1)) && bcast_ok src' dst'
  end.

(** The source index read for the region index [idx] (both reversed). *)
Fixpoint bcast_idx (src idx : list nat) : list nat :=
  match src, idx with
  | [], _ => []
  | s :: src', [] => 0 :: bcast_idx src' []
  | s :: src', i :: idx' => (if s =? 1 then 0 else i) :: bcast_idx src' idx'
  end.

Definition bcast_cell (src : ndarray V) (idx : list nat) : V :=
  cell src (reverse (bcast_idx (reverse (shape src)) (reverse idx))).

(** [dst[..., k] = v] for a scalar [v]. *)
Definition assign_last_scalar (dst : ndarray V) (k : nat) (v : V) : result (ndarray V) :=
  match last (shape dst) with
  | None => raise IndexError
  | Some c =>
      if k <? c
      then ok {| shape := shape dst;
                 cell := fun idx => if bool_decide (last idx = Some k) then v
                                    else cell dst idx |}
      else raise IndexError
  end.

(** [dst[..., k] = src] *)
Definition assign_last (dst : ndarray V) (k : nat) (src : ndarray V) : result (ndarray V) :=
  match last (shape dst) with
  | None => raise IndexError
  | Some c =>
      if k <? c then
        let region := take (length (shape dst) - 1) (shape dst) in
        if bcast_ok (reverse (shape src)) (reverse region)
        then ok {| shape := shape dst;
                   cell := fun idx =>
                     if bool_decide (last idx = Some k)
                     then bcast_cell src (take (length idx - 1) idx)
                     else cell dst idx |}
        else raise ValueError
      else raise IndexError
  end.

(** A slice [lo:hi] of an axis of length [d], [hi] absent in [lo:]; bounds
    beyond the axis are clipped. The result is the first index and the number
    of indices of the slice. *)
Definition clip_slice (d : nat) (sl : nat * option nat) : nat * nat :=
  let lo := sl.1 `min` d in
  let hi := default d sl.2 `min` d in
  (lo, hi - lo).

(** The region addressed by one slice per leading axis, the other axes being
    taken whole. *)
Fixpoint region_of (sh : list nat) (sls : list (nat * option nat)) : list (nat * nat) :=
  match sh with
  | [] => []
  | d :: sh' =>
      match sls with
      | [] => (0, d) :: region_of sh' []
      | sl :: sls' => clip_slice d sl :: region_of sh' sls'
      end
  end.

Fixpoint in_region (reg : list (nat * nat)) (idx : list nat) : bool :=
  match reg, idx with
  | [], [] => true
  | (lo, n) :: reg', i :: idx' => (lo <=? i) && (i <? lo + n) && in_region reg' idx'
  | _, _ => false
  end.

Fixpoint region_offset (reg : list (nat * nat)) (idx : list nat) : list nat :=
  match reg, idx with
  | (lo, _) :: reg', i :: idx' => (i - lo) :: region_offset reg' idx'
  | _, _ => []
  end.

(** [dst[s1, s2, ...] = src], the cells being converted by [cast] to the
    element type of [dst]. *)
Definition assign_slices (cast : V -> V) (dst : ndarray V)
    (sls : list (nat * option nat)) (src : ndarray V) : result (ndarray V) :=
  if length (shape dst) <? length sls then raise IndexError
  else
    let reg := region_of (shape dst) sls in
    if bcast_ok (reverse (shape src)) (reverse (snd <$> reg))
    then ok {| shape := shape dst;
               cell := fun idx =>
                 if in_region reg idx
                 then cast (bcast_cell src (region_offset reg idx))
                 else cell dst idx |}
    else raise ValueError.

End Arrays.

(** ** JSON values, as [json.loads] returns them *)

#[local] Unset Elimination Schemes.
Inductive json : Set :=
| JNull
| JBool (b : bool)
| JNum (z : Z)
| JStr (s : string)
| JArr (items : list json)
| JObj (fields : list (string * json)).
#[local] Set Elimination Schemes.

(** [len(j)] *)
Definition json_len (j : json) : result nat :=
  match j with
  | JStr s => ok (String.length s)
  | JArr l => ok (length l)
  | JObj f => ok (length f)
  | _ => raise TypeError
  end.

(** [j[0]] *)
Definition json_first (j : json) : result json :=
  match j with
  | JArr (x :: _) => ok x
  | JArr [] => raise IndexError
  | JStr (String c _) => ok (JStr (String c ""))
  | JStr "" => raise IndexError
  | JObj _ => raise KeyError
  | _ => raise TypeError
  end.

(** [j.items()] *)
Definition json_items (j : json) : result (list (string * json)) :=
  match j with
  | JObj f => ok f
  | _ => raise AttributeError
  end.

(** [j.isdigit()] *)
Definition json_isdigit (j : json) : result bool :=
  match j with
  | JStr s => ok (isdigit s)
  | _ => raise AttributeError
  end.

(** [int(j)] where [j.isdigit()] holds. *)
Definition json_int (j : json) : result nat :=
  match j with
  | JStr s => ok (int_of_digits 0 s)
  | _ => raise TypeError
  end.

(** ** The HDF5 container and the file system *)

(** A stored dataset: the array [np.array(d)], whether its dtype is ["|S5"],
    the text [str(np.array(d))], and the outcome of
    [json.loads(np.array(d).tostring())]. *)
Record dataset (V : Type) : Type := Dataset {
  ds_value : ndarray V;
  ds_is_S5 : bool;
  ds_str : string;
  ds_json : result json }.
Arguments Dataset {V} _ _ _ _.
Arguments ds_value {V} _.
Arguments ds_is_S5 {V} _.
Arguments ds_str {V} _.
Arguments ds_json {V} _.

(** An open container: its datasets in the order [keys()] lists them. *)
Definition h5file (V : Type) : Type := list (string * dataset V).

(** [key in f] *)
Definition h5_contains {V} (f : h5file V) (key : string) : bool :=
  bool_decide (key ∈ f.*1).

(** [f[key]] *)
Fixpoint h5_get {V} (f : h5file V) (key : string) : result (dataset V) :=
  match f with
  | [] => raise KeyError
  | (k, d) :: f' => if bool_decide (k = key) then ok d else h5_get f' key
  end.

(** What [plt.imsave] was given. *)
Record saved (V : Type) : Type := Saved {
  sv_img : ndarray V;
  sv_cmap : option string;
  sv_vmax : option V }.
Arguments Saved {V} _ _ _.
Arguments sv_img {V} _.
Arguments sv_cmap {V} _.
Arguments sv_vmax {V} _.

Inductive node (V : Type) : Type :=
| Directory
| Hdf5 (f : h5file V)
| Png (s : saved V)
| OtherFile.
Arguments Directory {V}.
Arguments Hdf5 {V} _.
Arguments Png {V} _.
Arguments OtherFile {V}.

(** ** Observable calls and the monad of the script *)

Inductive event (V : Type) : Type :=
| Print (line : string)
| PltFigure
| PltTitle (label : string)
| PltImshow (img : ndarray V) (cmap : option string) (vmax : option V)
| PltColorbar
| PltImsave (fname : string) (img : ndarray V) (cmap : option string) (vmax : option V)
| PltClose
| RandomSample (population : list string) (k : Z).
Arguments Print {V} _.
Arguments PltFigure {V}.
Arguments PltTitle {V} _.
Arguments PltImshow {V} _ _ _.
Arguments PltColorbar {V}.
Arguments PltImsave {V} _ _ _ _.
Arguments PltClose {V}.
Arguments RandomSample {V} _ _.

(** A computation starts from a file system and yields the calls it made, the
    file system it leaves and its value or the exception that ended it. *)
Definition Py (V A : Type) : Type :=
  gmap string (node V) -> list (event V) * gmap string (node V) * result A.

#[global] Instance Py_ret {V} : MRet (Py V) := fun A a fs => ([], fs, ok a).
#[global] Instance Py_bind {V} : MBind (Py V) := fun A B f m fs =>
  match m fs with
  | (t1, fs1, inl e) => (t1, fs1, inl e)
  | (t1, fs1, inr a) =>
      match f a fs1 with (t2, fs2, r) => (t1 ++ t2, fs2, r) end
  end.

Section PyOps.
Context {V : Type}.

Definition emit (e : event V) : Py V unit := fun fs => ([e], fs, ok tt).

Definition lift {A} (r : result A) : Py V A := fun fs => ([], fs, r).

Definition fs_lookup (p : string) : Py V (option (node V)) :=
  fun fs => ([], fs, ok (fs !! p)).

Definition fs_write (p : string) (n : node V) : Py V unit :=
  fun fs => ([], <[p := n]> fs, ok tt).

Definition fs_delete (p : string) : Py V unit :=
  fun fs => ([], delete p fs, ok tt).

(** [try: m except ImportError as e: h] *)
Definition except_ImportError {A} (m : Py V A) (h : Py V A) : Py V A := fun fs =>
  match m fs with
  | (t1, fs1, inl (ImportError _)) =>
      match h fs1 with (t2, fs2, r) => (t1 ++ t2, fs2, r) end
  | out => out
  end.

(** [for x in l: body] *)
Fixpoint for_each {A} (l : list A) (body : A -> Py V unit) : Py V unit :=
  match l with
  | [] => mret tt
  | x :: l' => body x;; for_each l' body
  end.

Definition when (b : bool) (m : Py V unit) : Py V unit :=
  if b then m else mret tt.

Definition print (line : string) : Py V unit := emit (Print line).

Definition plt_figure : Py V unit := emit PltFigure.
Definition plt_title (label : string) : Py V unit := emit (PltTitle label).
Definition plt_imshow (img : ndarray V) (cmap : option string) (vmax : option V) : Py V unit :=
  emit (PltImshow img cmap vmax).
Definition plt_colorbar : Py V unit := emit PltColorbar.
Definition plt_close : Py V unit := emit PltClose.

(** [plt.imsave] writes the file. *)
Definition plt_imsave (fname : string) (img : ndarray V) (cmap : option string)
    (vmax : option V) : Py V unit :=
  emit (PltImsave fname img cmap vmax);;
  fs_write fname (Png (Saved img cmap vmax)).

(** [os.path.exists], [os.path.isfile], [os.makedirs], [os.remove] *)
Definition os_path_exists (p : string) : Py V bool :=
  n ← fs_lookup p; mret (bool_decide (is_Some n)).

Definition os_path_isfile (p : string) : Py V bool :=
  n ← fs_lookup p;
  mret (match n with Some Directory | None => false | Some _ => true end).

Definition os_makedirs (p : string) : Py V unit :=
  n ← fs_lookup p;
  match n with
  | Some _ => lift (raise OSError)
  | None => fs_write p Directory
  end.

Definition os_remove (p : string) : Py V unit :=
  n ← fs_lookup p;
  match n with
  | None => lift (raise FileNotFoundError)
  | Some Directory => lift (raise OSError)
  | Some _ => fs_delete p
  end.

(** [h5py.File(path, "r")] on a path that is a file. *)
Definition h5py_File (p : string) : Py V (h5file V) :=
  n ← fs_lookup p;
  match n with
  | Some (Hdf5 f) => mret f
  | Some _ => lift (raise OSError)
  | None => lift (raise FileNotFoundError)
  end.

End PyOps.

(** ** Optical flow *)

(** The arithmetic on flow values: the constants [0] and [1] and the
    conversion [x * 180 / np.pi]. *)
Class FlowScalar (V : Type) : Type := {
  fl_zero : V;
  fl_one : V;
  fl_degrees : V -> V }.

(** The functions of [cv2] the script calls:
    [cv2.cartToPolar(x, y)], returning magnitude and angle,
    [cv2.normalize(m, None, 0, 1, cv2.NORM_MINMAX)] and
    [cv2.cvtColor(hsv, cv2.COLOR_HSV2RGB)]. *)
Class Cv2 (V : Type) : Type := {
  cartToPolar : ndarray V -> ndarray V -> result (ndarray V * ndarray V);
  normalize_minmax : ndarray V -> result (ndarray V);
  cvtColor_HSV2RGB : ndarray V -> result (ndarray V) }.

(** What is assumed of [cv2]: given two arrays of one shape, [cartToPolar]
    returns a magnitude and an angle of that shape; [normalize] returns an
    array of the shape of its argument; [cvtColor] returns an image of the
    shape of the three-channel image it is given. *)
Definition cv2_keeps_shapes {V} (m : Cv2 V) : Prop :=
  (forall x y, shape x = shape y ->
     exists mag ang, cartToPolar x y = ok (mag, ang) /\
                     shape mag = shape x /\ shape ang = shape x) /\
  (forall x, exists n, normalize_minmax x = ok n /\ shape n = shape x) /\
  (forall hsv h w, shape hsv = [h; w; 3] ->
     exists rgb, cvtColor_HSV2RGB hsv = ok rgb /\ shape rgb = [h; w; 3]).

(** [import cv2]: [None] when the package is not installed. *)
Class Cv2Import (V : Type) : Type := import_cv2 : option (Cv2 V).

(** [h, w = t] *)
Definition unpack2 (t : list nat) : result (nat * nat) :=
  match t with [h; w] => ok (h, w) | _ => raise ValueError end.

Definition flow_to_rgb {V} {fl : FlowScalar V} {cv : Cv2Import V} (flow : ndarray V)
    : result (ndarray V) :=
  match import_cv2 with
  | None => raise (ImportError "No module named 'cv2'")
  | Some cv2 =>
      im1 ← index_axis2 flow 0;
      im2 ← index_axis2 flow 1;
      hw ← unpack2 (take 2 (shape flow));
      let hsv := full [hw.1; hw.2; 3] fl_zero in
      hsv ← assign_last_scalar hsv 1 fl_one;
      mag_ang ← cartToPolar im1 im2;
      hsv ← assign_last hsv 0 (map_cells fl_degrees mag_ang.2);
      norm ← normalize_minmax mag_ang.1;
      hsv ← assign_last hsv 2 norm;
      cvtColor_HSV2RGB hsv
  end.

(** ** The renderer *)

(** The loop over [segcolormap[0].items()]: a field named [channel_<label>]
    whose value is a string of digits gives channel [int(value)] its label. *)
Fixpoint collect_channel_labels (items : list (string * json))
    (channel_labels : gmap nat string) : result (gmap nat string) :=
  match items with
  | [] => ok channel_labels
  | (colormap_key, colormap_value) :: rest =>
      if startswith "channel_" colormap_key then
        d ← json_isdigit colormap_value;
        if d : bool then
          i ← json_int colormap_value;
          collect_channel_labels rest
            (<[i := str_drop (String.length "channel_") colormap_key]> channel_labels)
        else collect_channel_labels rest channel_labels
      else collect_channel_labels rest channel_labels
  end.

(** Lines 112 to 124 of the script, after the index of the matching pattern
    was found: the labels read from the legend stored under
    [segcolormap_keys[key_index]]. *)
Definition find_channel_labels {V} (full_hdf5_data : option (h5file V))
    (segcolormap_keys : list string) (key_index : option nat)
    : result (gmap nat string) :=
  lt ← index_lt key_index (length segcolormap_keys);
  if lt : bool then
    match key_index ≫= (segcolormap_keys !!.) with
    | None => raise IndexError
    | Some segcolormap_key =>
        match full_hdf5_data with
        | Some f =>
            if h5_contains f segcolormap_key then
              d ← h5_get f segcolormap_key;
              segcolormap ← ds_json d;
              n ← json_len segcolormap;
              if 0 <? n then
                first ← json_first segcolormap;
                items ← json_items first;
                collect_channel_labels items ∅
              else ok ∅
            else ok ∅
        | None => ok ∅
        end
    end
  else ok ∅.

Definition depth_warning (key : string) : string :=
  "Warning: The data with key '" +:+ key +:+
  "' has more than one channel which would not allow using " +:+
  "a jet color map. Therefore only the first channel is visualized.".

Definition flow_import_message : string :=
  "Using .hdf5 containers, which contain flow images needs opencv-python to be installed!".

(** [channel_labels.get(i, i)], as it is formatted in a title or a file name. *)
Definition channel_label (channel_labels : gmap nat string) (i : nat) : string :=
  default (str_of_nat i) (channel_labels !! i).

(** The file a channel is saved to: with more than one channel,
    [save_to_file.replace(".png", f"_{channel_label}.png")]. *)
Definition channel_file_name (save_to_file : string) (channels : nat)
    (label : string) : string :=
  if 1 <? channels
  then str_replace ".png" ("_" +:+ label +:+ ".png") save_to_file
  else save_to_file.

Definition segmap_title (key label file_label : string) : string :=
  key +:+ " / " +:+ label +:+ " in " +:+ file_label.

Definition figure_title (key file_label : string) : string :=
  key +:+ " in " +:+ file_label.

Section Renderer.
Context {V : Type} {engine : ReEngine} {fl : FlowScalar V} {cv : Cv2Import V}.

(** The body of the loop over the channels of a segmentation map. *)
Definition vis_segmap_channel (key : string) (data : ndarray V) (file_label : string)
    (channel_labels : gmap nat string) (channels : nat) (save_to_file : option string)
    (i : nat) : Py V unit :=
  (* Try to determine label *)
  let label := channel_label channel_labels i in
  (* Visualize channel *)
  match save_to_file with
  | None =>
      plt_figure;;
      plt_title (segmap_title key label file_label);;
      ch ← lift (index_axis2 data i);
      plt_imshow ch (Some "jet") None
  | Some save_to_file =>
      let filename := channel_file_name save_to_file channels label in
      ch ← lift (index_axis2 data i);
      plt_imsave filename ch (Some "jet") None;;
      plt_close
  end.

Definition vis_data (key : string) (data : ndarray V)
    (full_hdf5_data : option (h5file V)) (file_label : string)
    (rgb_keys flow_keys segmap_keys segcolormap_keys depth_keys : option (list string))
    (depth_max : V) (save_to_file : option string) : Py V unit :=
  let rgb_keys := default default_rgb_keys rgb_keys in
  let flow_keys := default default_flow_keys flow_keys in
  let segmap_keys := default default_segmap_keys segmap_keys in
  let segcolormap_keys := default default_segcolormap_keys segcolormap_keys in
  let depth_keys := default default_depth_keys depth_keys in
  (* If key is valid and does not contain segmentation data, create figure
     and add title *)
  m ← lift (key_matches key (flow_keys ++ rgb_keys ++ depth_keys) false);
  when (truthy m)
    (plt_figure;; plt_title (figure_title key file_label));;
  m ← lift (key_matches key flow_keys false);
  if truthy m then
    except_ImportError
      (match save_to_file with
       | None =>
           img ← lift (flow_to_rgb data);
           plt_imshow img (Some "jet") None
       | Some save_to_file =>
           img ← lift (flow_to_rgb data);
           plt_imsave save_to_file img (Some "jet") None;;
           plt_close
       end)
      (lift (raise (ImportError flow_import_message)))
  else
  m ← lift (key_matches key segmap_keys false);
  if truthy m then
    (* Try to find labels for each channel in the segcolormap *)
    r ← lift (key_matches key segmap_keys true);
    p ← lift (unpack_pair r);
    channel_labels ← lift (find_channel_labels full_hdf5_data segcolormap_keys p.2);
    (* Make sure we have three dimensions *)
    data ← (if ndim data =? 2 then lift (new_axis2 data) else mret data);
    (* Go through all channels *)
    channels ← lift (shape_at data 2);
    for_each (seq 0 channels)
      (vis_segmap_channel key data file_label channel_labels channels save_to_file)
  else
  m ← lift (key_matches key depth_keys false);
  if truthy m then
    (* Make sure the data has only one channel *)
    data ← (if ndim data =? 3 then
              c ← lift (shape_at data 2);
              when (negb (c =? 1)) (print (depth_warning key));;
              lift (index_axis2 data 0)
            else mret data);
    match save_to_file with
    | None =>
        plt_imshow data (Some "summer") (Some depth_max);;
        plt_colorbar
    | Some save_to_file =>
        plt_imsave save_to_file data (Some "summer") (Some depth_max);;
        plt_close
    end
  else
  m ← lift (key_matches key rgb_keys false);
  if truthy m then
    match save_to_file with
    | None => plt_imshow data None None
    | Some save_to_file => plt_imsave save_to_file data None None;; plt_close
    end
  else
    match save_to_file with
    | None => plt_imshow data None None
    | Some save_to_file => plt_imsave save_to_file data None None;; plt_close
    end.

End Renderer.

(** The role the chain of tests of [vis_data] gives a key: flow, then
    segmentation map, then depth, then rgb, else none. *)
Inductive role : Set := Flow | Segmap | Depth | Rgb | Unknown.

Definition classify {engine : ReEngine} (key : string)
    (rgb_keys flow_keys segmap_keys depth_keys : list string) : result role :=
  m ← key_matches key flow_keys false;
  if truthy m then ok Flow else
  m ← key_matches key segmap_keys false;
  if truthy m then ok Segmap else
  m ← key_matches key depth_keys false;
  if truthy m then ok Depth else
  m ← key_matches key rgb_keys false;
  if truthy m then ok Rgb else ok Unknown.

(** ** The calls a rendering is expected to make *)

Section ExpectedCalls.
Context {V : Type}.

(** The part of [vis_data] that precedes the chain of tests: a figure with a
    title when the key is a flow, rgb or depth key. *)
Definition figure_calls (key label : string) (b : bool) : list (event V) :=
  if b then [PltFigure; PltTitle (figure_title key label)] else [].

(** The rounds of the loop over the channels of a segmentation map. *)
Definition channel_calls (key : string) (data : ndarray V) (label : string)
    (labels : gmap nat string) (channels : nat) (save : option string)
    (i : nat) : list (event V) :=
  match save with
  | None =>
      [PltFigure; PltTitle (segmap_title key (channel_label labels i) label);
       PltImshow (channel_at data i) (Some "jet") None]
  | Some f =>
      [PltImsave (channel_file_name f channels (channel_label labels i))
         (channel_at data i) (Some "jet") None;
       PltClose]
  end.

Definition channel_write (data : ndarray V) (labels : gmap nat string)
    (channels : nat) (save : option string) (i : nat)
    (fs : gmap string (node V)) : gmap string (node V) :=
  match save with
  | None => fs
  | Some f =>
      <[channel_file_name f channels (channel_label labels i) :=
          Png (Saved (channel_at data i) (Some "jet") None)]> fs
  end.

(** The array whose channels are rendered: a segmentation map of two axes is
    given a third one. *)
Definition promoted (data : ndarray V) : ndarray V :=
  if ndim data =? 2 then with_new_axis2 data else data.

(** "The base filename with the label appended immediately before the
    extension", the extension being what [os.path.splitext] splits off. *)
Definition label_before_extension (save_to_file label : string) : string :=
  (os_path.splitext save_to_file).1 +:+ "_" +:+ label +:+
  (os_path.splitext save_to_file).2.

End ExpectedCalls.

(** ** Visualizing a file *)

(** [str(value).replace("[", "").replace("]", "").replace("b'", "").replace("'", "")] *)
Definition strip_brackets (s : string) : string :=
  str_replace "'" "" (str_replace "b'" "" (str_replace "]" "" (str_replace "[" "" s))).

(** The entry of the printed summary for one key. *)
Definition key_summary {V} (data : h5file V) (key : string) : result string :=
  d ← h5_get data key;
  let value := ds_value d in
  let key_res :=
    if (sum_list (shape value) <? 5) || str_contains "version" key then
      if ds_is_S5 d then strip_brackets (ds_str d) else ds_str d
    else str_of_shape (shape value) in
  ok ("'" +:+ key +:+ "': " +:+ key_res).

Fixpoint key_summaries {V} (data : h5file V) (keys : list string) : result (list string) :=
  match keys with
  | [] => ok []
  | key :: rest =>
      r ← key_summary data key;
      rs ← key_summaries data rest;
      ok (r :: rs)
  end.

(** [[key for key in keys if key_matches(key, keys_to_visualize)]] *)
Fixpoint select_keys {engine : ReEngine} (keys : list string) (keys_to_visualize : list string)
    : result (list string) :=
  match keys with
  | [] => ok []
  | key :: rest =>
      m ← key_matches key keys_to_visualize false;
      rest' ← select_keys rest keys_to_visualize;
      ok (if truthy m then key :: rest' else rest')
  end.

(** The file name given to one eye of a stereo pair:
    [str(Path(f).with_suffix("")) + ("_left" if i == 0 else "_right") + Path(f).suffix] *)
Definition stereo_file_name (save_to_file : string) (i : nat) : result string :=
  stem ← pathlib.with_suffix (pathlib.Path save_to_file) "";
  ok (pathlib.str stem +:+ (if i =? 0 then "_left" else "_right") +:+
      pathlib.suffix (pathlib.Path save_to_file)).

(** [f"{folder_name}_{base_name}_{key}.png"] under [save_to_path] *)
Definition key_file_name (save_to_path path key : string) : string :=
  let folder_name := os_path.basename (os_path.dirname path) in
  let base_name := (os_path.splitext (os_path.basename path)).1 in
  os_path.join save_to_path (folder_name +:+ "_" +:+ base_name +:+ "_" +:+ key +:+ ".png").

Section Viewer.
Context {V : Type} {engine : ReEngine} {fl : FlowScalar V} {cv : Cv2Import V}.

(** The loop over the two eyes of a stereo image. The variable [save_to_file]
    is assigned in the loop and keeps its value from one round to the next. *)
Fixpoint vis_stereo (key : string) (data : h5file V) (path : string)
    (rgb_keys flow_keys segmap_keys segcolormap_keys depth_keys : option (list string))
    (depth_max : V) (items : list (nat * ndarray V)) (save_to_file : option string)
    : Py V unit :=
  match items with
  | [] => mret tt
  | (i, img) :: rest =>
      save_to_file ←
        match save_to_file with
        | Some s =>
            if bool_decide (s = "") then mret (Some s)
            else s' ← lift (stereo_file_name s i); mret (Some s')
        | None => mret None
        end;
      vis_data key img (Some data)
        (os_path.basename path +:+ (if i =? 0 then " (left)" else " (right)"))
        rgb_keys flow_keys segmap_keys segcolormap_keys depth_keys depth_max
        save_to_file;;
      vis_stereo key data path rgb_keys flow_keys segmap_keys segcolormap_keys
        depth_keys depth_max rest save_to_file
  end.

(** The body of the loop that visualizes every key. *)
Definition vis_key (data : h5file V) (path : string)
    (rgb_keys flow_keys segmap_keys segcolormap_keys depth_keys : option (list string))
    (depth_max : V) (save_to_path : option string) (key : string) : Py V unit :=
  d ← lift (h5_get data key);
  let value := ds_value d in
  let save_to_file := (fun dir => key_file_name dir path key) <$> save_to_path in
  (* Check if it is a stereo image *)
  if (3 <=? ndim value) && bool_decide (shape value !! 0 = Some 2) then
    (* Visualize both eyes separately *)
    items ← lift (iter_first value);
    vis_stereo key data path rgb_keys flow_keys segmap_keys segcolormap_keys
      depth_keys depth_max items save_to_file
  else
    vis_data key value (Some data) (os_path.basename path)
      rgb_keys flow_keys segmap_keys segcolormap_keys depth_keys depth_max
      save_to_file.

Definition vis_file (path : string) (keys_to_visualize : option (list string))
    (rgb_keys flow_keys segmap_keys segcolormap_keys depth_keys : option (list string))
    (depth_max : V) (save_to_path : option string) : Py V unit :=
  match save_to_path with
  | Some dir => e ← os_path_exists dir; when (negb e) (os_makedirs dir)
  | None => mret tt
  end;;
  (* Check if file exists *)
  e ← os_path_exists path;
  if e : bool then
    f ← os_path_isfile path;
    if f : bool then
      data ← h5py_File path;
      print (path +:+ ": ");;
      (* Select only a subset of keys if args.keys is given *)
      keys ← lift (match keys_to_visualize with
                   | Some kv => select_keys data.*1 kv
                   | None => ok data.*1
                   end);
      res ← lift (key_summaries data keys);
      when (negb (bool_decide (res = [])))
        (print ("Keys: " +:+ str_join ", " res));;
      for_each keys
        (vis_key data path rgb_keys flow_keys segmap_keys segcolormap_keys
           depth_keys depth_max save_to_path)
    else print "The path is not a file"
  else print ("The file does not exist: " +:+ path).

End Viewer.

(** ** The grid compositor *)

(** The arithmetic on pixel values: the constant [1], the test [<=],
    [(x * 255).astype(np.uint8)], the conversion made when a value is stored
    in a [uint8] array, and the white of [np.ones(..., dtype=np.uint8) * 255]. *)
Class PixelScalar (V : Type) : Type := {
  px_one : V;
  px_leb : V -> V -> bool;
  px_times255_u8 : V -> V;
  px_to_u8 : V -> V;
  px_white : V }.

(** [np.array(Image.fromarray(img).resize((width, height)))] *)
Class Pil (V : Type) : Type := pil_resize : ndarray V -> nat -> nat -> result (ndarray V).

Section Grid.
Context {V : Type} {px : PixelScalar V} {pil : Pil V}.

(** What is done to each image before it is placed (lines 293 to 298 for the
    main image, 313 to 318 for the others): the alpha channel is removed and
    an image whose maximum is at most 1 is taken to be normalized and is
    scaled. *)
Definition strip_and_scale (img : ndarray V) : result (ndarray V) :=
  c ← shape_at img 2;
  img ← (if c =? 4 then slice_axis2_to img 3 else ok img);
  m ← amax px_leb img;
  ok (if px_leb m px_one then map_cells px_times255_u8 img else img).

(** The loop over [enumerate(images[1:], start=0)]. *)
Fixpoint place_thumbnails (grid : ndarray V) (h w : nat) (i : nat)
    (imgs : list (ndarray V)) : result (ndarray V) :=
  match imgs with
  | [] => ok grid
  | img :: rest =>
      img ← strip_and_scale img;
      resized_img ← pil_resize img (w / 3) (h / 3);
      grid ← assign_slices px_to_u8 grid
               [(h, None); (i * (w / 3), Some ((i + 1) * (w / 3))); (0, None)]
               resized_img;
      place_thumbnails grid h w (S i) rest
  end.

(** The grid that [create_image_grid] saves. *)
Definition image_grid (images : list (ndarray V)) : result (ndarray V) :=
  full_image ← match images with [] => raise IndexError | x :: _ => ok x end;
  full_image ← strip_and_scale full_image;
  hw ← unpack2 (take 2 (shape full_image));
  let h := hw.1 in
  let w := hw.2 in
  let grid_h := h + h / 3 in
  let grid_w := w in
  let grid := full [grid_h; grid_w; 3] px_white in
  grid ← assign_slices px_to_u8 grid [(0, Some h); (0, Some w); (0, None)] full_image;
  place_thumbnails grid h w 0 (tail images).

Definition create_image_grid (images : list (ndarray V)) (cols : list nat)
    (save_file : string) : Py V unit :=
  grid ← lift (image_grid images);
  plt_imsave save_file grid None None.

End Grid.

(** Every cell within the shape is a [uint8] value. *)
Definition bytes (a : ndarray Z) : Prop :=
  forall idx, Forall2 lt idx (shape a) -> (0 <= cell a idx <= 255)%Z.

(** What is assumed of [PIL]: a three-channel [uint8] image of [h] rows and
    [w] columns is resized to one of [h // 3] rows and [w // 3] columns. *)
Definition pil_resizes_to_thirds (pil : Pil Z) (h w : nat) : Prop :=
  forall img, shape img = [h; w; 3] ->
    exists out, pil_resize img (w / 3) (h / 3) = ok out /\
                shape out = [h / 3; w / 3; 3] /\ bytes out.

(** ** The command line *)

(** The parsed arguments. *)
Record cli_args (V : Type) : Type := CliArgs {
  input_dir : option string;
  hdf5_paths : option (list string);
  count : Z;
  keys : list string;
  rgb_keys : list string;
  flow_keys : list string;
  segmap_keys : list string;
  segcolormap_keys : list string;
  depth_keys : list string;
  depth_max : V;
  save : string }.
Arguments CliArgs {V} _ _ _ _ _ _ _ _ _ _ _.
Arguments input_dir {V} _.
Arguments hdf5_paths {V} _.
Arguments count {V} _.
Arguments keys {V} _.
Arguments rgb_keys {V} _.
Arguments flow_keys {V} _.
Arguments segmap_keys {V} _.
Arguments segcolormap_keys {V} _.
Arguments depth_keys {V} _.
Arguments depth_max {V} _.
Arguments save {V} _.

(** [glob.glob(pattern, recursive=True)] *)
Class Glob : Type := glob_recursive : string -> list string.

(** The choice [random.sample(population, k)] makes when [0 <= k <= len(population)]. *)
Class RandomChoice : Type := random_choice : list string -> nat -> list string.

(** The pixels [plt.imread] returns for a file [plt.imsave] wrote. *)
Class PngDecode (V : Type) : Type := png_decode : saved V -> ndarray V.

Definition not_enough_message (found : nat) (need : Z) : string :=
  "Error: Not enough HDF5 files in the directory. Found " +:+ str_of_nat found +:+
  ", need " +:+ str_of_Z need +:+ ".".

Definition grid_keys : list string := ["colors"; "category_id_segmaps"; "depth"; "normals"].

Section CommandLine.
Context {V : Type} {engine : ReEngine} {fl : FlowScalar V} {cv : Cv2Import V}.
Context {px : PixelScalar V} {pil : Pil V}.
Context {glob : Glob} {rnd : RandomChoice} {png : PngDecode V}.

(** [random.sample(population, k)] *)
Definition random_sample (population : list string) (k : Z) : Py V (list string) :=
  emit (RandomSample population k);;
  if ((0 <=? k) && (k <=? Z.of_nat (length population)))%Z
  then mret (random_choice population (Z.to_nat k))
  else lift (raise ValueError).

(** [plt.imread(path)] *)
Definition plt_imread (path : string) : Py V (ndarray V) :=
  n ← fs_lookup path;
  match n with
  | Some (Png s) => mret (png_decode s)
  | Some _ => lift (raise OSError)
  | None => lift (raise FileNotFoundError)
  end.

(** The loop that reads the four rendered images back and deletes them. *)
Fixpoint read_rendered (save_dir folder_name base_name : string) (keys : list string)
    (images : list (ndarray V)) : Py V (list (ndarray V)) :=
  match keys with
  | [] => mret images
  | key :: rest =>
      let file_name := folder_name +:+ "_" +:+ base_name +:+ "_" +:+ key +:+ ".png" in
      let image_file_path := os_path.join save_dir file_name in
      img ← plt_imread image_file_path;
      os_remove image_file_path;;
      read_rendered save_dir folder_name base_name rest (images ++ [img])
  end.

(** The body of the loop over [args.hdf5_paths]. *)
Definition visualize_path (args : cli_args V) (path : string) : Py V unit :=
  vis_file path (Some (keys args)) (Some (rgb_keys args)) (Some (flow_keys args))
    (Some (segmap_keys args)) (Some (segcolormap_keys args)) (Some (depth_keys args))
    (depth_max args) (Some (save args));;
  let folder_name := os_path.basename (os_path.dirname path) in
  let base_name := (os_path.splitext (os_path.basename path)).1 in
  let final_file_name := folder_name +:+ "_" +:+ base_name +:+ ".png" in
  let final_save_path := os_path.join (save args) final_file_name in
  images ← read_rendered (save args) folder_name base_name grid_keys [];
  create_image_grid images [1; 3] final_save_path.

(** [for path in args.hdf5_paths: ...]; iterating over [None] raises. *)
Definition visualize_all (args : cli_args V) (paths : option (list string)) : Py V unit :=
  match paths with
  | None => lift (raise TypeError)
  | Some ps => for_each ps (visualize_path args)
  end.

Definition cli (args : cli_args V) : Py V unit :=
  (* Check if input directory is given *)
  paths ←
    match input_dir args with
    | Some dir =>
        (* Recursively get all hdf5 files in the input directory *)
        let hdf5_files :=
          glob_recursive (os_path.join (os_path.join dir "**") "*.hdf5") in
        (* Check if there are enough files to sample *)
        if (Z.of_nat (length hdf5_files) <? count args)%Z then
          print (not_enough_message (length hdf5_files) (count args));;
          mret (hdf5_paths args)
        else
          (* Randomly sample args.count files *)
          sample ← random_sample hdf5_files (count args);
          mret (Some sample)
    | None => mret (hdf5_paths args)
    end;
  (* Visualize all given files *)
  visualize_all args paths.

End CommandLine.

(** ** Integer-valued instances

    Arrays of integers: the pixel arithmetic is that of [uint8] arrays. The
    library functions are given simple stand-ins (nearest-neighbour resizing,
    a grey-level PNG decoder, shape-preserving [cv2] functions), used to run
    the script on concrete inputs. *)

Module Integer.

#[local] Open Scope Z_scope.

Definition pixel : PixelScalar Z := {|
  px_one := 1;
  px_leb := Z.leb;
  px_times255_u8 := fun x => (x * 255) mod 256;
  px_to_u8 := fun x => x mod 256;
  px_white := 255 |}.

Definition flow : FlowScalar Z := {|
  fl_zero := 0;
  fl_one := 1;
  fl_degrees := fun x => x * 180 / 3 |}.

Definition cv2 : Cv2 Z := {|
  cartToPolar := fun x y => ok (x, y);
  normalize_minmax := fun m => ok m;
  cvtColor_HSV2RGB := fun hsv => ok hsv |}.

Definition with_cv2 : Cv2Import Z := Some cv2.
Definition without_cv2 : Cv2Import Z := None.

#[local] Close Scope Z_scope.

(** Nearest-neighbour resizing of a three-axis image, its values taken as
    [uint8]; a target without rows or columns is refused. *)
Definition nearest : Pil Z := fun img width height =>
  match shape img with
  | [h; w; c] =>
      if (width =? 0) || (height =? 0) then raise ValueError
      else ok {| shape := [height; width; c];
                 cell := fun idx =>
                   match idx with
                   | [i; j; k] =>
                       Z.modulo (cell img [i * h / height; j * w / width; k]) 256
                   | _ => 0%Z
                   end |}
  | _ => raise TypeError
  end.

(** Decoding to an RGBA image: the saved values reduced to [uint8] on the
    three colour channels, and an opaque alpha channel. *)
Definition grey_png : PngDecode Z := fun s =>
  let img := sv_img s in
  {| shape := take 2 (shape img) ++ [4];
     cell := fun idx =>
       match idx with
       | [i; j; k] =>
           if k =? 3 then 255%Z
           else match shape img with
                | [_; _] => (cell img [i; j] mod 256)%Z
                | _ => (cell img [i; j; k] mod 256)%Z
                end
       | _ => 0%Z
       end |}.

(** A directory without files, and a fixed choice of the first [k] files. *)
Definition empty_glob : Glob := fun _ => [].
Definition first_k : RandomChoice := fun population k => take k population.

(** An image whose cells all hold [v]. *)
Definition flat_image (h w c : nat) (v : Z) : ndarray Z := full [h; w; c] v.

(** An image whose cell [[i; j; k]] holds [100 * i + 10 * j + k + base]. *)
Definition ramp_image (h w c : nat) (base : Z) : ndarray Z :=
  {| shape := [h; w; c];
     cell := fun idx =>
       match idx with
       | [i; j; k] => (100 * Z.of_nat i + 10 * Z.of_nat j + Z.of_nat k + base)%Z
       | _ => 0%Z
       end |}.

Definition plain_dataset (a : ndarray Z) : dataset Z :=
  {| ds_value := a; ds_is_S5 := false; ds_str := "[...]"; ds_json := raise ValueError |}.

(** A main image with an alpha channel and three thumbnails. *)
Definition main_image : ndarray Z := ramp_image 3 3 4 0.
Definition thumbnails : list (ndarray Z) :=
  [ramp_image 3 3 3 2; ramp_image 3 3 3 5; flat_image 3 3 3 9].

(** A main image whose values are all 1. *)
Definition dark_image : ndarray Z := flat_image 3 3 4 1.

(** A container with the four keys the grid is made of. *)
Definition sample_file : h5file Z :=
  [("category_id_segmaps", plain_dataset {| shape := [3; 3]; cell := fun _ => 7%Z |});
   ("colors", plain_dataset (ramp_image 3 3 3 2));
   ("depth", plain_dataset {| shape := [3; 3]; cell := fun _ => 4%Z |});
   ("normals", plain_dataset (ramp_image 3 3 3 5))].

Definition sample_fs : gmap string (node Z) :=
  {[ "data/scene/0.hdf5" := Hdf5 sample_file ]}.

Definition sample_args (paths : option (list string)) : cli_args Z := {|
  input_dir := Some "data/blenderproc/hf-objaverse-v3";
  hdf5_paths := paths;
  count := 25;
  keys := all_default_keys;
  rgb_keys := default_rgb_keys;
  flow_keys := default_flow_keys;
  segmap_keys := default_segmap_keys;
  segcolormap_keys := default_segcolormap_keys;
  depth_keys := default_depth_keys;
  depth_max := 5%Z;
  save := "runs/out" |}.

(** [cli] with these arguments, in a directory where [glob] finds nothing. *)
Definition run_cli (paths : option (list string))
    : list (event Z) * gmap string (node Z) * result unit :=
  cli (engine:=py_engine) (fl:=flow) (cv:=with_cv2) (px:=pixel) (pil:=nearest)
    (glob:=empty_glob) (rnd:=first_k) (png:=grey_png) (sample_args paths) sample_fs.

(** [vis_data] on a key and an array, with the default pattern lists, no
    legend and an empty file system. *)
Definition render (key : string) (data : ndarray Z) (save_to_file : option string)
    : list (event Z) * gmap string (node Z) * result unit :=
  vis_data (engine:=py_engine) (fl:=flow) (cv:=with_cv2)
    key data None "0.hdf5" None None None None None 5%Z save_to_file ∅.

(** The role of a key under the default pattern lists. *)
Definition role_of (key : string) : result role :=
  classify (engine:=py_engine) key default_rgb_keys default_flow_keys
    default_segmap_keys default_depth_keys.

(** A container holding one stereo colour image of shape (2, 1, 1, 3). *)
Definition stereo_file : h5file Z :=
  [("colors", plain_dataset (full [2; 1; 1; 3] 9%Z))].

(** A directory in which [glob] finds one file, and the arguments with
    another [--count]. *)
Definition one_file_glob : Glob := fun _ => ["data/scene/0.hdf5"].

Definition count_args (n : Z) (paths : option (list string)) : cli_args Z := {|
  input_dir := Some "data/blenderproc/hf-objaverse-v3";
  hdf5_paths := paths;
  count := n;
  keys := all_default_keys;
  rgb_keys := default_rgb_keys;
  flow_keys := default_flow_keys;
  segmap_keys := default_segmap_keys;
  segcolormap_keys := default_segcolormap_keys;
  depth_keys := default_depth_keys;
  depth_max := 5%Z;
  save := "runs/out" |}.

(** Two rendered files left in the directory of the results. *)
Definition rendered_fs : gmap string (node Z) :=
  {[ "runs/out/scene_0_colors.png" := Png (Saved (ramp_image 3 3 3 2) None None);
     "runs/out/scene_0_depth.png" := Png (Saved (flat_image 3 3 3 9) None None) ]}.

End Integer.

(** The file names given to [plt.imsave], the labels given to [plt.title] and
    the lines printed, in order. *)
Definition saved_names {V} (t : list (event V)) : list string :=
  omap (fun e => match e with PltImsave f _ _ _ => Some f | _ => None end) t.

Definition saved_images {V} (t : list (event V)) : list (ndarray V) :=
  omap (fun e => match e with PltImsave _ img _ _ => Some img | _ => None end) t.

Definition shown_images {V} (t : list (event V)) : list (ndarray V) :=
  omap (fun e => match e with PltImshow img _ _ => Some img | _ => None end) t.

Definition titles {V} (t : list (event V)) : list string :=
  omap (fun e => match e with PltTitle l => Some l | _ => None end) t.

Definition printed {V} (t : list (event V)) : list string :=
  omap (fun e => match e with Print l => Some l | _ => None end) t.

Definition samples_drawn {V} (t : list (event V)) : nat :=
  length (omap (fun e => match e with RandomSample _ _ => Some tt | _ => None end) t).

(** A computation that never calls [random.sample]. *)
Definition never_samples {V A} (m : Py V A) : Prop :=
  forall fs, samples_drawn (m fs).1.1 = 0.

(** ** Notions used to state further properties *)

(** What a field of the first legend record contributes to the labels: a
    field [channel_<label>] whose value is a string of digits gives the
    channel of that number the label. *)
Definition legend_entry (field : string * json) : option (nat * string) :=
  if startswith "channel_" field.1 then
    match field.2 with
    | JStr s =>
        if isdigit s
        then Some (int_of_digits 0 s, str_drop (String.length "channel_") field.1)
        else None
    | _ => None
    end
  else None.

(** A field whose name starts with [channel_] holds a string. *)
Definition string_valued (field : string * json) : bool :=
  negb (startswith "channel_" field.1) ||
  match field.2 with JStr _ => true | _ => false end.

(** Calls that write a file or release the figure, and calls that display. *)
Definition is_save {V} (e : event V) : bool :=
  match e with PltImsave _ _ _ _ | PltClose => true | _ => false end.

Definition is_display {V} (e : event V) : bool :=
  match e with PltImshow _ _ _ | PltColorbar => true | _ => false end.

(** Every [plt.imsave] is immediately followed by [plt.close]. *)
Fixpoint closed_after_save {V} (t : list (event V)) : bool :=
  match t with
  | [] => true
  | PltImsave _ _ _ _ :: t' =>
      match t' with
      | PltClose :: t'' => closed_after_save t''
      | _ => false
      end
  | _ :: t' => closed_after_save t'
  end.

(** The calls of a run that only displays, and of a run that only saves. *)
Definition display_trace {V} (t : list (event V)) : Prop :=
  Forall (fun e => is_save e = false) t.

Definition save_trace {V} (t : list (event V)) : Prop :=
  closed_after_save t = true /\ Forall (fun e => is_display e = false) t.

(** No path of the first file system is missing from the second. *)
Definition never_deleted {V} (fs fs' : gmap string (node V)) : Prop :=
  forall p, is_Some (fs !! p) -> is_Some (fs' !! p).

(** A computation whose file systems before and after are related by [R] and
    whose calls satisfy [T], wherever it starts and however it ends. *)
Definition maintains {V A} (R : relation (gmap string (node V)))
    (T : list (event V) -> Prop) (m : Py V A) : Prop :=
  forall fs, R fs (m fs).1.2 /\ T (m fs).1.1.

(** The file system once [vis_file] has made sure the directory it saves to
    exists. *)
Definition with_save_dir {V} (fs : gmap string (node V)) (save_to_path : option string)
    : gmap string (node V) :=
  match save_to_path with
  | Some dir => if bool_decide (is_Some (fs !! dir)) then fs else <[dir := Directory]> fs
  | None => fs
  end.

#[global] Instance exn_eq_dec : EqDecision exn.
Proof. solve_decision. Defined.

#[global] Instance km_value_eq_dec : EqDecision km_value.
Proof. solve_decision. Defined.

(** The key is selected by the patterns: [key_matches] answers [True]. *)
Definition selected {engine : ReEngine} (keys_to_visualize : list string)
    (key : string) : Prop :=
  key_matches key keys_to_visualize false = ok (KBool true).

#[global] Instance selected_dec {engine : ReEngine} kv key : Decision (selected kv key).
Proof. unfold selected. apply _. Defined.

(** The file one key of the grid was rendered to (lines 405 and 406):
    [os.path.join(args.save, f"{folder_name}_{base_name}_{key}.png")] *)
Definition rendered_file (save_dir folder_name base_name key : string) : string :=
  os_path.join save_dir (folder_name +:+ "_" +:+ base_name +:+ "_" +:+ key +:+ ".png").

(** * Part II: properties *)

(** ** The key classifier *)

Section ClassifierFacts.
Context {engine : ReEngine}.

Lemma key_matches_from_hit n k ps i :
  key_matches_from n k ps true = ok (KPair true (Some i)) <->
  exists j, i = n + j /\ first_full_match k ps j.
Proof.
  revert n. induction ps as [|p ps IH]; intros n; simpl.
  - split; [discriminate|]. intros (j & _ & (q & Hq & _) & _). discriminate.
  - destruct (re_fullmatch p k) as [[]|] eqn:Hp.
    + split.
      * intros [= <-]. exists 0. split; [lia|]. split; [eauto|].
        intros j q Hj. lia.
      * intros (j & -> & (q & Hq & Hm) & Hbefore).
        destruct j as [|j]; [do 3 f_equal; lia|].
        specialize (Hbefore 0 p ltac:(lia) eq_refl). congruence.
    + rewrite IH. split.
      * intros (j & -> & (q & Hq & Hm) & Hbefore). exists (S j).
        split; [lia|]. split; [eauto|].
        intros [|j'] q' Hj' Hq'; simpl in Hq'; [congruence|].
        apply (Hbefore j'); [lia|done].
      * intros (j & -> & (q & Hq & Hm) & Hbefore).
        destruct j as [|j]; simpl in Hq; [congruence|].
        exists j. split; [lia|]. split; [eauto|].
        intros j' q' Hj' Hq'. apply (Hbefore (S j')); [lia|done].
    + split; [discriminate|].
      intros (j & -> & (q & Hq & Hm) & Hbefore).
      destruct j as [|j]; simpl in Hq; [congruence|].
      specialize (Hbefore 0 p ltac:(lia) eq_refl). congruence.
Qed.

Lemma key_matches_from_miss n k ps :
  key_matches_from n k ps true = ok (KPair false None) <-> no_full_match k ps.
Proof.
  unfold no_full_match. revert n. induction ps as [|p ps IH]; intros n; simpl.
  - split; [|done]. intros _ p Hp. by apply elem_of_nil in Hp.
  - destruct (re_fullmatch p k) as [[]|] eqn:Hp.
    + split; [discriminate|]. intros H.
      specialize (H p ltac:(left)). congruence.
    + rewrite IH. split.
      * intros H q [->|Hq]%elem_of_cons; auto.
      * intros H q Hq. apply H. by right.
    + split; [discriminate|]. intros H.
      specialize (H p ltac:(left)). congruence.
Qed.

Lemma key_matches_from_total n k ps :
  patterns_compile k ps ->
  (exists i, key_matches_from n k ps true = ok (KPair true (Some i))) \/
  key_matches_from n k ps true = ok (KPair false None).
Proof.
  unfold patterns_compile.
  revert n. induction ps as [|p ps IH]; intros n Hc; simpl; [by right|].
  destruct (re_fullmatch p k) as [[]|] eqn:Hp.
  - left. eauto.
  - apply IH. intros q Hq. apply Hc. by right.
  - exfalso. apply (Hc p); [by left|done].
Qed.

(** The two modes of [key_matches] agree: the boolean answer is the first
    component of the pair. *)
Lemma key_matches_from_modes n k ps :
  key_matches_from n k ps false =
  (v ← key_matches_from n k ps true; p ← unpack_pair v; mret (KBool p.1)).
Proof.
  revert n. induction ps as [|p ps IH]; intros n; simpl; [done|].
  destruct (re_fullmatch p k) as [[]|]; auto.
Qed.

Lemma first_full_match_lt k ps i : first_full_match k ps i -> i < length ps.
Proof. intros [(p & Hp & _) _]. by apply lookup_lt_Some in Hp. Qed.

(** In boolean mode the answer does not depend on the starting index. *)
Lemma key_matches_from_shift n m k ps :
  key_matches_from n k ps false = key_matches_from m k ps false.
Proof.
  revert n m. induction ps as [|p ps IH]; intros n m; simpl; [done|].
  destruct (re_fullmatch p k) as [[]|]; auto.
Qed.

Lemma key_matches_from_app n m k ps qs :
  key_matches_from n k (ps ++ qs) false =
  (v ← key_matches_from n k ps false;
   if truthy v then mret v else key_matches_from m k qs false).
Proof.
  revert n. induction ps as [|p ps IH]; intros n; simpl.
  - apply key_matches_from_shift.
  - destruct (re_fullmatch p k) as [[]|]; try done.
Qed.

(** Matching against a concatenation of pattern lists, as in
    [flow_keys + rgb_keys + depth_keys]. *)
Lemma key_matches_app k ps qs :
  key_matches k (ps ++ qs) false =
  (v ← key_matches k ps false;
   if truthy v then mret v else key_matches k qs false).
Proof. apply key_matches_from_app. Qed.

(** In boolean mode a result is a boolean. *)
Lemma key_matches_bool k ps v :
  key_matches k ps false = ok v -> v = KBool (truthy v).
Proof.
  unfold key_matches. generalize 0.
  induction ps as [|p ps IH]; intros n; simpl.
  - by intros [= <-].
  - destruct (re_fullmatch p k) as [[]|]; [by intros [= <-]|apply IH|done].
Qed.

(** Patterns that compile are matched without an exception. *)
Lemma key_matches_compile k ps :
  patterns_compile k ps -> exists b, key_matches k ps false = ok (KBool b).
Proof.
  intros Hc. unfold key_matches. rewrite key_matches_from_modes.
  destruct (key_matches_from_total 0 k ps Hc) as [[i ->]| ->]; simpl; eauto.
Qed.

End ClassifierFacts.

(** ** The matcher for the pattern fragment *)

Module RegexFacts.
Import Regex.

Lemma app_nil_l (s : string) : "" +:+ s = s.
Proof. reflexivity. Qed.

Lemma app_cons c (u v : string) : String c u +:+ v = String c (u +:+ v).
Proof. reflexivity. Qed.

Lemma app_eq_nil (u v : string) : u +:+ v = "" -> u = "" /\ v = "".
Proof. destruct u; [by rewrite app_nil_l|by rewrite app_cons]. Qed.

Lemma ascii_eqb_true a b : ascii_eqb a b = true <-> a = b.
Proof. unfold ascii_eqb. by rewrite bool_decide_eq_true. Qed.

Ltac eqb_refl_absurd :=
  match goal with
  | H : ascii_eqb ?a ?a = false |- _ =>
      rewrite (proj2 (ascii_eqb_true a a) eq_refl) in H; discriminate
  end.

Lemma lang_void_inv w : ~ lang Void w.
Proof. inversion 1. Qed.

Lemma lang_eps_inv w : lang Eps w -> w = "".
Proof. by inversion 1. Qed.

Lemma lang_seq_inv r s w :
  lang (Seq r s) w -> exists u v, w = u +:+ v /\ lang r u /\ lang s v.
Proof. inversion 1; subst; eauto. Qed.

Lemma lang_alt_inv r s w : lang (Alt r s) w -> lang r w \/ lang s w.
Proof. inversion 1; subst; auto. Qed.

(** A non-empty word of a star starts with a non-empty word of its body. *)
Lemma lang_star_cons_inv r c w :
  lang (Star r) (String c w) ->
  exists u v, w = u +:+ v /\ lang r (String c u) /\ lang (Star r) v.
Proof.
  intros H. remember (Star r) as e eqn:He. remember (String c w) as x eqn:Hx.
  revert c w He Hx.
  induction H as [| | | | | | |r' u v Hu _ Hv IHv]; intros a x He Hx;
    try discriminate.
  injection He as ->. destruct u as [|d u].
  - rewrite app_nil_l in Hx. by apply IHv.
  - rewrite app_cons in Hx. injection Hx as -> <-. eauto.
Qed.

Lemma nullable_lang r : nullable r = true <-> lang r "".
Proof.
  induction r as [| | | |r IHr s IHs|r IHr s IHs|r IHr]; simpl.
  - split; [done|]. by intros ?%lang_void_inv.
  - split; [constructor|done].
  - split; [done|]. inversion 1.
  - split; [done|]. inversion 1.
  - rewrite andb_true_iff, IHr, IHs. split.
    + intros [??]. by apply (lang_seq r s "" "").
    + intros (u & v & [-> ->]%eq_sym%app_eq_nil & ? & ?)%lang_seq_inv. done.
  - rewrite orb_true_iff, IHr, IHs. split.
    + intros [?|?]; [by apply lang_alt_l|by apply lang_alt_r].
    + apply lang_alt_inv.
  - split; [constructor|done].
Qed.

Lemma deriv_lang c r w : lang (deriv c r) w <-> lang r (String c w).
Proof.
  revert w. induction r as [| | d| |r IHr s IHs|r IHr s IHs|r IHr]; intros w; simpl.
  - split; by intros ?%lang_void_inv.
  - split; [by intros ?%lang_void_inv|]. by intros ?%lang_eps_inv.
  - destruct (ascii_eqb c d) eqn:Hcd.
    + apply ascii_eqb_true in Hcd as ->. split.
      * intros ->%lang_eps_inv. constructor.
      * inversion 1; subst. constructor.
    + split; [by intros ?%lang_void_inv|]. inversion 1; subst.
      eqb_refl_absurd.
  - destruct (ascii_eqb c newline) eqn:Hcn.
    + apply ascii_eqb_true in Hcn as ->. split; [by intros ?%lang_void_inv|].
      by inversion 1.
    + split.
      * intros ->%lang_eps_inv. constructor. intros ->. eqb_refl_absurd.
      * inversion 1; subst. constructor.
  - assert (lang (Seq (deriv c r) s) w ->
            lang (Seq r s) (String c w)) as Hhead.
    { intros (u & v & -> & Hu%IHr & Hv)%lang_seq_inv.
      rewrite <-app_cons. by constructor. }
    assert (lang (Seq r s) (String c w) ->
            lang (Seq (deriv c r) s) w \/ (lang r "" /\ lang s (String c w))) as Hsplit.
    { intros (u & v & Hw & Hu & Hv)%lang_seq_inv. destruct u as [|d u].
      - rewrite app_nil_l in Hw. subst v. auto.
      - rewrite app_cons in Hw. injection Hw as <- ->. left.
        constructor; [by apply IHr|done]. }
    destruct (nullable r) eqn:Hn.
    + apply nullable_lang in Hn. split.
      * intros [?|Hs%IHs]%lang_alt_inv; [auto|].
        by apply (lang_seq r s "" (String c w)).
      * intros [?|[_ Hs]]%Hsplit; [by apply lang_alt_l|].
        apply lang_alt_r. by apply IHs.
    + split; [done|]. intros [?|[Hr%nullable_lang _]]%Hsplit; [done|congruence].
  - split.
    + intros [?%IHr|?%IHs]%lang_alt_inv; [by apply lang_alt_l|by apply lang_alt_r].
    + intros [?|?]%lang_alt_inv; [apply lang_alt_l; by apply IHr|
                                   apply lang_alt_r; by apply IHs].
  - split.
    + intros (u & v & -> & Hu%IHr & Hv)%lang_seq_inv.
      rewrite <-app_cons. by constructor.
    + intros (u & v & -> & Hu & Hv)%lang_star_cons_inv.
      constructor; [by apply IHr|done].
Qed.

(** The matcher decides membership of the whole word. *)
Lemma matches_lang r w : matches r w = true <-> lang r w.
Proof.
  revert r. induction w as [|c w IH]; intros r; simpl.
  - apply nullable_lang.
  - by rewrite IH, deriv_lang.
Qed.

Lemma lang_literal p w : lang (literal p) w <-> w = p.
Proof.
  revert w. induction p as [|c p IH]; intros w; simpl.
  - split; [apply lang_eps_inv|intros ->; constructor].
  - split.
    + intros (u & v & -> & Hu & Hv%IH)%lang_seq_inv. inversion Hu; subst. done.
    + intros ->. apply (lang_seq (Lit c) (literal p) (String c "") p).
      * constructor.
      * by apply IH.
Qed.

Lemma parse_plain st p :
  plain p = true ->
  parse st p = Some (match p with "" => flush st Eps | _ => flush st (literal p) end).
Proof.
  revert st. induction p as [|c p IH]; intros st; simpl; [done|].
  intros [Hc Hp]%andb_true_iff. unfold plain_char in Hc.
  apply negb_true_iff in Hc.
  repeat (apply orb_false_iff in Hc as [Hc ?]).
  rewrite Hc. replace (is_backslash c) with false by done.
  replace (is_unsupported c) with false by done.
  replace (ascii_eqb c ".") with false by done.
  rewrite IH by done. simpl. by destruct p.
Qed.

(** Full-string matching of a pattern of ordinary characters: the key has
    to be the pattern itself. *)
Lemma py_fullmatch_plain p k :
  plain p = true -> py_fullmatch p k = Some (bool_decide (k = p)).
Proof.
  intros Hp. unfold py_fullmatch. rewrite parse_plain by done. simpl.
  f_equal. apply eq_true_iff_eq.
  rewrite bool_decide_eq_true, <-(lang_literal p k), matches_lang.
  by destruct p.
Qed.

End RegexFacts.

Section ClassifierResults.
Context {engine : ReEngine}.

(** With [return_index] set, a result is [(True, i)] or [(False, None)]. *)
Lemma key_matches_from_pair n k ps v :
  key_matches_from n k ps true = ok v ->
  (exists i, v = KPair true (Some i)) \/ v = KPair false None.
Proof.
  revert n. induction ps as [|p ps IH]; intros n; simpl.
  - intros [= <-]. by right.
  - destruct (re_fullmatch p k) as [[]|]; [|apply IH|done].
    intros [= <-]. left. eauto.
Qed.

Lemma key_matches_hit k ps i :
  key_matches k ps true = ok (KPair true (Some i)) <-> first_full_match k ps i.
Proof.
  unfold key_matches. rewrite key_matches_from_hit. split.
  - by intros (j & -> & ?).
  - intros ?. by exists i.
Qed.

(** A true answer in boolean mode comes with an index in the other mode. *)
Lemma key_matches_true_index k ps m :
  key_matches k ps false = ok m -> truthy m = true ->
  exists i, key_matches k ps true = ok (KPair true (Some i)) /\ i < length ps.
Proof.
  unfold key_matches at 1. rewrite key_matches_from_modes.
  destruct (key_matches_from 0 k ps true) as [e|v] eqn:Hv; [done|].
  destruct (key_matches_from_pair _ _ _ _ Hv) as [[i ->]| ->]; simpl.
  - intros _ _. exists i. split; [done|].
    apply (first_full_match_lt k). by apply key_matches_hit.
  - by intros [= <-].
Qed.

End ClassifierResults.

(** C1. For every key [k] and every list of patterns [ps], whatever the
    matcher: [key_matches(k, ps, return_index=True)] returns [(True, i)]
    exactly when [i] is the index of the first pattern of [ps] that [k] fully
    matches, and [(False, None)] exactly when no pattern fully matches; when
    the patterns compile it returns one of the two. Matching is on the whole
    key: a pattern of ordinary characters is matched by the key equal to it
    and by no other, so not by a key that merely contains it. The key
    ["category_id_segmaps"] against [["segmap"; ".*_segmaps"]] gives index 1. *)
Theorem key_matches_returns_first_full_match :
  (forall (engine : ReEngine) (k : string) (ps : list string),
      (forall i, key_matches k ps true = ok (KPair true (Some i)) <->
                 first_full_match k ps i) /\
      (key_matches k ps true = ok (KPair false None) <-> no_full_match k ps) /\
      (patterns_compile k ps ->
       (exists i, key_matches k ps true = ok (KPair true (Some i))) \/
       key_matches k ps true = ok (KPair false None))) /\
  (forall p k, Regex.plain p = true ->
               Regex.py_fullmatch p k = Some (bool_decide (k = p))) /\
  @key_matches py_engine "category_id_segmaps" ["segmap"; ".*_segmaps"] true
  = ok (KPair true (Some 1)).
Proof.
  split; [|split].
  - intros engine k ps. split; [|split].
    + intros i. apply key_matches_hit.
    + apply key_matches_from_miss.
    + apply key_matches_from_total.
  - apply RegexFacts.py_fullmatch_plain.
  - reflexivity.
Qed.

Lemma key_matches_returns_first_full_match_witness :
  @first_full_match py_engine "category_id_segmaps" ["segmap"; ".*_segmaps"] 1 /\
  Regex.py_fullmatch "segmap" "category_id_segmaps" = Some false.
Proof.
  split.
  - apply (proj1 (proj1 key_matches_returns_first_full_match py_engine _ _) 1).
    reflexivity.
  - apply (proj1 (proj2 key_matches_returns_first_full_match) "segmap").
    reflexivity.
Defined.

(** C10. Whenever [key_matches(key, segmap_keys)] returned true, the call
    [key_matches(key, segmap_keys, return_index=True)] that follows returns
    [(True, i)] with [i] a natural number below [len(segmap_keys)]; the
    unpacking gives [key_index = i], and the comparison of [key_index] with
    the length of any list yields a boolean, it does not raise. *)
Theorem segmap_branch_index_is_a_number (engine : ReEngine)
    (key : string) (segmap_keys : list string) (m : km_value) :
  key_matches key segmap_keys false = ok m -> truthy m = true ->
  exists i,
    key_matches key segmap_keys true = ok (KPair true (Some i)) /\
    i < length segmap_keys /\
    unpack_pair (KPair true (Some i)) = ok (true, Some i) /\
    forall segcolormap_keys : list string,
      index_lt (Some i) (length segcolormap_keys)
      = ok (i <? length segcolormap_keys).
Proof.
  intros Hm Ht. destruct (key_matches_true_index _ _ _ Hm Ht) as (i & Hi & Hlt).
  exists i. repeat split; done.
Qed.

Lemma segmap_branch_index_is_a_number_witness :
  exists i,
    @key_matches py_engine "category_id_segmaps" default_segmap_keys true
    = ok (KPair true (Some i)) /\
    i < length default_segmap_keys /\
    unpack_pair (KPair true (Some i)) = ok (true, Some i) /\
    forall segcolormap_keys : list string,
      index_lt (Some i) (length segcolormap_keys)
      = ok (i <? length segcolormap_keys).
Proof.
  apply (segmap_branch_index_is_a_number py_engine "category_id_segmaps"
           default_segmap_keys (KBool true)); reflexivity.
Defined.

(** ** Running computations *)

Section PyFacts.
Context {V : Type}.
Implicit Types (fs : gmap string (node V)) (e : event V).

Lemma run_lift_ok {A B} (a : A) (f : A -> Py V B) fs :
  (lift (ok a) ≫= f) fs = f a fs.
Proof. unfold mbind, Py_bind, lift. simpl. by destruct (f a fs) as [[??]?]. Qed.

Lemma run_lift_raise {A B} (x : exn) (f : A -> Py V B) fs :
  (lift (raise x) ≫= f) fs = ([], fs, inl x).
Proof. reflexivity. Qed.

Lemma run_mret {A B} (a : A) (f : A -> Py V B) fs :
  (mret a ≫= f) fs = f a fs.
Proof. apply (run_lift_ok a f fs). Qed.

Lemma run_emit {B} e (f : unit -> Py V B) fs :
  (emit e ≫= f) fs = match f tt fs with (t, fs', r) => (e :: t, fs', r) end.
Proof. reflexivity. Qed.

Lemma run_bind_assoc {A B C} (m : Py V A) (f : A -> Py V B) (g : B -> Py V C) fs :
  ((m ≫= f) ≫= g) fs = (m ≫= fun a => f a ≫= g) fs.
Proof.
  unfold mbind, Py_bind. destruct (m fs) as [[t1 fs1] [x|a]]; [done|].
  destruct (f a fs1) as [[t2 fs2] [x|b]]; [done|].
  destruct (g b fs2) as [[t3 fs3] r]. by rewrite app_assoc.
Qed.

(** A loop whose every round succeeds: the calls of the rounds in order, and
    the file system updated round after round. *)
Lemma run_for_each {A} (l : list A) (body : A -> Py V unit)
    (calls : A -> list (event V))
    (write : A -> gmap string (node V) -> gmap string (node V)) fs :
  (forall x fs', x ∈ l -> body x fs' = (calls x, write x fs', ok tt)) ->
  for_each l body fs = (l ≫= calls, foldl (fun fs' x => write x fs') fs l, ok tt).
Proof.
  revert fs. induction l as [|x l IH]; intros fs Hbody; simpl; [done|].
  unfold mbind at 1, Py_bind. rewrite Hbody by left.
  rewrite IH; [done|]. intros y fs' Hy. apply Hbody. by right.
Qed.

End PyFacts.

Ltac py_unfold :=
  unfold when, print, plt_figure, plt_title, plt_imshow, plt_colorbar,
    plt_close, plt_imsave, fs_write, emit, lift;
  unfold mbind, mret, Py_bind, Py_ret; simpl.

Section StringFacts.

Lemma str_app_nil_r (s : string) : s +:+ "" = s.
Proof. induction s as [|c s IH]; [done|]. by rewrite RegexFacts.app_cons, IH. Qed.

Lemma prefix_refl (s : string) : String.prefix s s = true.
Proof. induction s as [|c s IH]; simpl; [done|]. by destruct (ascii_dec c c). Qed.

(** Once an occurrence was replaced, the rest of it is passed over. *)
Lemma replace_go_skip old new n s :
  String.length s <= n -> replace_go old new n s = "".
Proof.
  revert n. induction s as [|c s IH]; intros n Hn; simpl; [done|].
  simpl in Hn. destruct n as [|n]; [lia|]. apply IH. lia.
Qed.

(** Replacing a text whose only occurrence is at the very end. *)
Lemma str_replace_at_end old new stem :
  old <> "" ->
  str_find old (stem +:+ old) = Some (String.length stem) ->
  str_replace old new (stem +:+ old) = stem +:+ new.
Proof.
  intros Hold. unfold str_replace. destruct old as [|o old]; [done|].
  induction stem as [|d stem IH]; intros Hfind.
  - rewrite RegexFacts.app_nil_l. unfold replace_go; fold replace_go.
    rewrite prefix_refl. rewrite replace_go_skip by (simpl; lia).
    by rewrite str_app_nil_r.
  - rewrite RegexFacts.app_cons in *.
    unfold str_find in Hfind; fold str_find in Hfind.
    unfold replace_go; fold replace_go.
    destruct (String.prefix (String o old) (String d (stem +:+ String o old)));
      [done|].
    destruct (str_find (String o old) (stem +:+ String o old)) as [n|] eqn:Hn;
      [|done].
    injection Hfind as ->. by rewrite IH.
Qed.

End StringFacts.

Section ArrayFacts.
Context {V : Type}.
Implicit Types a : ndarray V.

Lemma index_axis2_channel a h w c rest i :
  shape a = h :: w :: c :: rest -> i < c -> index_axis2 a i = ok (channel_at a i).
Proof.
  intros Hsh Hi. unfold index_axis2. rewrite Hsh. simpl.
  by rewrite (proj2 (Nat.ltb_lt i c) Hi).
Qed.

Lemma shape_channel_at a h w c rest i :
  shape a = h :: w :: c :: rest -> shape (channel_at a i) = h :: w :: rest.
Proof. intros Hsh. unfold channel_at. simpl. by rewrite Hsh. Qed.

Lemma cell_channel_at a i r c rest :
  cell (channel_at a i) (r :: c :: rest) = cell a (r :: c :: i :: rest).
Proof. reflexivity. Qed.

Lemma new_axis2_2d a h w :
  shape a = [h; w] -> new_axis2 a = ok (with_new_axis2 a).
Proof. intros Hsh. unfold new_axis2, ndim. by rewrite Hsh. Qed.

Lemma shape_with_new_axis2 a h w :
  shape a = [h; w] -> shape (with_new_axis2 a) = [h; w; 1].
Proof. intros Hsh. unfold with_new_axis2. simpl. by rewrite Hsh. Qed.

Lemma cell_with_new_axis2 a r c k :
  cell (with_new_axis2 a) [r; c; k] = cell a [r; c].
Proof. reflexivity. Qed.

End ArrayFacts.

(** ** The renderer *)

Section RendererFacts.
Context {V : Type} {engine : ReEngine} {fl : FlowScalar V} {cv : Cv2Import V}.

(** What the chain of tests answered for a key with a given role. *)
Lemma classify_inv key rgb flow segmap depth r :
  classify key rgb flow segmap depth = ok r ->
  match r with
  | Flow => key_matches key flow false = ok (KBool true)
  | Segmap =>
      key_matches key flow false = ok (KBool false) /\
      key_matches key segmap false = ok (KBool true)
  | Depth =>
      key_matches key flow false = ok (KBool false) /\
      key_matches key segmap false = ok (KBool false) /\
      key_matches key depth false = ok (KBool true)
  | Rgb =>
      key_matches key flow false = ok (KBool false) /\
      key_matches key segmap false = ok (KBool false) /\
      key_matches key depth false = ok (KBool false) /\
      key_matches key rgb false = ok (KBool true)
  | Unknown =>
      key_matches key flow false = ok (KBool false) /\
      key_matches key segmap false = ok (KBool false) /\
      key_matches key depth false = ok (KBool false) /\
      key_matches key rgb false = ok (KBool false)
  end.
Proof.
  unfold classify.
  destruct (key_matches key flow false) as [|m1] eqn:H1; [done|].
  apply key_matches_bool in H1 as ->. simpl.
  destruct (truthy m1); [by intros [= <-]|].
  destruct (key_matches key segmap false) as [|m2] eqn:H2; [done|].
  apply key_matches_bool in H2 as ->. simpl.
  destruct (truthy m2); [by intros [= <-]|].
  destruct (key_matches key depth false) as [|m3] eqn:H3; [done|].
  apply key_matches_bool in H3 as ->. simpl.
  destruct (truthy m3); [by intros [= <-]|].
  destruct (key_matches key rgb false) as [|m4] eqn:H4; [done|].
  apply key_matches_bool in H4 as ->. simpl.
  destruct (truthy m4); by intros [= <-].
Qed.

(** C4. For a key classified as depth whose array has shape (H, W, C) with
    C > 1 (the rgb patterns being patterns that compile): the call made to
    [plt.imshow] or [plt.imsave] is given channel 0 of the array, an array of
    shape (H, W) whose cell (i, j) is the cell (i, j, 0) of the data; the
    warning is printed once; and [vis_data] returns normally. *)
Theorem depth_multichannel_uses_first_channel
    key (data : ndarray V) full label rgb flow segmap segcol depth depth_max
    save fs h w c :
  classify key (default default_rgb_keys rgb) (default default_flow_keys flow)
    (default default_segmap_keys segmap) (default default_depth_keys depth)
  = ok Depth ->
  patterns_compile key (default default_rgb_keys rgb) ->
  shape data = [h; w; c] -> 1 < c ->
  shape (channel_at data 0) = [h; w] /\
  (forall i j, cell (channel_at data 0) [i; j] = cell data [i; j; 0]) /\
  vis_data key data full label rgb flow segmap segcol depth depth_max save fs =
  match save with
  | None =>
      ([PltFigure; PltTitle (figure_title key label); Print (depth_warning key);
        PltImshow (channel_at data 0) (Some "summer") (Some depth_max);
        PltColorbar],
       fs, ok tt)
  | Some save_to_file =>
      ([PltFigure; PltTitle (figure_title key label); Print (depth_warning key);
        PltImsave save_to_file (channel_at data 0) (Some "summer") (Some depth_max);
        PltClose],
       <[save_to_file := Png (Saved (channel_at data 0) (Some "summer")
                                (Some depth_max))]> fs,
       ok tt)
  end.
Proof.
  intros (Hf & Hs & Hd)%classify_inv Hc Hsh Hlt.
  destruct (key_matches_compile _ _ Hc) as [br Hr].
  split; [by apply (shape_channel_at data h w c [])|]. split; [done|].
  unfold vis_data.
  rewrite !key_matches_app, Hf, Hr, Hs, Hd. simpl.
  unfold ndim, shape_at. rewrite Hsh. simpl.
  rewrite (index_axis2_channel data h w c [] 0) by (done || lia).
  destruct br, save; py_unfold;
    (destruct (Nat.eqb_spec c 1); [lia|reflexivity]).
Qed.

Lemma vis_segmap_channel_run key (data : ndarray V) label labels save h w c i fs :
  shape data = [h; w; c] -> i < c ->
  vis_segmap_channel key data label labels c save i fs =
  (channel_calls key data label labels c save i,
   channel_write data labels c save i fs, ok tt).
Proof.
  intros Hsh Hi. unfold vis_segmap_channel.
  rewrite (index_axis2_channel data h w c [] i) by done.
  by destruct save.
Qed.

(** A key of the segmentation branch: one round per channel. *)
Lemma vis_data_segmap key (data : ndarray V) full label rgb flow segmap segcol
    depth depth_max save fs h w c i labels br bd :
  key_matches key (default default_flow_keys flow) false = ok (KBool false) ->
  key_matches key (default default_rgb_keys rgb) false = ok (KBool br) ->
  key_matches key (default default_depth_keys depth) false = ok (KBool bd) ->
  key_matches key (default default_segmap_keys segmap) false = ok (KBool true) ->
  key_matches key (default default_segmap_keys segmap) true
  = ok (KPair true (Some i)) ->
  find_channel_labels full (default default_segcolormap_keys segcol) (Some i)
  = ok labels ->
  shape (promoted data) = [h; w; c] ->
  vis_data key data full label rgb flow segmap segcol depth depth_max save fs =
  (figure_calls key label (br || bd) ++
   (seq 0 c ≫= channel_calls key (promoted data) label labels c save),
   foldl (fun fs' i => channel_write (promoted data) labels c save i fs') fs (seq 0 c),
   ok tt).
Proof.
  intros Hf Hr Hd Hs Hi Hl Hsh. unfold vis_data.
  rewrite !key_matches_app, Hf, Hr, Hs, Hi. simpl.
  assert ((if ndim data =? 2 then lift (V:=V) (new_axis2 data) else mret data)
          = lift (ok (promoted data))) as ->.
  { unfold promoted, new_axis2. destruct (Nat.eqb_spec (ndim data) 2) as [->|]; done. }
  assert (forall fs0,
    for_each (seq 0 c)
      (vis_segmap_channel key (promoted data) label labels c save) fs0 =
    (seq 0 c ≫= channel_calls key (promoted data) label labels c save,
     foldl (fun fs' i => channel_write (promoted data) labels c save i fs') fs0
       (seq 0 c),
     ok tt)) as Hrun.
  { intros fs0. apply run_for_each. intros x fs' Hx%elem_of_seq.
    apply (vis_segmap_channel_run _ _ _ _ _ h w); [done|lia]. }
  destruct br; simpl; [|rewrite Hd; destruct bd];
    py_unfold; rewrite Hl; simpl; unfold shape_at; rewrite Hsh; simpl;
    by rewrite Hrun.
Qed.

(** A key of the rgb branch, and a key no test recognizes. *)
Lemma vis_data_rgb key (data : ndarray V) full label rgb flow segmap segcol
    depth depth_max save fs :
  classify key (default default_rgb_keys rgb) (default default_flow_keys flow)
    (default default_segmap_keys segmap) (default default_depth_keys depth)
  = ok Rgb ->
  vis_data key data full label rgb flow segmap segcol depth depth_max save fs =
  match save with
  | None =>
      ([PltFigure; PltTitle (figure_title key label); PltImshow data None None],
       fs, ok tt)
  | Some f =>
      ([PltFigure; PltTitle (figure_title key label);
        PltImsave f data None None; PltClose],
       <[f := Png (Saved data None None)]> fs, ok tt)
  end.
Proof.
  intros (Hf & Hs & Hd & Hr)%classify_inv. unfold vis_data.
  rewrite !key_matches_app, Hf, Hr, Hs, Hd. simpl. by destruct save.
Qed.

Lemma vis_data_unknown key (data : ndarray V) full label rgb flow segmap segcol
    depth depth_max save fs :
  classify key (default default_rgb_keys rgb) (default default_flow_keys flow)
    (default default_segmap_keys segmap) (default default_depth_keys depth)
  = ok Unknown ->
  vis_data key data full label rgb flow segmap segcol depth depth_max save fs =
  match save with
  | None => ([PltImshow data None None], fs, ok tt)
  | Some f =>
      ([PltImsave f data None None; PltClose],
       <[f := Png (Saved data None None)]> fs, ok tt)
  end.
Proof.
  intros (Hf & Hs & Hd & Hr)%classify_inv. unfold vis_data.
  rewrite !key_matches_app, Hf, Hr, Hs, Hd. simpl. by destruct save.
Qed.

(** What the rounds of the loop show and save. *)
Lemma channel_rounds_images (key label : string) (data : ndarray V) labels c save
    (l : list nat) :
  shown_images (l ≫= channel_calls key data label labels c save) ++
  saved_images (l ≫= channel_calls key data label labels c save)
  = channel_at data <$> l.
Proof.
  destruct save as [f|]; simpl.
  - assert (shown_images
              (l ≫= channel_calls key data label labels c (Some f)) = []) as ->.
    { induction l as [|i l IH]; [done|]. simpl. apply IH. }
    induction l as [|i l IH]; [done|]. simpl. f_equal. apply IH.
  - assert (saved_images
              (l ≫= channel_calls (V:=V) key data label labels c None) = []) as ->.
    { induction l as [|i l IH]; [done|]. simpl. apply IH. }
    rewrite app_nil_r.
    induction l as [|i l IH]; [done|]. simpl. f_equal. apply IH.
Qed.

Lemma channel_rounds_names (key label : string) (data : ndarray V) labels c save
    (l : list nat) :
  saved_names (l ≫= channel_calls key data label labels c save) =
  match save with
  | Some f => (fun i => channel_file_name f c (channel_label labels i)) <$> l
  | None => []
  end.
Proof.
  destruct save as [f|]; induction l as [|i l IH]; simpl; try done.
  f_equal. apply IH.
Qed.

Lemma figure_calls_no_image (key label : string) b :
  shown_images (figure_calls (V:=V) key label b) = [] /\
  saved_images (figure_calls (V:=V) key label b) = [] /\
  saved_names (figure_calls (V:=V) key label b) = [].
Proof. by destruct b. Qed.

(** C5. For a key classified as segmap whose array has two axes (the rgb and
    depth patterns being patterns that compile and the legend being read
    without an error): the array is given the shape (H, W, 1), its cells
    unchanged; [vis_data] returns normally and the images it shows or saves
    are one image, channel 0 of the promoted array; when saving, the file is
    the requested one. *)
Theorem segmap_2d_is_one_channel
    key (data : ndarray V) full label rgb flow segmap segcol depth depth_max
    save fs h w i labels :
  classify key (default default_rgb_keys rgb) (default default_flow_keys flow)
    (default default_segmap_keys segmap) (default default_depth_keys depth)
  = ok Segmap ->
  patterns_compile key (default default_rgb_keys rgb) ->
  patterns_compile key (default default_depth_keys depth) ->
  key_matches key (default default_segmap_keys segmap) true
  = ok (KPair true (Some i)) ->
  find_channel_labels full (default default_segcolormap_keys segcol) (Some i)
  = ok labels ->
  shape data = [h; w] ->
  new_axis2 data = ok (with_new_axis2 data) /\
  shape (with_new_axis2 data) = [h; w; 1] /\
  (forall r c, cell (with_new_axis2 data) [r; c; 0] = cell data [r; c]) /\
  exists trace fs',
    vis_data key data full label rgb flow segmap segcol depth depth_max save fs
    = (trace, fs', ok tt) /\
    shown_images trace ++ saved_images trace = [channel_at (with_new_axis2 data) 0] /\
    saved_names trace = match save with Some f => [f] | None => [] end.
Proof.
  intros (Hf & Hs)%classify_inv Hcr Hcd Hi Hl Hsh.
  destruct (key_matches_compile _ _ Hcr) as [br Hr].
  destruct (key_matches_compile _ _ Hcd) as [bd Hd].
  split; [by apply (new_axis2_2d data h w)|].
  split; [by apply shape_with_new_axis2|]. split; [done|].
  assert (promoted data = with_new_axis2 data) as Hp.
  { unfold promoted, ndim. by rewrite Hsh. }
  eexists _, _. split.
  { apply (vis_data_segmap key data full label rgb flow segmap segcol depth
             depth_max save fs h w 1 i labels br bd); try done.
    rewrite Hp. by apply shape_with_new_axis2. }
  rewrite Hp.
  destruct (figure_calls_no_image key label (br || bd)) as (Hn1 & Hn2 & Hn3).
  unfold shown_images, saved_images, saved_names in *.
  rewrite !omap_app, Hn1, Hn2, Hn3. simpl. by destruct save.
Qed.

(** C7, amended. For a segmap key rendered with a file output path whose array
    has more than one channel (the rgb and depth patterns being patterns that
    compile and the legend being read without an error): when the path ends
    with [.png] and that is the only place where [.png] occurs in it,
    [vis_data] returns normally, one file is written per channel, in order,
    and the file of channel [j] is named by the path with an underscore and
    the channel's label inserted before the final [.png]. *)
Theorem segmap_channel_file_names
    key (data : ndarray V) full label rgb flow segmap segcol depth depth_max
    stem fs h w c i labels :
  classify key (default default_rgb_keys rgb) (default default_flow_keys flow)
    (default default_segmap_keys segmap) (default default_depth_keys depth)
  = ok Segmap ->
  patterns_compile key (default default_rgb_keys rgb) ->
  patterns_compile key (default default_depth_keys depth) ->
  key_matches key (default default_segmap_keys segmap) true
  = ok (KPair true (Some i)) ->
  find_channel_labels full (default default_segcolormap_keys segcol) (Some i)
  = ok labels ->
  shape data = [h; w; c] -> 1 < c ->
  str_find ".png" (stem +:+ ".png") = Some (String.length stem) ->
  exists trace fs',
    vis_data key data full label rgb flow segmap segcol depth depth_max
      (Some (stem +:+ ".png")) fs
    = (trace, fs', ok tt) /\
    saved_names trace
    = (fun j => stem +:+ "_" +:+ channel_label labels j +:+ ".png") <$> seq 0 c /\
    saved_images trace = channel_at data <$> seq 0 c.
Proof.
  intros (Hf & Hs)%classify_inv Hcr Hcd Hi Hl Hsh Hc Hfind.
  destruct (key_matches_compile _ _ Hcr) as [br Hr].
  destruct (key_matches_compile _ _ Hcd) as [bd Hd].
  assert (promoted data = data) as Hp.
  { unfold promoted, ndim. by rewrite Hsh. }
  eexists _, _. split.
  { apply (vis_data_segmap key data full label rgb flow segmap segcol depth
             depth_max (Some (stem +:+ ".png")) fs h w c i labels br bd);
      try done.
    by rewrite Hp. }
  rewrite Hp.
  destruct (figure_calls_no_image key label (br || bd)) as (Hn1 & Hn2 & Hn3).
  split.
  - unfold saved_names in *. rewrite omap_app, Hn3. simpl.
    fold (saved_names (seq 0 c ≫= channel_calls key data label labels c
                         (Some (stem +:+ ".png")))).
    rewrite channel_rounds_names. apply list_fmap_ext. intros _ j _.
    unfold channel_file_name. rewrite (proj2 (Nat.ltb_lt 1 c) Hc).
    rewrite str_replace_at_end by done.
    by rewrite RegexFacts.app_cons, RegexFacts.app_nil_l.
  - pose proof (channel_rounds_images key label data labels c
                  (Some (stem +:+ ".png")) (seq 0 c)) as Him.
    assert (shown_images (seq 0 c ≫= channel_calls key data label labels c
                            (Some (stem +:+ ".png"))) = []) as Hnone.
    { generalize (seq 0 c). intros l. induction l as [|x l IH]; [done|].
      simpl. apply IH. }
    rewrite Hnone in Him. simpl in Him.
    unfold saved_images in *. by rewrite omap_app, Hn2.
Qed.

(** C9, amended. For a key that matches none of the flow, segmap, depth and
    rgb pattern lists and a key classified as rgb, with the same array and
    output target: the rgb key is rendered by the calls made for the unknown
    key, preceded by the creation of a figure and of its title, which the
    unknown key does not get; the file system left and the outcome are the
    same. *)
Theorem unknown_key_is_rgb_without_figure
    key_unknown key_rgb (data : ndarray V) full label rgb flow segmap segcol
    depth depth_max save fs :
  classify key_unknown (default default_rgb_keys rgb)
    (default default_flow_keys flow) (default default_segmap_keys segmap)
    (default default_depth_keys depth) = ok Unknown ->
  classify key_rgb (default default_rgb_keys rgb)
    (default default_flow_keys flow) (default default_segmap_keys segmap)
    (default default_depth_keys depth) = ok Rgb ->
  exists trace fs',
    vis_data key_unknown data full label rgb flow segmap segcol depth depth_max
      save fs = (trace, fs', ok tt) /\
    vis_data key_rgb data full label rgb flow segmap segcol depth depth_max
      save fs
    = (PltFigure :: PltTitle (figure_title key_rgb label) :: trace, fs', ok tt) /\
    trace = match save with
            | None => [PltImshow data None None]
            | Some f => [PltImsave f data None None; PltClose]
            end.
Proof.
  intros Hu Hr.
  rewrite (vis_data_unknown _ _ _ _ _ _ _ _ _ _ _ _ Hu).
  rewrite (vis_data_rgb _ _ _ _ _ _ _ _ _ _ _ _ Hr).
  destruct save; eauto.
Qed.

End RendererFacts.

(** Patterns are checked to compile by running the matcher on each. *)
Lemma patterns_compile_check {engine : ReEngine} k ps :
  forallb (fun p => bool_decide (is_Some (re_fullmatch p k))) ps = true ->
  patterns_compile k ps.
Proof.
  intros Hall p Hp Hnone. rewrite forallb_forall in Hall.
  apply list_elem_of_In in Hp. apply Hall in Hp.
  apply bool_decide_eq_true in Hp as [b Hb]. congruence.
Qed.

Lemma depth_multichannel_uses_first_channel_witness :
  Integer.role_of "depth" = ok Depth /\
  printed (Integer.render "depth" (Integer.ramp_image 1 1 2 0) None).1.1
  = [depth_warning "depth"] /\
  shown_images (Integer.render "depth" (Integer.ramp_image 1 1 2 0) None).1.1
  = [channel_at (Integer.ramp_image 1 1 2 0) 0].
Proof.
  split; [reflexivity|]. unfold Integer.render.
  destruct (depth_multichannel_uses_first_channel (engine:=py_engine)
              (fl:=Integer.flow) (cv:=Integer.with_cv2)
              "depth" (Integer.ramp_image 1 1 2 0) None "0.hdf5"
              None None None None None 5%Z None ∅ 1 1 2) as (_ & _ & ->).
  - reflexivity.
  - apply patterns_compile_check. reflexivity.
  - reflexivity.
  - lia.
  - split; reflexivity.
Defined.

Lemma segmap_2d_is_one_channel_witness :
  Integer.role_of "segmap" = ok Segmap /\
  exists trace fs',
    Integer.render "segmap" (full [2; 2] 7%Z) (Some "out/seg.png")
    = (trace, fs', ok tt) /\
    shown_images trace ++ saved_images trace
    = [channel_at (with_new_axis2 (full [2; 2] 7%Z)) 0] /\
    saved_names trace = ["out/seg.png"].
Proof.
  split; [reflexivity|]. unfold Integer.render.
  apply (segmap_2d_is_one_channel (engine:=py_engine)
           (fl:=Integer.flow) (cv:=Integer.with_cv2)
           "segmap" (full [2; 2] 7%Z) None "0.hdf5"
           None None None None None 5%Z (Some "out/seg.png") ∅ 2 2 0 ∅).
  - reflexivity.
  - apply patterns_compile_check. reflexivity.
  - apply patterns_compile_check. reflexivity.
  - reflexivity.
  - reflexivity.
  - reflexivity.
Defined.

Lemma segmap_channel_file_names_witness :
  Integer.role_of "category_id_segmaps" = ok Segmap /\
  exists trace fs',
    Integer.render "category_id_segmaps" (Integer.ramp_image 1 1 2 0)
      (Some "out/seg.png")
    = (trace, fs', ok tt) /\
    saved_names trace = ["out/seg_0.png"; "out/seg_1.png"].
Proof.
  split; [reflexivity|]. unfold Integer.render.
  destruct (segmap_channel_file_names (engine:=py_engine)
              (fl:=Integer.flow) (cv:=Integer.with_cv2)
              "category_id_segmaps" (Integer.ramp_image 1 1 2 0) None "0.hdf5"
              None None None None None 5%Z "out/seg" ∅ 1 1 2 1 ∅)
    as (trace & fs' & Hrun & Hnames & _).
  - reflexivity.
  - apply patterns_compile_check. reflexivity.
  - apply patterns_compile_check. reflexivity.
  - reflexivity.
  - reflexivity.
  - reflexivity.
  - lia.
  - reflexivity.
  - exists trace, fs'. split; [exact Hrun|]. rewrite Hnames. reflexivity.
Defined.

(** C7 as stated fails. With the path [out/seg.jpg] and two channels, both
    channels are written to [out/seg.jpg] itself: no label is inserted, and
    the file system ends with a single file. *)
Lemma segmap_label_missing_without_png :
  Integer.role_of "segmap" = ok Segmap /\
  (Integer.render "segmap" (Integer.ramp_image 1 1 2 0) (Some "out/seg.jpg")).2
  = ok tt /\
  saved_names
    (Integer.render "segmap" (Integer.ramp_image 1 1 2 0) (Some "out/seg.jpg")).1.1
  = ["out/seg.jpg"; "out/seg.jpg"] /\
  saved_names
    (Integer.render "segmap" (Integer.ramp_image 1 1 2 0) (Some "out/seg.jpg")).1.1
  <> label_before_extension "out/seg.jpg" <$> ["0"; "1"] /\
  (map_to_list
     (Integer.render "segmap" (Integer.ramp_image 1 1 2 0)
        (Some "out/seg.jpg")).1.2).*1
  = ["out/seg.jpg"].
Proof. repeat split; try reflexivity. vm_compute. discriminate. Qed.

Lemma unknown_key_is_rgb_without_figure_witness :
  Integer.role_of "mystery" = ok Unknown /\
  Integer.role_of "normals" = ok Rgb /\
  exists trace fs',
    Integer.render "mystery" (Integer.ramp_image 1 1 3 0) None = (trace, fs', ok tt) /\
    Integer.render "normals" (Integer.ramp_image 1 1 3 0) None
    = (PltFigure :: PltTitle (figure_title "normals" "0.hdf5") :: trace, fs', ok tt) /\
    trace = [PltImshow (Integer.ramp_image 1 1 3 0) None None].
Proof.
  split; [reflexivity|]. split; [reflexivity|]. unfold Integer.render.
  apply (unknown_key_is_rgb_without_figure (engine:=py_engine)
           (fl:=Integer.flow) (cv:=Integer.with_cv2)
           "mystery" "normals" (Integer.ramp_image 1 1 3 0) None "0.hdf5"
           None None None None None 5%Z None ∅); reflexivity.
Defined.

(** C9 as stated fails. With the default pattern lists, the rgb key [colors]
    gets a new figure and a title before its image is shown; the
    unrecognized key [mystery], given the same array and target, gets
    neither: its image goes to whatever figure is current. *)
Lemma unknown_key_gets_no_figure :
  Integer.role_of "colors" = ok Rgb /\
  Integer.role_of "mystery" = ok Unknown /\
  (Integer.render "colors" (Integer.ramp_image 1 1 3 0) None).1.1
  = [PltFigure; PltTitle "colors in 0.hdf5";
     PltImshow (Integer.ramp_image 1 1 3 0) None None] /\
  (Integer.render "mystery" (Integer.ramp_image 1 1 3 0) None).1.1
  = [PltImshow (Integer.ramp_image 1 1 3 0) None None] /\
  length (Integer.render "colors" (Integer.ramp_image 1 1 3 0) None).1.1
  <> length (Integer.render "mystery" (Integer.ramp_image 1 1 3 0) None).1.1.
Proof. repeat split; try reflexivity. vm_compute. discriminate. Qed.

(** ** Optical flow *)

Section FlowFacts.
Context {V : Type} {fl : FlowScalar V}.

(** C6. For every input of shape (H, W, 2), [cv2] being installed and its
    functions keeping shapes as assumed, [flow_to_rgb] returns an image of
    shape (H, W, 3). *)
Theorem flow_to_rgb_shape (m : Cv2 V) (flow : ndarray V) (h w : nat) :
  cv2_keeps_shapes m ->
  shape flow = [h; w; 2] ->
  exists rgb, flow_to_rgb (cv:=Some m) flow = ok rgb /\ shape rgb = [h; w; 3].
Proof.
  intros (Hpolar & Hnorm & Hcvt) Hsh. unfold flow_to_rgb, import_cv2.
  rewrite (index_axis2_channel flow h w 2 [] 0) by (done || lia).
  rewrite (index_axis2_channel flow h w 2 [] 1) by (done || lia).
  simpl. rewrite Hsh. simpl.
  destruct (Hpolar (channel_at flow 0) (channel_at flow 1))
    as (mag & ang & -> & Hmag & Hang).
  { by rewrite !(shape_channel_at flow h w 2 []). }
  rewrite (shape_channel_at flow h w 2 []) in Hmag, Hang by done.
  simpl. unfold assign_last. simpl. rewrite Hang. simpl.
  rewrite !Nat.eqb_refl. simpl.
  destruct (Hnorm mag) as (n & -> & Hn). rewrite Hmag in Hn.
  simpl. rewrite Hn. simpl. rewrite !Nat.eqb_refl. simpl.
  apply Hcvt. reflexivity.
Qed.

End FlowFacts.

Lemma integer_cv2_keeps_shapes : cv2_keeps_shapes Integer.cv2.
Proof.
  split; [|split].
  - intros x y Hxy. exists x, y. by rewrite Hxy.
  - intros x. by exists x.
  - intros hsv h w Hsh. by exists hsv.
Qed.

Lemma flow_to_rgb_shape_witness :
  exists rgb,
    flow_to_rgb (fl:=Integer.flow) (cv:=Integer.with_cv2)
      (Integer.ramp_image 2 3 2 0) = ok rgb /\
    shape rgb = [2; 3; 3].
Proof.
  apply (flow_to_rgb_shape (fl:=Integer.flow) Integer.cv2
           (Integer.ramp_image 2 3 2 0) 2 3).
  - exact integer_cv2_keeps_shapes.
  - reflexivity.
Defined.

(** ** Stereo pairs *)

(** C2, on the code. A container [d/s/1.hdf5] holds under the key [colors] one
    array of shape (2, 1, 1, 3), and the renderings are saved to [out].
    [vis_file] renders the two halves, each of shape (1, 1, 3), through the
    rgb path, with the titles of the left and of the right eye. The file of
    the left eye ends with [_left.png]; the file of the right eye is named
    after the file of the left eye, [out/s_1_colors_left_right.png], and not
    [out/s_1_colors_right.png]. *)
Theorem stereo_right_eye_file_name :
  let run :=
    vis_file (engine:=py_engine) (fl:=Integer.flow) (cv:=Integer.with_cv2)
      "d/s/1.hdf5" None None None None None None 5%Z (Some "out")
      {[ "d/s/1.hdf5" := Hdf5 Integer.stereo_file ]} in
  run.2 = ok tt /\
  saved_names run.1.1
  = ["out/s_1_colors_left.png"; "out/s_1_colors_left_right.png"] /\
  saved_names run.1.1
  <> ["out/s_1_colors_left.png"; "out/s_1_colors_right.png"] /\
  saved_images run.1.1
  = [sub_array (full [2; 1; 1; 3] 9%Z) 0; sub_array (full [2; 1; 1; 3] 9%Z) 1] /\
  shape <$> saved_images run.1.1 = [[1; 1; 3]; [1; 1; 3]] /\
  titles run.1.1 = ["colors in 1.hdf5 (left)"; "colors in 1.hdf5 (right)"] /\
  stereo_file_name "out/s_1_colors.png" 0 = ok "out/s_1_colors_left.png" /\
  stereo_file_name "out/s_1_colors_left.png" 1 = ok "out/s_1_colors_left_right.png".
Proof. repeat split; try reflexivity. vm_compute. discriminate. Qed.

(** ** The command line *)

Section SamplingFacts.
Context {V : Type}.

Lemma samples_drawn_app (t1 t2 : list (event V)) :
  samples_drawn (t1 ++ t2) = samples_drawn t1 + samples_drawn t2.
Proof. unfold samples_drawn. by rewrite omap_app, length_app. Qed.

Lemma never_samples_ret {A} (a : A) : never_samples (V:=V) (mret a).
Proof. by intros fs. Qed.

Lemma never_samples_lift {A} (r : result A) : never_samples (V:=V) (lift r).
Proof. by intros fs. Qed.

Lemma never_samples_bind {A B} (m : Py V A) (f : A -> Py V B) :
  never_samples m -> (forall a, never_samples (f a)) -> never_samples (m ≫= f).
Proof.
  intros Hm Hf fs. specialize (Hm fs). unfold mbind, Py_bind.
  destruct (m fs) as [[t1 fs1] [x|a]]; [done|].
  specialize (Hf a fs1). destruct (f a fs1) as [[t2 fs2] r].
  simpl in *. rewrite samples_drawn_app. lia.
Qed.

Lemma never_samples_except {A} (m h : Py V A) :
  never_samples m -> never_samples h -> never_samples (except_ImportError m h).
Proof.
  intros Hm Hh fs. specialize (Hm fs). unfold except_ImportError.
  destruct (m fs) as [[t1 fs1] [x|a]]; [|done].
  destruct x; try done.
  specialize (Hh fs1). destruct (h fs1) as [[t2 fs2] r].
  simpl in *. rewrite samples_drawn_app. lia.
Qed.

Lemma never_samples_for_each {A} (l : list A) (body : A -> Py V unit) :
  (forall x, never_samples (body x)) -> never_samples (for_each l body).
Proof.
  intros Hbody. induction l as [|x l IH]; simpl.
  - apply never_samples_ret.
  - apply never_samples_bind; [apply Hbody|done].
Qed.

Lemma never_samples_print line : never_samples (V:=V) (print line).
Proof. by intros fs. Qed.

Lemma never_samples_figure : never_samples (V:=V) plt_figure.
Proof. by intros fs. Qed.

Lemma never_samples_title label : never_samples (V:=V) (plt_title label).
Proof. by intros fs. Qed.

Lemma never_samples_imshow (img : ndarray V) cmap vmax :
  never_samples (plt_imshow img cmap vmax).
Proof. by intros fs. Qed.

Lemma never_samples_colorbar : never_samples (V:=V) plt_colorbar.
Proof. by intros fs. Qed.

Lemma never_samples_close : never_samples (V:=V) plt_close.
Proof. by intros fs. Qed.

Lemma never_samples_imsave fname (img : ndarray V) cmap vmax :
  never_samples (plt_imsave fname img cmap vmax).
Proof. by intros fs. Qed.

Lemma never_samples_lookup p : never_samples (V:=V) (fs_lookup p).
Proof. by intros fs. Qed.

Lemma never_samples_exists p : never_samples (V:=V) (os_path_exists p).
Proof. by intros fs. Qed.

Lemma never_samples_isfile p : never_samples (V:=V) (os_path_isfile p).
Proof. by intros fs. Qed.

Lemma never_samples_makedirs p : never_samples (V:=V) (os_makedirs p).
Proof. intros fs. unfold os_makedirs, mbind, Py_bind. simpl. by destruct (fs !! p). Qed.

Lemma never_samples_remove p : never_samples (V:=V) (os_remove p).
Proof.
  intros fs. unfold os_remove, mbind, Py_bind. simpl.
  by destruct (fs !! p) as [[]|].
Qed.

Lemma never_samples_h5py p : never_samples (V:=V) (h5py_File p).
Proof.
  intros fs. unfold h5py_File, mbind, Py_bind. simpl.
  by destruct (fs !! p) as [[]|].
Qed.

End SamplingFacts.

Create HintDb quiet discriminated.

#[local] Hint Resolve never_samples_ret never_samples_lift never_samples_print
  never_samples_figure never_samples_title never_samples_imshow
  never_samples_colorbar never_samples_close never_samples_imsave
  never_samples_exists never_samples_isfile never_samples_makedirs
  never_samples_remove never_samples_h5py never_samples_lookup : quiet.

(** Goes through a computation built from the operations above. *)
Ltac quiet :=
  repeat first
    [ progress auto with quiet
    | apply never_samples_bind; [|intros ?]
    | apply never_samples_except
    | apply never_samples_for_each; intros ?
    | match goal with
      | |- never_samples (when ?b _) => destruct b; simpl
      | |- never_samples (if ?b then _ else _) => destruct b
      | |- never_samples (match ?x with _ => _ end) => destruct x
      end ].

Section CommandLineFacts.
Context {V : Type} {engine : ReEngine} {fl : FlowScalar V} {cv : Cv2Import V}.
Context {px : PixelScalar V} {pil : Pil V}.
Context {glob : Glob} {rnd : RandomChoice} {png : PngDecode V}.

Lemma never_samples_vis_data key (data : ndarray V) full label rgb flow segmap
    segcol depth depth_max save :
  never_samples
    (vis_data key data full label rgb flow segmap segcol depth depth_max save).
Proof. unfold vis_data, vis_segmap_channel. quiet. Qed.

#[local] Hint Resolve never_samples_vis_data : quiet.

Lemma never_samples_vis_stereo key (data : h5file V) path rgb flow segmap segcol
    depth depth_max items save :
  never_samples
    (vis_stereo key data path rgb flow segmap segcol depth depth_max items save).
Proof.
  revert save. induction items as [|[i img] items IH]; intros save; simpl.
  - quiet.
  - apply never_samples_bind; [quiet|]. intros save'.
    apply never_samples_bind; [apply never_samples_vis_data|]. intros _. apply IH.
Qed.

#[local] Hint Resolve never_samples_vis_stereo : quiet.

Lemma never_samples_vis_file path kv rgb flow segmap segcol depth
    (depth_max : V) save :
  never_samples (vis_file path kv rgb flow segmap segcol depth depth_max save).
Proof.
  unfold vis_file, vis_key. quiet.
Qed.

Lemma never_samples_read_rendered dir folder base ks (images : list (ndarray V)) :
  never_samples (read_rendered dir folder base ks images).
Proof.
  revert images. induction ks as [|k ks IH]; intros images; simpl; [quiet|].
  apply never_samples_bind.
  - unfold plt_imread. quiet.
  - intros img. apply never_samples_bind; [quiet|]. intros _. apply IH.
Qed.

Lemma never_samples_visualize_all (args : cli_args V) paths :
  never_samples (visualize_all args paths).
Proof.
  unfold visualize_all. destruct paths as [ps|]; [|quiet].
  apply never_samples_for_each. intros path. unfold visualize_path.
  apply never_samples_bind; [apply never_samples_vis_file|]. intros _.
  apply never_samples_bind; [apply never_samples_read_rendered|]. intros images.
  unfold create_image_grid. quiet.
Qed.

(** C8, amended. When an input directory is given and fewer files are found
    in it than the requested count, the condition is reported, and
    [random.sample] is not called, neither then nor later in the run; the run
    goes on with the paths given as [--hdf5_paths], which are visualized one
    after the other as they would be without an input directory. *)
Theorem cli_not_enough_files (args : cli_args V) (dir : string)
    (ps : list string) fs :
  input_dir args = Some dir ->
  (Z.of_nat (length (glob_recursive
                       (os_path.join (os_path.join dir "**") "*.hdf5")))
   < count args)%Z ->
  hdf5_paths args = Some ps ->
  exists trace fs' r,
    for_each ps (visualize_path args) fs = (trace, fs', r) /\
    cli args fs
    = (Print (not_enough_message
                (length (glob_recursive
                           (os_path.join (os_path.join dir "**") "*.hdf5")))
                (count args)) :: trace,
       fs', r) /\
    samples_drawn (cli args fs).1.1 = 0 /\
    (ps = [] -> cli args fs
                = ([Print (not_enough_message
                             (length (glob_recursive
                                (os_path.join (os_path.join dir "**") "*.hdf5")))
                             (count args))], fs, ok tt)).
Proof.
  intros Hdir Hfew Hps.
  destruct (for_each ps (visualize_path args) fs) as [[trace fs'] r] eqn:Hrun.
  exists trace, fs', r. split; [done|].
  assert (cli args fs
          = (Print (not_enough_message
                (length (glob_recursive
                           (os_path.join (os_path.join dir "**") "*.hdf5")))
                (count args)) :: trace, fs', r)) as Hcli.
  { unfold cli. rewrite Hdir, Hps.
    rewrite (proj2 (Z.ltb_lt _ _) Hfew).
    unfold visualize_all, print, emit, mbind, mret, Py_bind, Py_ret. simpl.
    by rewrite Hrun. }
  split; [done|]. split.
  - rewrite Hcli. simpl.
    pose proof (never_samples_visualize_all args (Some ps) fs) as Hq.
    simpl in Hq. by rewrite Hrun in Hq.
  - intros ->. rewrite Hcli. simpl in Hrun. by injection Hrun as <- <- <-.
Qed.

End CommandLineFacts.

Lemma cli_not_enough_files_witness :
  exists trace fs' r,
    Integer.run_cli (Some ["data/scene/0.hdf5"])
    = (Print "Error: Not enough HDF5 files in the directory. Found 0, need 25."
         :: trace, fs', r) /\
    samples_drawn (Integer.run_cli (Some ["data/scene/0.hdf5"])).1.1 = 0.
Proof.
  destruct (cli_not_enough_files (engine:=py_engine) (fl:=Integer.flow)
              (cv:=Integer.with_cv2) (px:=Integer.pixel) (pil:=Integer.nearest)
              (glob:=Integer.empty_glob) (rnd:=Integer.first_k)
              (png:=Integer.grey_png)
              (Integer.sample_args (Some ["data/scene/0.hdf5"]))
              "data/blenderproc/hf-objaverse-v3" ["data/scene/0.hdf5"]
              Integer.sample_fs)
    as (trace & fs' & r & _ & Hcli & Hquiet & _).
  - reflexivity.
  - reflexivity.
  - reflexivity.
  - exists trace, fs', r. split; [exact Hcli|exact Hquiet].
Defined.

(** C8 as stated fails. The input directory holds no file while 25 are asked
    for, and one path is given as [--hdf5_paths]: the shortage is reported,
    then that file is opened, its four keys are rendered to files and the
    grid is composed from them. *)
Lemma cli_processes_given_paths :
  input_dir (Integer.sample_args (Some ["data/scene/0.hdf5"]))
  = Some "data/blenderproc/hf-objaverse-v3" /\
  Integer.empty_glob "data/blenderproc/hf-objaverse-v3/**/*.hdf5" = [] /\
  (Integer.run_cli (Some ["data/scene/0.hdf5"])).2 = ok tt /\
  printed (Integer.run_cli (Some ["data/scene/0.hdf5"])).1.1
  = ["Error: Not enough HDF5 files in the directory. Found 0, need 25.";
     "data/scene/0.hdf5: ";
     "Keys: 'category_id_segmaps': (3, 3), 'colors': (3, 3, 3), 'depth': (3, 3), 'normals': (3, 3, 3)"] /\
  saved_names (Integer.run_cli (Some ["data/scene/0.hdf5"])).1.1
  = ["runs/out/scene_0_category_id_segmaps.png"; "runs/out/scene_0_colors.png";
     "runs/out/scene_0_depth.png"; "runs/out/scene_0_normals.png";
     "runs/out/scene_0.png"].
Proof. repeat split; vm_compute; reflexivity. Qed.

(** ** The grid compositor *)

(** An index within a shape, for lists written out in full. *)
Ltac in_range := repeat (apply List.Forall2_cons; [lia|]); apply List.Forall2_nil.

Section IndexFacts.
Context {V : Type}.

(** The indices of a shape are the lists of in-range positions. *)
Lemma elem_of_indices (sh idx : list nat) :
  idx ∈ indices sh <-> Forall2 lt idx sh.
Proof.
  revert idx. induction sh as [|n sh IH]; intros idx; simpl.
  - rewrite list_elem_of_singleton. split; [intros ->; constructor|].
    by intros ->%Forall2_nil_inv_r.
  - rewrite list_elem_of_bind. split.
    + intros (i & (tl & -> & Htl%IH)%list_elem_of_fmap & Hi%elem_of_seq).
      constructor; [lia|done].
    + intros (i & tl & Hi & Htl & ->)%Forall2_cons_inv_r.
      exists i. split; [|apply elem_of_seq; lia].
      apply list_elem_of_fmap. exists tl. by rewrite IH.
Qed.

(** Reading a source of the region's own shape: no axis is stretched. *)
Lemma bcast_cell_same (src : ndarray V) a b c i j k :
  shape src = [a; b; c] -> i < a -> j < b -> k < c ->
  bcast_cell src [i; j; k] = cell src [i; j; k].
Proof.
  intros Hsh Hi Hj Hk. unfold bcast_cell, reverse. rewrite Hsh. simpl.
  destruct (Nat.eqb_spec c 1), (Nat.eqb_spec b 1), (Nat.eqb_spec a 1);
    simpl; repeat f_equal; lia.
Qed.

Lemma bcast_ok_same (a b c : nat) :
  bcast_ok (reverse [a; b; c]) (reverse [a; b; c]) = true.
Proof. unfold reverse. simpl. by rewrite !Nat.eqb_refl. Qed.

End IndexFacts.

Section MaxFacts.
#[local] Open Scope Z_scope.

Lemma foldl_zmax_ge (l : list Z) (v : Z) :
  v <= foldl (max_step Z.leb) v l /\ forall x, x ∈ l -> x <= foldl (max_step Z.leb) v l.
Proof.
  revert v. induction l as [|y l IH]; intros v; simpl.
  - split; [lia|]. intros x Hx. by apply elem_of_nil in Hx.
  - destruct (IH (max_step Z.leb v y)) as [Hv Hl]. unfold max_step in *.
    destruct (Z.leb_spec v y); split; try lia.
    + intros x [->|Hx]%elem_of_cons; [lia|auto].
    + intros x [->|Hx]%elem_of_cons; [lia|auto].
Qed.

Lemma foldl_zmax_in (l : list Z) (v : Z) :
  foldl (max_step Z.leb) v l = v \/ foldl (max_step Z.leb) v l ∈ l.
Proof.
  revert v. induction l as [|y l IH]; intros v; simpl; [by left|].
  destruct (IH (max_step Z.leb v y)) as [->|Hin].
  - unfold max_step. destruct (Z.leb_spec v y); [right; left|by left].
  - right. by right.
Qed.

(** The maximum of a non-empty array bounds every cell and is one of them. *)
Lemma amax_spec (a : ndarray Z) idx0 :
  Forall2 lt idx0 (shape a) ->
  exists m, amax Z.leb a = ok m /\
    (forall idx, Forall2 lt idx (shape a) -> cell a idx <= m) /\
    (exists idx, Forall2 lt idx (shape a) /\ cell a idx = m).
Proof.
  intros H0%elem_of_indices. unfold amax, cells.
  destruct (indices (shape a)) as [|i1 others] eqn:His; [by apply elem_of_nil in H0|].
  simpl. eexists. split; [done|].
  destruct (foldl_zmax_ge (cell a <$> others) (cell a i1)) as [H1 Hrest].
  split.
  - intros idx Hidx%elem_of_indices. rewrite His in Hidx.
    apply elem_of_cons in Hidx as [->|Hidx]; [done|].
    apply Hrest. apply list_elem_of_fmap. eauto.
  - destruct (foldl_zmax_in (cell a <$> others) (cell a i1)) as [Heq|Hin].
    + exists i1. split; [|done]. apply elem_of_indices. rewrite His. left.
    + apply list_elem_of_fmap in Hin as (idx & Heq & Hidx).
      exists idx. split; [|done]. apply elem_of_indices. rewrite His. by right.
Qed.

End MaxFacts.

Section GridFacts.
Context {pil : Pil Z}.
#[local] Existing Instance Integer.pixel.

(** One slice assignment into a three-axis array, the source having the
    shape of the region: the cells of the region are the source's, converted;
    the others are kept. *)
Lemma assign_slices_box (cast : Z -> Z) (grid src : ndarray Z)
    gh gw sr sc r0 rn c0 cn :
  shape grid = [gh; gw; 3] -> shape src = [rn; cn; 3] ->
  clip_slice gh sr = (r0, rn) -> clip_slice gw sc = (c0, cn) ->
  exists out,
    assign_slices cast grid [sr; sc; (0, None)] src = ok out /\
    shape out = [gh; gw; 3] /\
    forall r c k,
      cell out [r; c; k] =
      if (r0 <=? r) && (r <? r0 + rn) && ((c0 <=? c) && (c <? c0 + cn)) && (k <? 3)
      then cast (cell src [r - r0; c - c0; k])
      else cell grid [r; c; k].
Proof.
  intros Hg Hs Hr Hc. unfold assign_slices. rewrite Hg, Hs.
  change (region_of [gh; gw; 3] [sr; sc; (0, None)])
    with [clip_slice gh sr; clip_slice gw sc; (0, 3)].
  rewrite Hr, Hc.
  change (snd <$> [(r0, rn); (c0, cn); (0, 3)]) with [rn; cn; 3].
  rewrite (bcast_ok_same rn cn 3). simpl.
  eexists. split; [done|]. split; [done|].
  intros r c k. simpl.
  destruct (r0 <=? r) eqn:E1, (r <? r0 + rn) eqn:E2; simpl; try done.
  destruct (c0 <=? c) eqn:E3, (c <? c0 + cn) eqn:E4; simpl; try done.
  replace (k <? 0 + 3) with (k <? 3) by done.
  destruct (k <? 3) eqn:E5; simpl; [|done].
  rewrite Nat.sub_0_r, (bcast_cell_same src rn cn 3); [done|done|..].
  - apply Nat.leb_le in E1. apply Nat.ltb_lt in E2. lia.
  - apply Nat.leb_le in E3. apply Nat.ltb_lt in E4. lia.
  - by apply Nat.ltb_lt.
Qed.

(** An image of three or four channels is reduced to its three colour
    channels and scaled when its largest colour value is at most 1. *)
Lemma strip_and_scale_spec (img : ndarray Z) h w c :
  0 < h -> 0 < w -> shape img = [h; w; c] -> c = 3 \/ c = 4 ->
  exists (m : Z) (out : ndarray Z),
    strip_and_scale img = ok out /\
    shape out = [h; w; 3] /\
    (forall r j k, r < h -> j < w -> k < 3 -> (cell img [r; j; k] <= m)%Z) /\
    (exists r j k, r < h /\ j < w /\ k < 3 /\ cell img [r; j; k] = m) /\
    (forall idx, cell out idx =
                 if (m <=? 1)%Z then ((cell img idx * 255) mod 256)%Z
                 else cell img idx).
Proof.
  intros Hh Hw Hsh Hc. unfold strip_and_scale, shape_at. rewrite Hsh. simpl.
  set (rgb := if c =? 4 then first_channels img 3 else img).
  assert ((if c =? 4 then slice_axis2_to img 3 else ok img) = ok rgb) as ->.
  { unfold rgb, slice_axis2_to. rewrite Hsh. simpl. by destruct (c =? 4). }
  assert (shape rgb = [h; w; 3]) as Hrgb.
  { unfold rgb. destruct Hc as [-> | ->]; simpl; [done|].
    unfold first_channels. simpl. by rewrite Hsh. }
  assert (cell rgb = cell img) as Hcell.
  { unfold rgb. by destruct (c =? 4). }
  destruct (amax_spec rgb [0; 0; 0]) as (m & Hm & Hle & (idx & Hidx & Hat)).
  { rewrite Hrgb. in_range. }
  simpl. rewrite Hm. simpl. exists m. eexists. split; [done|].
  split; [by destruct (m <=? 1)%Z|]. split; [|split].
  - intros r j k Hr Hj Hk. rewrite <-Hcell. apply Hle. rewrite Hrgb.
    in_range.
  - rewrite Hrgb in Hidx.
    apply Forall2_cons_inv_r in Hidx as (r & idx1 & Hr & Hidx & ->).
    apply Forall2_cons_inv_r in Hidx as (j & idx2 & Hj & Hidx & ->).
    apply Forall2_cons_inv_r in Hidx as (k & idx3 & Hk & Hidx & ->).
    apply Forall2_nil_inv_r in Hidx as ->.
    exists r, j, k. by rewrite <-Hcell.
  - intros idx'. destruct (m <=? 1)%Z; simpl; by rewrite Hcell.
Qed.

Lemma bind_ok {A B} (a : A) (f : A -> result B) : (ok a ≫= f) = f a.
Proof. reflexivity. Qed.

Lemma place_thumbnails_cons (grid img : ndarray Z) h w i rest :
  place_thumbnails grid h w i (img :: rest) =
  (s ← strip_and_scale img;
   resized_img ← pil_resize s (w / 3) (h / 3);
   grid' ← assign_slices px_to_u8 grid
             [(h, None); (i * (w / 3), Some ((i + 1) * (w / 3))); (0, None)]
             resized_img;
   place_thumbnails grid' h w (S i) rest).
Proof. reflexivity. Qed.

(** The thumbnails are placed side by side below the main image, each in its
    own columns; nothing else is touched. *)
Lemma place_thumbnails_spec (h w : nat) (imgs : list (ndarray Z)) :
  0 < h -> 0 < w -> pil_resizes_to_thirds pil h w ->
  forall (grid : ndarray Z) (i : nat),
  shape grid = [h + h / 3; w; 3] ->
  Forall (fun t => shape t = [h; w; 3]) imgs ->
  (i + length imgs) * (w / 3) <= w ->
  exists out,
    place_thumbnails grid h w i imgs = ok out /\
    shape out = [h + h / 3; w; 3] /\
    (forall r c k,
       r < h \/ c < i * (w / 3) \/ (i + length imgs) * (w / 3) <= c ->
       cell out [r; c; k] = cell grid [r; c; k]) /\
    (forall j t, imgs !! j = Some t ->
       exists s resized,
         strip_and_scale t = ok s /\
         pil_resize s (w / 3) (h / 3) = ok resized /\
         shape resized = [h / 3; w / 3; 3] /\
         forall r c k, r < h / 3 -> c < w / 3 -> k < 3 ->
           cell out [h + r; (i + j) * (w / 3) + c; k] = cell resized [r; c; k]).
Proof.
  intros Hh Hw Hpil. unfold pil_resizes_to_thirds in Hpil.
  remember (w / 3) as w3 eqn:Ew3. remember (h / 3) as h3 eqn:Eh3.
  induction imgs as [|img rest IH]; intros grid i Hg Hall Hfit.
  - exists grid. split; [done|]. split; [done|]. split; [done|].
    intros j t Hj. by rewrite lookup_nil in Hj.
  - apply Forall_cons in Hall as [Himg Hrest]. cbn [length] in *.
    destruct (strip_and_scale_spec img h w 3 Hh Hw Himg)
      as (m & s & Hs & Hshape_s & _ & _ & _); [by left|].
    destruct (Hpil s Hshape_s) as (resized & Hres & Hshape_r & Hbytes).
    rewrite place_thumbnails_cons, <-Ew3, <-Eh3, Hs, bind_ok, Hres, bind_ok.
    destruct (assign_slices_box px_to_u8 grid resized (h + h3) w
                (h, None) (i * w3, Some ((i + 1) * w3)) h h3 (i * w3) w3)
      as (grid1 & Hassign & Hg1 & Hcells1); [done|done|..].
    { unfold clip_slice. simpl. f_equal; lia. }
    { unfold clip_slice. simpl. f_equal; nia. }
    rewrite Hassign, bind_ok.
    destruct (IH grid1 (S i)) as (out & Hout & Hshape_out & Hkeep & Hplaced);
      [done|done|nia|].
    exists out. split; [done|]. split; [done|]. split.
    + intros r c k Hrc. rewrite Hkeep by nia. rewrite Hcells1.
      destruct (h <=? r) eqn:E1, (r <? h + h3) eqn:E2; simpl; try done.
      destruct (i * w3 <=? c) eqn:E3, (c <? i * w3 + w3) eqn:E4; simpl; try done.
      apply Nat.leb_le in E1, E3. apply Nat.ltb_lt in E2, E4. nia.
    + intros [|j] t Hj; simpl in Hj.
      * injection Hj as <-. exists s, resized. repeat split; try done.
        intros r c k Hr Hc Hk. rewrite Hkeep by nia. rewrite Hcells1.
        replace (h <=? h + r) with true by (symmetry; apply Nat.leb_le; lia).
        replace (h + r <? h + h3) with true by (symmetry; apply Nat.ltb_lt; lia).
        replace (i * w3 <=? (i + 0) * w3 + c) with true
          by (symmetry; apply Nat.leb_le; nia).
        replace ((i + 0) * w3 + c <? i * w3 + w3) with true
          by (symmetry; apply Nat.ltb_lt; nia).
        replace (k <? 3) with true by (symmetry; apply Nat.ltb_lt; lia).
        simpl. replace (h + r - h) with r by lia.
        replace ((i + 0) * w3 + c - i * w3) with c by nia.
        apply Z.mod_small.
        assert (0 <= cell resized [r; c; k] <= 255)%Z; [|lia].
        apply Hbytes. rewrite Hshape_r. in_range.
      * destruct (Hplaced j t Hj) as (s' & resized' & ? & ? & ? & Hcells').
        exists s', resized'. repeat split; try done.
        intros r c k Hr Hc Hk.
        replace ((i + S j) * w3) with ((S i + j) * w3) by nia. by apply Hcells'.
Qed.

Lemma image_grid_cons (main : ndarray Z) (thumbnails : list (ndarray Z)) :
  image_grid (main :: thumbnails) =
  (full_image ← strip_and_scale main;
   hw ← unpack2 (take 2 (shape full_image));
   grid ← assign_slices px_to_u8
            (full [hw.1 + hw.1 / 3; hw.2; 3] px_white)
            [(0, Some hw.1); (0, Some hw.2); (0, None)] full_image;
   place_thumbnails grid hw.1 hw.2 0 thumbnails).
Proof. reflexivity. Qed.

(** C3, amended. For a non-empty main image of shape H x W x 4 with values
    in [0, 255] and three thumbnails of shape H x W x 3, [PIL] resizing as
    assumed: the grid has shape (H + H // 3, W, 3); rows [0, H) hold the
    colour channels of the main image, unchanged when one of its colour
    values exceeds 1 and multiplied by 255 when none does; thumbnail [i],
    after the same scaling rule and resized to (H // 3, W // 3), fills
    columns [i * (W // 3), (i + 1) * (W // 3)) of the band below; what is left
    of the band is white; and [create_image_grid] saves that grid. *)
Theorem image_grid_layout (main : ndarray Z) (thumbnails : list (ndarray Z))
    (h w : nat) (cols : list nat) (save_file : string) fs :
  0 < h -> 0 < w ->
  shape main = [h; w; 4] -> bytes main ->
  length thumbnails = 3 ->
  Forall (fun t => shape t = [h; w; 3]) thumbnails ->
  pil_resizes_to_thirds pil h w ->
  exists grid,
    image_grid (main :: thumbnails) = ok grid /\
    create_image_grid (main :: thumbnails) cols save_file fs
    = ([PltImsave save_file grid None None],
       <[save_file := Png (Saved grid None None)]> fs, ok tt) /\
    shape grid = [h + h / 3; w; 3] /\
    ((exists r c k, r < h /\ c < w /\ k < 3 /\ (1 < cell main [r; c; k])%Z) ->
     forall r c k, r < h -> c < w -> k < 3 ->
       cell grid [r; c; k] = cell main [r; c; k]) /\
    ((forall r c k, r < h -> c < w -> k < 3 -> (cell main [r; c; k] <= 1)%Z) ->
     forall r c k, r < h -> c < w -> k < 3 ->
       cell grid [r; c; k] = (255 * cell main [r; c; k])%Z) /\
    (forall i t, thumbnails !! i = Some t ->
       exists s resized,
         strip_and_scale t = ok s /\
         pil_resize s (w / 3) (h / 3) = ok resized /\
         shape resized = [h / 3; w / 3; 3] /\
         forall r c k, r < h / 3 -> c < w / 3 -> k < 3 ->
           cell grid [h + r; i * (w / 3) + c; k] = cell resized [r; c; k]) /\
    (forall r c k, h <= r -> r < h + h / 3 -> 3 * (w / 3) <= c -> c < w -> k < 3 ->
       cell grid [r; c; k] = 255%Z).
Proof.
  intros Hh Hw Hmain Hbytes Hlen Hthumbs Hpil.
  destruct (strip_and_scale_spec main h w 4 Hh Hw Hmain)
    as (m & full_image & Hfull & Hshape_full & Hmax & Hattained & Hcells);
    [by right|].
  destruct (assign_slices_box px_to_u8 (full [h + h / 3; w; 3] px_white)
              full_image (h + h / 3) w (0, Some h) (0, Some w) 0 h 0 w)
    as (grid1 & Hassign & Hshape1 & Hcells1); [done|done|..].
  { unfold clip_slice. simpl. f_equal; lia. }
  { unfold clip_slice. simpl. f_equal; lia. }
  destruct (place_thumbnails_spec h w thumbnails Hh Hw Hpil grid1 0)
    as (grid & Hplace & Hshape & Hkeep & Hplaced); [done|done|..].
  { rewrite Hlen. pose proof (Nat.Div0.mul_div_le w 3). lia. }
  assert (image_grid (main :: thumbnails) = ok grid) as Hgrid.
  { rewrite image_grid_cons, Hfull, bind_ok, Hshape_full.
    change (unpack2 (take 2 [h; w; 3])) with (ok (h, w)).
    rewrite bind_ok. cbn [fst snd].
    by rewrite Hassign, bind_ok. }
  assert (forall r c k, r < h -> c < w -> k < 3 ->
            cell grid [r; c; k] = (cell full_image [r; c; k] mod 256)%Z) as Htop.
  { intros r c k Hr Hc Hk. rewrite Hkeep by (by left). rewrite Hcells1.
    replace (r <? 0 + h) with true by (symmetry; apply Nat.ltb_lt; lia).
    replace (c <? 0 + w) with true by (symmetry; apply Nat.ltb_lt; lia).
    replace (k <? 3) with true by (symmetry; apply Nat.ltb_lt; lia).
    simpl. by rewrite !Nat.sub_0_r. }
  assert (forall r c k, r < h -> c < w -> k < 3 ->
            (0 <= cell main [r; c; k] <= 255)%Z) as Hin.
  { intros r c k Hr Hc Hk. apply Hbytes. rewrite Hmain. in_range. }
  exists grid. split; [done|]. split.
  { unfold create_image_grid. by rewrite Hgrid. }
  split; [done|]. split; [|split; [|split]].
  - intros (r0 & c0 & k0 & Hr0 & Hc0 & Hk0 & Hbig) r c k Hr Hc Hk.
    rewrite Htop, Hcells by done.
    pose proof (Hmax r0 c0 k0 Hr0 Hc0 Hk0).
    destruct (Z.leb_spec m 1); [lia|].
    apply Z.mod_small. specialize (Hin r c k Hr Hc Hk). lia.
  - intros Hdark r c k Hr Hc Hk. rewrite Htop, Hcells by done.
    destruct Hattained as (r0 & c0 & k0 & Hr0 & Hc0 & Hk0 & <-).
    pose proof (Hdark r0 c0 k0 Hr0 Hc0 Hk0).
    destruct (Z.leb_spec (cell main [r0; c0; k0]) 1); [|lia].
    specialize (Hin r c k Hr Hc Hk). specialize (Hdark r c k Hr Hc Hk).
    assert (cell main [r; c; k] = 0 \/ cell main [r; c; k] = 1)%Z as [-> | ->]
      by lia; reflexivity.
  - intros i t Hi. destruct (Hplaced i t Hi) as (s & resized & ? & ? & ? & Hat).
    exists s, resized. repeat split; try done.
  - intros r c k Hr1 Hr2 Hc1 Hc2 Hk.
    rewrite Hkeep by (right; right; rewrite Hlen; lia). rewrite Hcells1.
    replace (r <? 0 + h) with false by (symmetry; apply Nat.ltb_ge; lia).
    by rewrite andb_false_r.
Qed.

End GridFacts.

Lemma nearest_resizes_to_thirds : pil_resizes_to_thirds Integer.nearest 3 3.
Proof.
  intros img Hsh. unfold pil_resize, Integer.nearest. rewrite Hsh. simpl.
  eexists. split; [done|]. split; [done|].
  intros idx Hidx. simpl in Hidx.
  apply Forall2_cons_inv_r in Hidx as (r & idx1 & Hr & Hidx & ->).
  apply Forall2_cons_inv_r in Hidx as (j & idx2 & Hj & Hidx & ->).
  apply Forall2_cons_inv_r in Hidx as (k & idx3 & Hk & Hidx & ->).
  apply Forall2_nil_inv_r in Hidx as ->. cbn [cell].
  match goal with
  | |- (0 <= ?x `mod` 256 <= 255)%Z => pose proof (Z.mod_pos_bound x 256); lia
  end.
Qed.

Lemma main_image_bytes : bytes Integer.main_image.
Proof.
  intros idx Hidx. simpl in Hidx.
  apply Forall2_cons_inv_r in Hidx as (r & idx1 & Hr & Hidx & ->).
  apply Forall2_cons_inv_r in Hidx as (j & idx2 & Hj & Hidx & ->).
  apply Forall2_cons_inv_r in Hidx as (k & idx3 & Hk & Hidx & ->).
  apply Forall2_nil_inv_r in Hidx as ->. simpl. lia.
Qed.

Lemma image_grid_layout_witness :
  exists grid,
    image_grid (px:=Integer.pixel) (pil:=Integer.nearest)
      (Integer.main_image :: Integer.thumbnails) = ok grid /\
    shape grid = [4; 3; 3] /\
    (forall r c k, r < 3 -> c < 3 -> k < 3 ->
       cell grid [r; c; k] = cell Integer.main_image [r; c; k]).
Proof.
  destruct (image_grid_layout (pil:=Integer.nearest) Integer.main_image
              Integer.thumbnails 3 3 [1; 3] "final.png" ∅)
    as (grid & Hgrid & _ & Hshape & Hsame & _).
  - lia.
  - lia.
  - reflexivity.
  - exact main_image_bytes.
  - reflexivity.
  - repeat constructor.
  - exact nearest_resizes_to_thirds.
  - exists grid. split; [exact Hgrid|]. split; [exact Hshape|].
    apply Hsame. exists 1, 0, 0. repeat split; lia.
Defined.

(** C3 as stated fails. A main image of shape 3 x 3 x 4 whose values are all
    1, within [0, 255], is taken to be normalized: the grid holds 255 where
    the image holds 1. *)
Lemma grid_scales_main_image_of_ones :
  shape Integer.dark_image = [3; 3; 4] /\
  cell Integer.dark_image [0; 0; 0] = 1%Z /\
  (grid ← image_grid (px:=Integer.pixel) (pil:=Integer.nearest)
            (Integer.dark_image :: Integer.thumbnails);
   ok (shape grid, cell grid [0; 0; 0]))
  = ok ([4; 3; 3], 255%Z).
Proof. repeat split; vm_compute; reflexivity. Qed.

(** * Part III: further properties of the script *)

(** ** The key classifier: order, errors and the two modes *)

Section ClassifierOrder.
Context {engine : ReEngine}.

Lemma key_matches_from_stops n k ps p qs r :
  (forall q, q ∈ ps -> re_fullmatch q k = Some false) ->
  re_fullmatch p k = Some true ->
  key_matches_from n k (ps ++ p :: qs) r
  = ok (if r then KPair true (Some (n + length ps)) else KBool true).
Proof.
  revert n. induction ps as [|q ps IH]; intros n Hps Hp; simpl.
  - rewrite Hp, Nat.add_0_r. done.
  - rewrite (Hps q) by left. rewrite IH; [|intros; apply Hps; by right|done].
    by replace (S n + length ps) with (n + S (length ps)) by lia.
Qed.

(** X1. Patterns are tried in order and the search stops at the first match:
    when [p] is the first pattern the key fully matches, the answer is
    [True] (with the index of [p]) whatever follows [p] in the list, patterns
    that do not compile included. *)
Theorem key_matches_ignores_later_patterns k ps p qs (r : bool) :
  (forall q, q ∈ ps -> re_fullmatch q k = Some false) ->
  re_fullmatch p k = Some true ->
  key_matches k (ps ++ p :: qs) r
  = ok (if r then KPair true (Some (length ps)) else KBool true).
Proof. intros Hps Hp. apply (key_matches_from_stops 0 k ps p qs r Hps Hp). Qed.



Lemma first_full_match_app_l k ps qs i :
  first_full_match k ps i -> first_full_match k (ps ++ qs) i.
Proof.
  intros [(p & Hp & Hm) Hbefore]. split.
  - exists p. split; [|done]. by apply lookup_app_l_Some.
  - intros j q Hj Hq. apply (Hbefore j); [done|].
    apply lookup_lt_Some in Hp. rewrite lookup_app_l in Hq by lia. done.
Qed.

Lemma first_full_match_app_r k ps qs j :
  no_full_match k ps -> first_full_match k qs j ->
  first_full_match k (ps ++ qs) (length ps + j).
Proof.
  intros Hno [(p & Hp & Hm) Hbefore]. split.
  - exists p. split; [|done]. rewrite lookup_app_r by lia.
    by replace (length ps + j - length ps) with j by lia.
  - intros i q Hi Hq. destruct (decide (i < length ps)) as [Hlt|Hge].
    + rewrite lookup_app_l in Hq by done. apply Hno.
      by apply list_elem_of_lookup_2 in Hq.
    + rewrite lookup_app_r in Hq by lia. apply (Hbefore (i - length ps)); [lia|done].
Qed.

(** X3. Matching against a concatenation of pattern lists, as the script does
    with [flow_keys + rgb_keys + depth_keys] and with [all_default_keys]: a
    first match at index [i] of the first list is found at [i]; when the
    first list has no match, a first match at index [j] of the second list is
    found at [len(first) + j]; and when neither has one the answer is
    [(False, None)]. *)
Theorem key_matches_concat_index k ps qs :
  (forall i, first_full_match k ps i ->
     key_matches k (ps ++ qs) true = ok (KPair true (Some i))) /\
  (no_full_match k ps ->
     (forall j, first_full_match k qs j ->
        key_matches k (ps ++ qs) true = ok (KPair true (Some (length ps + j)))) /\
     (no_full_match k qs ->
        key_matches k (ps ++ qs) true = ok (KPair false None))).
Proof.
  split; [|intros Hno; split].
  - intros i Hi. apply key_matches_hit. by apply first_full_match_app_l.
  - intros j Hj. apply key_matches_hit. by apply first_full_match_app_r.
  - intros Hno'. apply key_matches_from_miss.
    intros p [Hp|Hp]%elem_of_app; auto.
Qed.

(** X4. The two modes agree: without [return_index] the answer is the boolean
    [b] exactly when with [return_index] it is a pair whose first component
    is [b]; and the second component is an index exactly when [b] is true. *)
Theorem key_matches_modes_agree k ps (b : bool) :
  key_matches k ps false = ok (KBool b) <->
  exists i, key_matches k ps true = ok (KPair b i) /\ (is_Some i <-> b = true).
Proof.
  unfold key_matches. rewrite key_matches_from_modes.
  destruct (key_matches_from 0 k ps true) as [e|v] eqn:Hv; simpl.
  - split; [done|]. by intros (i & ? & _).
  - destruct (key_matches_from_pair _ _ _ _ Hv) as [[i ->]| ->]; simpl.
    + split.
      * intros [= <-]. exists (Some i). split; [done|]. split; eauto.
      * by intros (i' & [= <- _] & _).
    + split.
      * intros [= <-]. exists None. split; [done|]. split; [by intros [??]|done].
      * by intros (i' & [= <- _] & _).
Qed.

End ClassifierOrder.

Lemma key_matches_ignores_later_patterns_witness :
  @key_matches py_engine "depth" (["distance"] ++ "depth" :: ["(unclosed"]) true
  = ok (KPair true (Some 1)).
Proof.
  apply (key_matches_ignores_later_patterns (engine:=py_engine)
           "depth" ["distance"] "depth" ["(unclosed"] true).
  - intros q ->%list_elem_of_singleton. reflexivity.
  - reflexivity.
Defined.

Lemma key_matches_concat_index_witness :
  @key_matches py_engine "normals" (default_flow_keys ++ default_rgb_keys) true
  = ok (KPair true (Some (length default_flow_keys + 1))).
Proof.
  apply (proj1 (proj2 (key_matches_concat_index (engine:=py_engine)
                         "normals" default_flow_keys default_rgb_keys)
                  ltac:(apply key_matches_from_miss with (n:=0); reflexivity))).
  apply key_matches_hit. reflexivity.
Defined.

(** ** The renderer: flow, depth and segmentation branches *)

Section RendererBranches.
Context {V : Type} {engine : ReEngine} {fl : FlowScalar V}.

(** X5. [flow_to_rgb] without [cv2] raises [ImportError] whatever it is
    given; with [cv2], an array of fewer than three axes, or of three axes
    with fewer than two channels, raises [IndexError] before any function of
    [cv2] is called. *)
Theorem flow_to_rgb_errors (flow : ndarray V) :
  flow_to_rgb (cv:=None) flow = raise (ImportError "No module named 'cv2'") /\
  (forall m, length (shape flow) < 3 ->
     flow_to_rgb (cv:=Some m) flow = raise IndexError) /\
  (forall m h w c rest, shape flow = h :: w :: c :: rest -> c < 2 ->
     flow_to_rgb (cv:=Some m) flow = raise IndexError).
Proof.
  split; [done|]. split.
  - intros m Hlen. unfold flow_to_rgb, import_cv2, index_axis2.
    rewrite (lookup_ge_None_2 (shape flow) 2) by lia. done.
  - intros m h w c rest Hsh Hc. unfold flow_to_rgb, import_cv2, index_axis2.
    rewrite Hsh. simpl. destruct c as [|[|c]]; [done|done|lia].
Qed.

Context {cv : Cv2Import V}.

(** X6. For a flow key, an exception of [flow_to_rgb] ends [vis_data] after
    the figure and its title were created and before anything is shown or
    saved: an [ImportError] is replaced by the [ImportError] that names
    opencv-python, any other exception is passed on unchanged. *)
Theorem vis_data_flow_failure key (data : ndarray V) full label rgb flow segmap
    segcol depth depth_max save fs e :
  classify key (default default_rgb_keys rgb) (default default_flow_keys flow)
    (default default_segmap_keys segmap) (default default_depth_keys depth)
  = ok Flow ->
  flow_to_rgb data = raise e ->
  vis_data key data full label rgb flow segmap segcol depth depth_max save fs
  = ([PltFigure; PltTitle (figure_title key label)], fs,
     raise (match e with
            | ImportError _ => ImportError flow_import_message
            | _ => e
            end)).
Proof.
  intros Hf%classify_inv He. unfold vis_data.
  rewrite !key_matches_app, Hf. simpl. rewrite He.
  destruct save, e; reflexivity.
Qed.

(** X7. For a flow key, the image [flow_to_rgb] returns is what is shown, or
    saved to the requested file and followed by [plt.close()], with the
    colour map [jet], under a new figure with its title. *)
Theorem vis_data_flow_success key (data rgb_image : ndarray V) full label rgb
    flow segmap segcol depth depth_max save fs :
  classify key (default default_rgb_keys rgb) (default default_flow_keys flow)
    (default default_segmap_keys segmap) (default default_depth_keys depth)
  = ok Flow ->
  flow_to_rgb data = ok rgb_image ->
  vis_data key data full label rgb flow segmap segcol depth depth_max save fs =
  match save with
  | None =>
      ([PltFigure; PltTitle (figure_title key label);
        PltImshow rgb_image (Some "jet") None], fs, ok tt)
  | Some f =>
      ([PltFigure; PltTitle (figure_title key label);
        PltImsave f rgb_image (Some "jet") None; PltClose],
       <[f := Png (Saved rgb_image (Some "jet") None)]> fs, ok tt)
  end.
Proof.
  intros Hf%classify_inv Hrgb. unfold vis_data.
  rewrite !key_matches_app, Hf. simpl. rewrite Hrgb.
  destruct save; reflexivity.
Qed.

(** X8. For a depth key no warning is printed when the array does not have
    exactly three axes, in which case it is rendered as it is, or when it has
    a single channel, in which case that channel is rendered. *)
Theorem vis_data_depth_without_warning key (data : ndarray V) full label rgb
    flow segmap segcol depth depth_max save fs :
  classify key (default default_rgb_keys rgb) (default default_flow_keys flow)
    (default default_segmap_keys segmap) (default default_depth_keys depth)
  = ok Depth ->
  patterns_compile key (default default_rgb_keys rgb) ->
  ndim data <> 3 \/ (exists h w, shape data = [h; w; 1]) ->
  let rendered := if ndim data =? 3 then channel_at data 0 else data in
  vis_data key data full label rgb flow segmap segcol depth depth_max save fs =
  match save with
  | None =>
      ([PltFigure; PltTitle (figure_title key label);
        PltImshow rendered (Some "summer") (Some depth_max); PltColorbar],
       fs, ok tt)
  | Some f =>
      ([PltFigure; PltTitle (figure_title key label);
        PltImsave f rendered (Some "summer") (Some depth_max); PltClose],
       <[f := Png (Saved rendered (Some "summer") (Some depth_max))]> fs, ok tt)
  end.
Proof.
  intros (Hf & Hs & Hd)%classify_inv Hc Hshape.
  destruct (key_matches_compile _ _ Hc) as [br Hr].
  unfold vis_data. rewrite !key_matches_app, Hf, Hr, Hs, Hd. simpl.
  destruct Hshape as [Hn|(h & w & Hsh)].
  - destruct (Nat.eqb_spec (ndim data) 3); [done|].
    destruct br, save; reflexivity.
  - unfold ndim, shape_at. rewrite Hsh. simpl.
    rewrite (index_axis2_channel data h w 1 [] 0) by (done || lia).
    destruct br, save; reflexivity.
Qed.

(** X9. For a depth key whose array has three axes and no channel at all, the
    warning is printed and [IndexError] is raised: nothing is rendered. *)
Theorem vis_data_depth_no_channel key (data : ndarray V) full label rgb flow
    segmap segcol depth depth_max save fs h w :
  classify key (default default_rgb_keys rgb) (default default_flow_keys flow)
    (default default_segmap_keys segmap) (default default_depth_keys depth)
  = ok Depth ->
  patterns_compile key (default default_rgb_keys rgb) ->
  shape data = [h; w; 0] ->
  vis_data key data full label rgb flow segmap segcol depth depth_max save fs
  = ([PltFigure; PltTitle (figure_title key label); Print (depth_warning key)],
     fs, raise IndexError).
Proof.
  intros (Hf & Hs & Hd)%classify_inv Hc Hsh.
  destruct (key_matches_compile _ _ Hc) as [br Hr].
  unfold vis_data. rewrite !key_matches_app, Hf, Hr, Hs, Hd. simpl.
  unfold ndim, shape_at, index_axis2. rewrite Hsh. simpl.
  destruct br, save; reflexivity.
Qed.

End RendererBranches.

Lemma vis_data_flow_failure_witness :
  vis_data (engine:=py_engine) (fl:=Integer.flow) (cv:=Integer.without_cv2)
    "forward_flow" (Integer.ramp_image 2 2 2 0) None "0.hdf5"
    None None None None None 5%Z (Some "out/flow.png") ∅
  = ([PltFigure; PltTitle (figure_title "forward_flow" "0.hdf5")], ∅,
     raise (ImportError flow_import_message)).
Proof.
  apply (vis_data_flow_failure (engine:=py_engine) (fl:=Integer.flow)
           (cv:=Integer.without_cv2) "forward_flow" (Integer.ramp_image 2 2 2 0)
           None "0.hdf5" None None None None None 5%Z (Some "out/flow.png") ∅
           (ImportError "No module named 'cv2'")); reflexivity.
Defined.

Lemma vis_data_flow_success_witness :
  exists rgb_image,
    shape rgb_image = [2; 2; 3] /\
    vis_data (engine:=py_engine) (fl:=Integer.flow) (cv:=Integer.with_cv2)
      "backward_flow" (Integer.ramp_image 2 2 2 0) None "0.hdf5"
      None None None None None 5%Z None ∅
    = ([PltFigure; PltTitle (figure_title "backward_flow" "0.hdf5");
        PltImshow rgb_image (Some "jet") None], ∅, ok tt).
Proof.
  destruct (flow_to_rgb (fl:=Integer.flow) (cv:=Integer.with_cv2)
              (Integer.ramp_image 2 2 2 0)) as [e|rgb_image] eqn:Hrgb;
    [discriminate|].
  exists rgb_image. split; [by injection Hrgb as <-|].
  apply (vis_data_flow_success (engine:=py_engine) (fl:=Integer.flow)
           (cv:=Integer.with_cv2) "backward_flow" (Integer.ramp_image 2 2 2 0)
           rgb_image None "0.hdf5" None None None None None 5%Z None ∅);
    [reflexivity|exact Hrgb].
Defined.

Lemma vis_data_depth_without_warning_witness :
  printed (Integer.render "distance" (full [2; 2] 3%Z) None).1.1 = [] /\
  shown_images (Integer.render "distance" (full [2; 2] 3%Z) None).1.1
  = [full [2; 2] 3%Z].
Proof.
  unfold Integer.render.
  rewrite (vis_data_depth_without_warning (engine:=py_engine) (fl:=Integer.flow)
             (cv:=Integer.with_cv2) "distance" (full [2; 2] 3%Z) None "0.hdf5"
             None None None None None 5%Z None ∅).
  - split; reflexivity.
  - reflexivity.
  - apply patterns_compile_check. reflexivity.
  - left. vm_compute. lia.
Defined.

Lemma vis_data_depth_no_channel_witness :
  Integer.render "depth" (full [2; 2; 0] 3%Z) (Some "out/depth.png")
  = ([PltFigure; PltTitle (figure_title "depth" "0.hdf5");
      Print (depth_warning "depth")], ∅, raise IndexError).
Proof.
  unfold Integer.render.
  apply (vis_data_depth_no_channel (engine:=py_engine) (fl:=Integer.flow)
           (cv:=Integer.with_cv2) "depth" (full [2; 2; 0] 3%Z) None "0.hdf5"
           None None None None None 5%Z (Some "out/depth.png") ∅ 2 2).
  - reflexivity.
  - apply patterns_compile_check. reflexivity.
  - reflexivity.
Defined.

(** ** The segmentation legend *)

Section LegendFacts.

Lemma omap_legend_cons field items :
  omap legend_entry (field :: items) =
  match legend_entry field with
  | Some e => e :: omap legend_entry items
  | None => omap legend_entry items
  end.
Proof. reflexivity. Qed.

Lemma collect_channel_labels_cons field items (m0 : gmap nat string) :
  collect_channel_labels (field :: items) m0 =
  if string_valued field
  then collect_channel_labels items
         match legend_entry field with
         | Some e => <[e.1 := e.2]> m0
         | None => m0
         end
  else raise AttributeError.
Proof.
  destruct field as [k v]. unfold string_valued, legend_entry.
  cbn [fst snd collect_channel_labels].
  destruct (startswith "channel_" k); [|reflexivity].
  destruct v as [| | |s| |]; try reflexivity.
  cbn [json_isdigit json_int]. rewrite bind_ok.
  destruct (isdigit s); reflexivity.
Qed.

Lemma collect_channel_labels_fold items (m0 : gmap nat string) :
  collect_channel_labels items m0 =
  if forallb string_valued items
  then ok (foldl (fun m e => <[e.1 := e.2]> m) m0 (omap legend_entry items))
  else raise AttributeError.
Proof.
  revert m0. induction items as [|field items IH]; intros m0; [done|].
  rewrite collect_channel_labels_cons, omap_legend_cons. cbn [forallb].
  destruct (string_valued field); [|done]. rewrite IH. cbn [andb].
  by destruct (legend_entry field).
Qed.

Lemma foldl_insert_lookup (es : list (nat * string)) (m0 : gmap nat string) i :
  foldl (fun m e => <[e.1 := e.2]> m) m0 es !! i =
  match last (filter (fun e => e.1 = i) es) with
  | Some e => Some e.2
  | None => m0 !! i
  end.
Proof.
  induction es as [|e es IH] using rev_ind; [done|].
  rewrite foldl_app, filter_app. simpl.
  destruct (decide (e.1 = i)) as [<-|Hne].
  - rewrite filter_cons_True by done. rewrite filter_nil, last_snoc.
    apply lookup_insert_eq.
  - rewrite filter_cons_False by done. rewrite filter_nil, app_nil_r.
    by rewrite lookup_insert_ne.
Qed.

(** X10. Reading the legend: when every field of the record named
    [channel_...] holds a string, channel [i] gets the label of the last
    field [channel_<label>] whose value is a string of digits that reads [i],
    and no label when there is none; fields with other names are skipped
    whatever they hold. When a field named [channel_...] holds something
    else than a string, [AttributeError] is raised. *)
Theorem legend_labels items :
  (forallb string_valued items = true ->
   exists labels,
     collect_channel_labels items ∅ = ok labels /\
     forall i, labels !! i
               = snd <$> last (filter (fun e => e.1 = i) (omap legend_entry items))) /\
  (forallb string_valued items = false ->
   collect_channel_labels items ∅ = raise AttributeError).
Proof.
  rewrite collect_channel_labels_fold. split; intros ->; [|done].
  eexists. split; [done|]. intros i. rewrite foldl_insert_lookup.
  by destruct (last _).
Qed.

Context {V : Type}.

Lemma h5_get_contains (f : h5file V) key d :
  h5_get f key = ok d -> h5_contains f key = true.
Proof.
  unfold h5_contains. intros Hget. apply bool_decide_eq_true.
  induction f as [|[k d'] f IH]; simpl in *; [done|].
  destruct (decide (k = key)) as [->|Hne].
  - left.
  - rewrite bool_decide_eq_false_2 in Hget by done. right. by apply IH.
Qed.

(** X11. Where the legend is looked up. No label is read when the index of
    the matching segmap pattern has no counterpart in [segcolormap_keys],
    when no container is given, or when the container has no dataset under
    the paired key. Otherwise the dataset is decoded: a decoding error is
    passed on, an empty list gives no label, and of a list of records only
    the first is read. *)
Theorem find_channel_labels_cases (full : option (h5file V))
    (segcolormap_keys : list string) (i : nat) :
  (length segcolormap_keys <= i ->
   find_channel_labels full segcolormap_keys (Some i) = ok ∅) /\
  (full = None -> find_channel_labels full segcolormap_keys (Some i) = ok ∅) /\
  (forall f ck, full = Some f -> segcolormap_keys !! i = Some ck ->
     h5_contains f ck = false ->
     find_channel_labels full segcolormap_keys (Some i) = ok ∅) /\
  (forall f ck d, full = Some f -> segcolormap_keys !! i = Some ck ->
     h5_get f ck = ok d ->
     (forall e, ds_json d = raise e ->
        find_channel_labels full segcolormap_keys (Some i) = raise e) /\
     (ds_json d = ok (JArr []) ->
        find_channel_labels full segcolormap_keys (Some i) = ok ∅) /\
     (forall items others, ds_json d = ok (JArr (JObj items :: others)) ->
        find_channel_labels full segcolormap_keys (Some i)
        = collect_channel_labels items ∅)).
Proof.
  unfold find_channel_labels. simpl. split; [|split; [|split]].
  - intros Hle. by rewrite (proj2 (Nat.ltb_ge _ _) Hle).
  - intros ->. destruct (i <? length segcolormap_keys) eqn:Hlt; [|done].
    apply Nat.ltb_lt in Hlt. apply lookup_lt_is_Some in Hlt as [ck ->]. done.
  - intros f ck -> Hck Hno. rewrite Hck.
    rewrite (proj2 (Nat.ltb_lt _ _) (lookup_lt_Some _ _ _ Hck)). simpl.
    by rewrite Hno.
  - intros f ck d -> Hck Hget. rewrite Hck.
    rewrite (proj2 (Nat.ltb_lt _ _) (lookup_lt_Some _ _ _ Hck)). simpl.
    rewrite (h5_get_contains _ _ _ Hget), Hget. simpl.
    split; [|split].
    + intros e He. by rewrite He.
    + intros Hd. by rewrite Hd.
    + intros items others Hd. by rewrite Hd.
Qed.

Context {engine : ReEngine} {fl : FlowScalar V} {cv : Cv2Import V}.

Lemma channel_write_display (data : ndarray V) labels c (l : list nat)
    (fs : gmap string (node V)) :
  foldl (fun fs' i => channel_write data labels c None i fs') fs l = fs.
Proof. by induction l. Qed.

(** X12. A segmap key whose matching pattern has no counterpart in
    [segcolormap_keys], or that is rendered without a container, is shown
    with its channels labelled by their numbers: one figure per channel,
    titled [<key> / <number> in <file>], the file system being left as it
    is. With the default lists this is the case of every key matched by
    [.*_segmaps]. *)
Theorem segmap_numeric_labels key (data : ndarray V) full label rgb flow segmap
    segcol depth depth_max fs h w c i :
  classify key (default default_rgb_keys rgb) (default default_flow_keys flow)
    (default default_segmap_keys segmap) (default default_depth_keys depth)
  = ok Segmap ->
  patterns_compile key (default default_rgb_keys rgb) ->
  patterns_compile key (default default_depth_keys depth) ->
  key_matches key (default default_segmap_keys segmap) true
  = ok (KPair true (Some i)) ->
  length (default default_segcolormap_keys segcol) <= i \/ full = None ->
  shape (promoted data) = [h; w; c] ->
  exists b,
    vis_data key data full label rgb flow segmap segcol depth depth_max None fs
    = (figure_calls key label b ++
       (seq 0 c ≫= fun j =>
          [PltFigure; PltTitle (segmap_title key (str_of_nat j) label);
           PltImshow (channel_at (promoted data) j) (Some "jet") None]),
       fs, ok tt).
Proof.
  intros (Hf & Hs)%classify_inv Hcr Hcd Hi Hno Hsh.
  destruct (key_matches_compile _ _ Hcr) as [br Hr].
  destruct (key_matches_compile _ _ Hcd) as [bd Hd].
  exists (br || bd).
  rewrite (vis_data_segmap key data full label rgb flow segmap segcol depth
             depth_max None fs h w c i ∅ br bd); try done.
  - by rewrite channel_write_display.
  - destruct (find_channel_labels_cases full
                (default default_segcolormap_keys segcol) i) as (H1 & H2 & _).
    destruct Hno; auto.
Qed.

End LegendFacts.

Lemma legend_labels_witness :
  exists labels,
    collect_channel_labels
      [("channel_class", JStr "0"); ("name", JNum 3);
       ("channel_instance", JStr "1"); ("channel_none", JStr "n/a");
       ("channel_object", JStr "0")] ∅ = ok labels /\
    labels !! 0 = Some "object" /\ labels !! 1 = Some "instance" /\
    labels !! 2 = None.
Proof.
  destruct (proj1 (legend_labels
              [("channel_class", JStr "0"); ("name", JNum 3);
               ("channel_instance", JStr "1"); ("channel_none", JStr "n/a");
               ("channel_object", JStr "0")]) eq_refl) as (labels & Hl & Hat).
  exists labels. split; [exact Hl|]. rewrite !Hat. repeat split; reflexivity.
Defined.

Lemma find_channel_labels_cases_witness :
  find_channel_labels (V:=Z) (Some Integer.sample_file)
    default_segcolormap_keys (Some 1) = ok ∅.
Proof.
  apply (proj1 (find_channel_labels_cases (Some Integer.sample_file)
                  default_segcolormap_keys 1)).
  simpl. lia.
Defined.

Lemma segmap_numeric_labels_witness :
  exists b,
    Integer.render "category_id_segmaps" (Integer.ramp_image 1 1 2 0) None
    = (figure_calls "category_id_segmaps" "0.hdf5" b ++
       [PltFigure; PltTitle "category_id_segmaps / 0 in 0.hdf5";
        PltImshow (channel_at (Integer.ramp_image 1 1 2 0) 0) (Some "jet") None;
        PltFigure; PltTitle "category_id_segmaps / 1 in 0.hdf5";
        PltImshow (channel_at (Integer.ramp_image 1 1 2 0) 1) (Some "jet") None],
       ∅, ok tt).
Proof.
  unfold Integer.render.
  destruct (segmap_numeric_labels (engine:=py_engine) (fl:=Integer.flow)
              (cv:=Integer.with_cv2) "category_id_segmaps"
              (Integer.ramp_image 1 1 2 0) None "0.hdf5"
              None None None None None 5%Z ∅ 1 1 2 1) as [b Hb].
  - reflexivity.
  - apply patterns_compile_check. reflexivity.
  - apply patterns_compile_check. reflexivity.
  - reflexivity.
  - left. simpl. lia.
  - reflexivity.
  - exists b. rewrite Hb. reflexivity.
Defined.

(** ** Displaying and saving: what a run does to figures and files *)

Section Maintains.
Context {V : Type} (R : relation (gmap string (node V))) `{!PreOrder R}.
Context (T : list (event V) -> Prop).
Hypothesis T_nil : T [].
Hypothesis T_app : forall t1 t2, T t1 -> T t2 -> T (t1 ++ t2).

Lemma maintains_ret {A} (a : A) : maintains R T (mret a).
Proof. intros fs. by split. Qed.

Lemma maintains_lift {A} (r : result A) : maintains R T (lift r).
Proof. intros fs. by split. Qed.

Lemma maintains_lookup p : maintains R T (fs_lookup p).
Proof. intros fs. by split. Qed.

Lemma maintains_emit e : T [e] -> maintains R T (emit e).
Proof. intros He fs. by split. Qed.

Lemma maintains_write p n :
  (forall fs, R fs (<[p := n]> fs)) -> maintains R T (fs_write p n).
Proof. intros Hw fs. split; [apply Hw|done]. Qed.

Lemma maintains_bind {A B} (m : Py V A) (f : A -> Py V B) :
  maintains R T m -> (forall a, maintains R T (f a)) -> maintains R T (m ≫= f).
Proof.
  intros Hm Hf fs. specialize (Hm fs). unfold mbind, Py_bind.
  destruct (m fs) as [[t1 fs1] [x|a]]; [done|].
  specialize (Hf a fs1). destruct (f a fs1) as [[t2 fs2] r].
  simpl in *. destruct Hm, Hf. split; [by etrans|by apply T_app].
Qed.

Lemma maintains_ret_bind {A B} (a : A) (f : A -> Py V B) :
  maintains R T (f a) -> maintains R T (mret a ≫= f).
Proof. intros Hf fs. rewrite run_mret. apply Hf. Qed.

Lemma maintains_except {A} (m h : Py V A) :
  maintains R T m -> maintains R T h -> maintains R T (except_ImportError m h).
Proof.
  intros Hm Hh fs. specialize (Hm fs). unfold except_ImportError.
  destruct (m fs) as [[t1 fs1] [x|a]]; [|done].
  destruct x; try done.
  specialize (Hh fs1). destruct (h fs1) as [[t2 fs2] r].
  simpl in *. destruct Hm, Hh. split; [by etrans|by apply T_app].
Qed.

Lemma maintains_for_each {A} (l : list A) (body : A -> Py V unit) :
  (forall x, maintains R T (body x)) -> maintains R T (for_each l body).
Proof.
  intros Hbody. induction l as [|x l IH]; simpl.
  - apply maintains_ret.
  - apply maintains_bind; [apply Hbody|done].
Qed.

(** A file is saved and the figure released. *)
Lemma maintains_save_close fname (img : ndarray V) cmap vmax :
  (forall fs n, R fs (<[fname := n]> fs)) ->
  T [PltImsave fname img cmap vmax; PltClose] ->
  maintains R T (plt_imsave fname img cmap vmax;; plt_close).
Proof. intros Hw Ht fs. split; [apply Hw|done]. Qed.

End Maintains.

(** Goes through a computation; [known] closes the parts already dealt
    with and [side] proves the conditions on the empty trace, on
    concatenation, on single calls and on single writes. *)
Ltac maintain_with known side :=
  repeat first
    [ known
    | apply maintains_ret; side
    | apply maintains_lift; side
    | apply maintains_lookup; side
    | apply maintains_save_close; side
    | apply maintains_emit; side
    | apply maintains_write; side
    | apply maintains_except; [side.. | | ]
    | apply maintains_for_each; [side.. | intros ?]
    | apply maintains_bind; [side.. | | intros ?]
    | progress lazy beta iota
    | match goal with
      | |- maintains _ _ (when ?b _) => destruct b; simpl
      | |- maintains _ _ (if ?b then _ else _) => destruct b
      | |- maintains _ _ (match ?x with _ => _ end) => destruct x
      end ].

Ltac maintain side := maintain_with fail side.

Section Discipline.
Context {V : Type} {engine : ReEngine} {fl : FlowScalar V} {cv : Cv2Import V}.

Lemma display_trace_app (t1 t2 : list (event V)) :
  display_trace t1 -> display_trace t2 -> display_trace (t1 ++ t2).
Proof. apply Forall_app_2. Qed.

Lemma closed_after_save_app (t1 t2 : list (event V)) :
  closed_after_save t1 = true -> closed_after_save t2 = true ->
  closed_after_save (t1 ++ t2) = true.
Proof.
  remember (length t1) as n eqn:Hn. revert t1 Hn.
  induction n as [n IH] using lt_wf_ind. intros t1 -> H1 H2.
  destruct t1 as [|e t1]; [done|].
  destruct e; simpl in *; try (apply (IH (length t1)); [lia|done..]).
  destruct t1 as [|e' t1]; [done|].
  destruct e'; try done. simpl in *. apply (IH (length t1)); [lia|done..].
Qed.

Lemma save_trace_app (t1 t2 : list (event V)) :
  save_trace t1 -> save_trace t2 -> save_trace (t1 ++ t2).
Proof.
  intros [Hc1 Hd1] [Hc2 Hd2]. split.
  - by apply closed_after_save_app.
  - by apply Forall_app_2.
Qed.

#[local] Instance never_deleted_preorder : PreOrder (never_deleted (V:=V)).
Proof.
  split.
  - by intros fs p.
  - intros fs1 fs2 fs3 H12 H23 p Hp. by apply H23, H12.
Qed.

Lemma never_deleted_insert (fs : gmap string (node V)) p n :
  never_deleted fs (<[p := n]> fs).
Proof.
  intros q Hq. destruct (decide (p = q)) as [->|Hne].
  - rewrite lookup_insert_eq. eauto.
  - by rewrite lookup_insert_ne.
Qed.

(** The conditions of a run that displays, and of a run that saves. *)
Ltac display_side :=
  solve [ apply display_trace_app | repeat constructor | apply _ ].

Ltac save_side :=
  solve [ apply save_trace_app
        | apply never_deleted_insert
        | intros; apply never_deleted_insert
        | repeat constructor
        | apply _ ].

Lemma vis_data_displays key (data : ndarray V) full label rgb flow segmap segcol
    depth depth_max :
  maintains eq display_trace
    (vis_data key data full label rgb flow segmap segcol depth depth_max None).
Proof.
  unfold vis_data, vis_segmap_channel, print, plt_figure, plt_title, plt_imshow,
    plt_colorbar.
  maintain display_side.
Qed.

Lemma vis_data_saves key (data : ndarray V) full label rgb flow segmap segcol
    depth depth_max f :
  maintains never_deleted save_trace
    (vis_data key data full label rgb flow segmap segcol depth depth_max (Some f)).
Proof.
  unfold vis_data, vis_segmap_channel, print, plt_figure, plt_title.
  maintain save_side.
Qed.

Lemma vis_stereo_displays key (data : h5file V) path rgb flow segmap segcol depth
    depth_max items :
  maintains eq display_trace
    (vis_stereo key data path rgb flow segmap segcol depth depth_max items None).
Proof.
  induction items as [|[i img] items IH]; simpl.
  - apply maintains_ret; display_side.
  - apply maintains_ret_bind.
    apply maintains_bind; [display_side.. | | ].
    + apply vis_data_displays.
    + intros _. apply IH.
Qed.

Lemma vis_stereo_saves key (data : h5file V) path rgb flow segmap segcol depth
    depth_max items f :
  maintains never_deleted save_trace
    (vis_stereo key data path rgb flow segmap segcol depth depth_max items (Some f)).
Proof.
  revert f. induction items as [|[i img] items IH]; intros f; simpl.
  - apply maintains_ret; save_side.
  - assert (forall g, maintains never_deleted save_trace
              (vis_data key img (Some data)
                 (os_path.basename path +:+ (if i =? 0 then " (left)" else " (right)"))
                 rgb flow segmap segcol depth depth_max (Some g);;
               vis_stereo key data path rgb flow segmap segcol depth depth_max
                 items (Some g))) as Hround.
    { intros g. apply maintains_bind; [save_side.. | | ].
      - apply vis_data_saves.
      - intros _. apply IH. }
    destruct (bool_decide (f = "")).
    + by apply maintains_ret_bind.
    + intros fs. destruct (stereo_file_name f i) as [e|g] eqn:Hg.
      * unfold mbind at 1, Py_bind. unfold mbind at 1, Py_bind, lift. simpl.
        split; [done|]. save_side.
      * rewrite run_bind_assoc, run_lift_ok, run_mret. apply Hround.
Qed.

(** X13. Without a directory to save to, [vis_file] leaves the file system
    exactly as it found it and calls neither [plt.imsave] nor [plt.close],
    whatever the path, the container and the pattern lists, and whether it
    returns or raises. *)
Theorem vis_file_display_only path kv rgb flow segmap segcol depth
    (depth_max : V) fs :
  (vis_file path kv rgb flow segmap segcol depth depth_max None fs).1.2 = fs /\
  display_trace (vis_file path kv rgb flow segmap segcol depth depth_max None fs).1.1.
Proof.
  assert (maintains eq display_trace
            (vis_file path kv rgb flow segmap segcol depth depth_max None)) as Hm.
  { unfold vis_file, vis_key, os_path_exists, os_path_isfile, h5py_File, print.
    maintain_with
      ltac:(first [apply vis_stereo_displays|apply vis_data_displays])
      display_side. }
  destruct (Hm fs) as [<- Ht]. done.
Qed.

(** X14. With a directory to save to, [vis_file] never displays anything,
    follows every [plt.imsave] immediately by [plt.close], and deletes no
    file: every path that existed before the call exists after it, whether
    the call returns or raises. *)
Theorem vis_file_save_only path kv rgb flow segmap segcol depth
    (depth_max : V) dir fs :
  save_trace
    (vis_file path kv rgb flow segmap segcol depth depth_max (Some dir) fs).1.1 /\
  never_deleted fs
    (vis_file path kv rgb flow segmap segcol depth depth_max (Some dir) fs).1.2.
Proof.
  assert (maintains never_deleted save_trace
            (vis_file path kv rgb flow segmap segcol depth depth_max (Some dir)))
    as Hm.
  { unfold vis_file, vis_key, os_path_exists, os_path_isfile, os_makedirs,
      h5py_File, print.
    maintain_with
      ltac:(first [apply vis_stereo_saves|apply vis_data_saves])
      save_side. }
  destruct (Hm fs) as [Hfs Ht]. done.
Qed.

End Discipline.

(** ** Visualizing a file: paths, selection of keys, stereo pairs *)

Section ViewerFacts.
Context {V : Type} {engine : ReEngine} {fl : FlowScalar V} {cv : Cv2Import V}.

Lemma with_save_dir_lookup (fs : gmap string (node V)) save path :
  save <> Some path -> with_save_dir fs save !! path = fs !! path.
Proof.
  intros Hne. unfold with_save_dir. destruct save as [dir|]; [|done].
  destruct (bool_decide (is_Some (fs !! dir))); [done|].
  apply lookup_insert_ne. congruence.
Qed.

Lemma run_silent {A B} (m : Py V A) (f : A -> Py V B) fs fs' a :
  m fs = ([], fs', ok a) -> (m ≫= f) fs = f a fs'.
Proof.
  intros Hm. unfold mbind, Py_bind. rewrite Hm. unfold ok.
  by destruct (f a fs') as [[??]?].
Qed.

Lemma run_exists {B} p (f : bool -> Py V B) fs :
  (os_path_exists p ≫= f) fs = f (bool_decide (is_Some (fs !! p))) fs.
Proof. by apply run_silent. Qed.

Lemma run_isfile {B} p (f : bool -> Py V B) fs :
  (os_path_isfile p ≫= f) fs
  = f (match fs !! p with Some Directory | None => false | Some _ => true end) fs.
Proof. by apply run_silent. Qed.

Lemma vis_file_prepare path kv rgb flow segmap segcol depth (depth_max : V)
    save fs :
  vis_file path kv rgb flow segmap segcol depth depth_max save fs =
  (e ← os_path_exists path;
   if e : bool then
     f ← os_path_isfile path;
     if f : bool then
       data ← h5py_File path;
       print (path +:+ ": ");;
       keys ← lift (match kv with
                    | Some kv => select_keys data.*1 kv
                    | None => ok data.*1
                    end);
       res ← lift (key_summaries data keys);
       when (negb (bool_decide (res = [])))
         (print ("Keys: " +:+ str_join ", " res));;
       for_each keys
         (vis_key data path rgb flow segmap segcol depth depth_max save)
     else print "The path is not a file"
   else print ("The file does not exist: " +:+ path)) (with_save_dir fs save).
Proof.
  unfold vis_file. refine (run_silent _ (fun _ => _) _ _ tt _).
  unfold with_save_dir. destruct save as [dir|]; [|done].
  unfold os_path_exists, os_makedirs, fs_lookup, fs_write, lift, when.
  unfold mbind, mret, Py_bind, Py_ret, ok. cbn [app].
  destruct (fs !! dir) as [n|] eqn:Hdir.
  - repeat case_bool_decide; try done;
      match goal with Hs : ~ is_Some (Some _) |- _ => destruct Hs; eauto end.
  - repeat case_bool_decide;
      try match goal with Hs : is_Some None |- _ => by destruct Hs end.
    cbn [negb]. by rewrite Hdir.
Qed.

(** X15. A path that is not a container. Once the directory to save to was
    created if it was missing, a path that does not exist is reported and the
    call returns; so is a path that is a directory; a file that is not an
    HDF5 container makes [h5py.File] raise. In the three cases nothing is
    rendered. *)
Theorem vis_file_not_a_container path kv rgb flow segmap segcol depth
    (depth_max : V) save fs :
  save <> Some path ->
  (fs !! path = None ->
   vis_file path kv rgb flow segmap segcol depth depth_max save fs
   = ([Print ("The file does not exist: " +:+ path)], with_save_dir fs save, ok tt)) /\
  (fs !! path = Some Directory ->
   vis_file path kv rgb flow segmap segcol depth depth_max save fs
   = ([Print "The path is not a file"], with_save_dir fs save, ok tt)) /\
  (fs !! path = Some OtherFile \/ (exists s, fs !! path = Some (Png s)) ->
   vis_file path kv rgb flow segmap segcol depth depth_max save fs
   = ([], with_save_dir fs save, raise OSError)).
Proof.
  intros Hne. rewrite vis_file_prepare.
  pose proof (with_save_dir_lookup fs save path Hne) as Hl.
  rewrite run_exists, Hl. split; [|split].
  - intros Hp. rewrite Hp. by case_bool_decide as Hs; [destruct Hs|].
  - intros Hp. rewrite Hp. case_bool_decide as Hs; [|destruct Hs; eauto].
    by rewrite run_isfile, Hl, Hp.
  - intros Hp.
    assert (is_Some (fs !! path)) as Hs by (destruct Hp as [->|[s ->]]; eauto).
    rewrite bool_decide_eq_true_2, run_isfile, Hl by done.
    assert (match fs !! path with
            | Some Directory | None => false | Some _ => true end = true) as ->
      by (by destruct Hp as [->|[s ->]]).
    unfold h5py_File, fs_lookup, lift, mbind, mret, Py_bind, Py_ret, ok.
    cbn [app]. rewrite Hl. by destruct Hp as [->|[s ->]].
Qed.

(** X16. The keys that are visualized when patterns are given: when the
    patterns compile, exactly the keys of the container that fully match one
    of them, in the order of the container. *)
Theorem select_keys_filter (keys kv : list string) :
  (forall k, k ∈ keys -> patterns_compile k kv) ->
  select_keys keys kv = ok (filter (selected kv) keys).
Proof.
  induction keys as [|k keys IH]; intros Hc; [done|].
  cbn [select_keys].
  destruct (key_matches_compile k kv) as [b Hb]; [apply Hc; left|].
  rewrite Hb, bind_ok, IH, bind_ok by (intros; apply Hc; by right).
  cbn [truthy]. destruct b.
  - by rewrite filter_cons_True.
  - rewrite filter_cons_False; [done|]. unfold selected. by rewrite Hb.
Qed.

Lemma str_app_nonempty (a b : string) : b <> "" -> a +:+ b <> "".
Proof. intros Hb Hab. by apply RegexFacts.app_eq_nil in Hab as [_ ?]. Qed.

Lemma stereo_file_name_nonempty s i n : stereo_file_name s i = ok n -> n <> "".
Proof.
  unfold stereo_file_name.
  destruct (pathlib.with_suffix (pathlib.Path s) "") as [e|stem]; [done|].
  rewrite bind_ok. intros [= <-]. apply str_app_nonempty.
  destruct (i =? 0); done.
Qed.

Lemma key_file_name_nonempty dir path key : key_file_name dir path key <> "".
Proof.
  unfold key_file_name, os_path.join.
  set (folder := os_path.basename (os_path.dirname path)).
  set (base := (os_path.splitext (os_path.basename path)).1).
  assert (folder +:+ "_" +:+ base +:+ "_" +:+ key +:+ ".png" <> "") as Hname.
  { by apply str_app_nonempty. }
  destruct (startswith _ _); [done|].
  destruct (_ || _); [by apply str_app_nonempty|].
  by do 2 apply str_app_nonempty.
Qed.

Lemma run_bind_unit (m : Py V unit) fs : (m;; mret tt) fs = m fs.
Proof.
  unfold mbind, mret, Py_bind, Py_ret.
  destruct (m fs) as [[t fs'] [e|[]]]; [done|]. by rewrite app_nil_r.
Qed.

Lemma run_bind_ext {A B} (m : Py V A) (f g : A -> Py V B) fs :
  (forall a fs', f a fs' = g a fs') -> (m ≫= f) fs = (m ≫= g) fs.
Proof.
  intros Hfg. unfold mbind, Py_bind.
  destruct (m fs) as [[t fs1] [e|a]]; [done|]. by rewrite Hfg.
Qed.

(** X17. An array of three axes or more whose first axis has length two is
    rendered as a stereo pair, whatever it holds: [vis_data] is called on
    its first half with the label of the left eye, then on its second half
    with the label of the right eye. When saving, the first half goes to the
    file named for the left eye and the second to the file named, for the
    right eye, after the file of the left eye. *)
Theorem vis_key_stereo (data : h5file V) path rgb flow segmap segcol depth
    (depth_max : V) key d a b rest fs :
  h5_get data key = ok d ->
  shape (ds_value d) = 2 :: a :: b :: rest ->
  vis_key data path rgb flow segmap segcol depth depth_max None key fs
  = (vis_data key (sub_array (ds_value d) 0) (Some data)
       (os_path.basename path +:+ " (left)")
       rgb flow segmap segcol depth depth_max None;;
     vis_data key (sub_array (ds_value d) 1) (Some data)
       (os_path.basename path +:+ " (right)")
       rgb flow segmap segcol depth depth_max None) fs /\
  forall dir left_name right_name,
    stereo_file_name (key_file_name dir path key) 0 = ok left_name ->
    stereo_file_name left_name 1 = ok right_name ->
    vis_key data path rgb flow segmap segcol depth depth_max (Some dir) key fs
    = (vis_data key (sub_array (ds_value d) 0) (Some data)
         (os_path.basename path +:+ " (left)")
         rgb flow segmap segcol depth depth_max (Some left_name);;
       vis_data key (sub_array (ds_value d) 1) (Some data)
         (os_path.basename path +:+ " (right)")
         rgb flow segmap segcol depth depth_max (Some right_name)) fs.
Proof.
  intros Hget Hsh.
  assert (forall save,
    vis_key data path rgb flow segmap segcol depth depth_max save key fs =
    vis_stereo key data path rgb flow segmap segcol depth depth_max
      [(0, sub_array (ds_value d) 0); (1, sub_array (ds_value d) 1)]
      ((fun dir => key_file_name dir path key) <$> save) fs) as Hkey.
  { intros save. unfold vis_key. rewrite Hget, run_lift_ok.
    unfold ndim, iter_first. rewrite Hsh. cbn [length Nat.leb andb lookup].
    rewrite bool_decide_eq_true_2 by done. by rewrite run_lift_ok. }
  split.
  - rewrite Hkey. cbn [fmap option_fmap option_map vis_stereo Nat.eqb].
    rewrite run_mret. apply run_bind_ext. intros [] fs1.
    by rewrite run_mret, run_bind_unit.
  - intros dir left_name right_name Hleft Hright. rewrite Hkey.
    cbn [fmap option_fmap option_map vis_stereo Nat.eqb].
    rewrite (bool_decide_eq_false_2 _ (key_file_name_nonempty dir path key)).
    rewrite Hleft, run_bind_assoc, run_lift_ok, run_mret.
    apply run_bind_ext. intros [] fs1.
    rewrite (bool_decide_eq_false_2 _ (stereo_file_name_nonempty _ _ _ Hleft)).
    by rewrite Hright, run_bind_assoc, run_lift_ok, run_mret, run_bind_unit.
Qed.

End ViewerFacts.

Lemma flow_to_rgb_errors_witness :
  flow_to_rgb (fl:=Integer.flow) (cv:=None) (full [2; 2] 0%Z)
  = raise (ImportError "No module named 'cv2'") /\
  flow_to_rgb (fl:=Integer.flow) (cv:=Some Integer.cv2) (full [2; 2] 0%Z)
  = raise IndexError /\
  flow_to_rgb (fl:=Integer.flow) (cv:=Some Integer.cv2) (full [2; 2; 1] 0%Z)
  = raise IndexError.
Proof.
  split; [|split].
  - apply (flow_to_rgb_errors (fl:=Integer.flow) (full [2; 2] 0%Z)).
  - apply (proj1 (proj2 (flow_to_rgb_errors (fl:=Integer.flow) (full [2; 2] 0%Z)))).
    simpl. lia.
  - apply (proj2 (proj2 (flow_to_rgb_errors (fl:=Integer.flow) (full [2; 2; 1] 0%Z)))
             Integer.cv2 2 2 1 []); [reflexivity | lia].
Defined.

Lemma vis_file_not_a_container_witness :
  vis_file (engine:=py_engine) (fl:=Integer.flow) (cv:=Integer.with_cv2)
    "data/scene/1.hdf5" None None None None None None 5%Z (Some "runs/out")
    Integer.sample_fs
  = ([Print "The file does not exist: data/scene/1.hdf5"],
     <["runs/out" := Directory]> Integer.sample_fs, ok tt).
Proof.
  apply (proj1 (vis_file_not_a_container (engine:=py_engine) (fl:=Integer.flow)
                  (cv:=Integer.with_cv2) "data/scene/1.hdf5" None None None None
                  None None 5%Z (Some "runs/out") Integer.sample_fs
                  ltac:(discriminate))).
  reflexivity.
Defined.

Lemma select_keys_filter_witness :
  select_keys (engine:=py_engine) ["colors"; "depth"; "normals"] ["colors"; ".*mal."]
  = ok (filter (selected (engine:=py_engine) ["colors"; ".*mal."])
          ["colors"; "depth"; "normals"]).
Proof.
  apply (select_keys_filter (engine:=py_engine)).
  intros k Hk. apply patterns_compile_check.
  apply list_elem_of_In in Hk. simpl in Hk.
  destruct Hk as [<-|[<-|[<-|[]]]]; reflexivity.
Defined.

Lemma vis_key_stereo_witness :
  vis_key (engine:=py_engine) (fl:=Integer.flow) (cv:=Integer.with_cv2)
    Integer.stereo_file "data/scene/0.hdf5" None None None None None 5%Z None
    "colors" ∅
  = (vis_data (engine:=py_engine) (fl:=Integer.flow) (cv:=Integer.with_cv2)
       "colors" (sub_array (full [2; 1; 1; 3] 9%Z) 0) (Some Integer.stereo_file)
       "0.hdf5 (left)" None None None None None 5%Z None;;
     vis_data (engine:=py_engine) (fl:=Integer.flow) (cv:=Integer.with_cv2)
       "colors" (sub_array (full [2; 1; 1; 3] 9%Z) 1) (Some Integer.stereo_file)
       "0.hdf5 (right)" None None None None None 5%Z None) ∅.
Proof.
  apply (proj1 (vis_key_stereo (engine:=py_engine) (fl:=Integer.flow)
                  (cv:=Integer.with_cv2) Integer.stereo_file "data/scene/0.hdf5"
                  None None None None None 5%Z "colors"
                  (Integer.plain_dataset (full [2; 1; 1; 3] 9%Z)) 1 1 [3] ∅
                  eq_refl eq_refl)).
Defined.

(** ** The command line: sampling, and reading the rendered files back *)

Section CommandLineRuns.
Context {V : Type} {engine : ReEngine} {fl : FlowScalar V} {cv : Cv2Import V}.
Context {px : PixelScalar V} {pil : Pil V}.
Context {glob : Glob} {rnd : RandomChoice} {png : PngDecode V}.

(** X18. When the input directory holds at least [count] files and [count]
    is not negative, [random.sample] is called once, on all the files found,
    and the files it returns are the ones visualized: the paths given as
    [--hdf5_paths] are not used. *)
Theorem cli_samples_directory (args : cli_args V) (dir : string) fs :
  input_dir args = Some dir ->
  (0 <= count args
   <= Z.of_nat (length (glob_recursive
                          (os_path.join (os_path.join dir "**") "*.hdf5"))))%Z ->
  cli args fs
  = (emit (RandomSample
             (glob_recursive (os_path.join (os_path.join dir "**") "*.hdf5"))
             (count args));;
     for_each
       (random_choice
          (glob_recursive (os_path.join (os_path.join dir "**") "*.hdf5"))
          (Z.to_nat (count args)))
       (visualize_path args)) fs.
Proof.
  intros Hdir [Hlo Hhi]. unfold cli. rewrite Hdir.
  rewrite (proj2 (Z.ltb_ge _ _) Hhi). unfold random_sample.
  rewrite (proj2 (Z.leb_le _ _) Hlo), (proj2 (Z.leb_le _ _) Hhi). cbn [andb].
  rewrite !run_bind_assoc, !run_emit.
  by rewrite !run_mret.
Qed.

(** X19. A negative [count] with an input directory: the test on the number
    of files lets it through, [random.sample] is called and raises
    [ValueError]; no file is opened and nothing is written. *)
Theorem cli_negative_count (args : cli_args V) (dir : string) fs :
  input_dir args = Some dir ->
  (count args < 0)%Z ->
  cli args fs
  = ([RandomSample
        (glob_recursive (os_path.join (os_path.join dir "**") "*.hdf5"))
        (count args)], fs, raise ValueError).
Proof.
  intros Hdir Hneg. unfold cli. rewrite Hdir.
  rewrite (proj2 (Z.ltb_ge _ _)) by lia. unfold random_sample.
  rewrite (proj2 (Z.leb_gt _ _) Hneg). cbn [andb].
  by rewrite !run_bind_assoc, !run_emit.
Qed.

(** X20. Too few files in the input directory and no [--hdf5_paths] (its
    default): after the message, the loop over [args.hdf5_paths] iterates
    over [None] and the run ends with [TypeError]. *)
Theorem cli_not_enough_files_no_paths (args : cli_args V) (dir : string) fs :
  input_dir args = Some dir ->
  (Z.of_nat (length (glob_recursive
                       (os_path.join (os_path.join dir "**") "*.hdf5")))
   < count args)%Z ->
  hdf5_paths args = None ->
  cli args fs
  = ([Print (not_enough_message
               (length (glob_recursive
                          (os_path.join (os_path.join dir "**") "*.hdf5")))
               (count args))], fs, raise TypeError).
Proof.
  intros Hdir Hfew Hps. unfold cli. rewrite Hdir, Hps.
  by rewrite (proj2 (Z.ltb_lt _ _) Hfew).
Qed.

Lemma read_rendered_cons dir folder base k ks (images : list (ndarray V)) :
  read_rendered dir folder base (k :: ks) images
  = (img ← plt_imread (rendered_file dir folder base k);
     os_remove (rendered_file dir folder base k);;
     read_rendered dir folder base ks (images ++ [img])).
Proof. reflexivity. Qed.

Lemma run_read_one dir folder base k ks (images : list (ndarray V)) fs s :
  fs !! rendered_file dir folder base k = Some (Png s) ->
  read_rendered dir folder base (k :: ks) images fs
  = read_rendered dir folder base ks (images ++ [png_decode s])
      (delete (rendered_file dir folder base k) fs).
Proof.
  intros Hs. rewrite read_rendered_cons.
  rewrite (run_silent (plt_imread _) _ fs fs (png_decode s)).
  - refine (run_silent (os_remove _) (fun _ => _) fs (delete _ fs) tt _).
    unfold os_remove, fs_lookup, fs_delete.
    unfold mbind, Py_bind, ok. by rewrite Hs.
  - unfold plt_imread, fs_lookup, mbind, mret, Py_bind, Py_ret, ok.
    by rewrite Hs.
Qed.

Lemma run_read_missing dir folder base k ks (images : list (ndarray V)) fs :
  fs !! rendered_file dir folder base k = None ->
  read_rendered dir folder base (k :: ks) images fs
  = ([], fs, raise FileNotFoundError).
Proof.
  intros Hs. rewrite read_rendered_cons.
  unfold plt_imread, fs_lookup, lift, mbind, Py_bind, ok. by rewrite Hs.
Qed.

Lemma rendered_after_delete dir folder base k0 ks (fs : gmap string (node V)) ss :
  rendered_file dir folder base k0 ∉ rendered_file dir folder base <$> ks ->
  Forall2 (fun k s => fs !! rendered_file dir folder base k = Some (Png s)) ks ss ->
  Forall2 (fun k s => delete (rendered_file dir folder base k0) fs
                        !! rendered_file dir folder base k = Some (Png s)) ks ss.
Proof.
  intros Hk Hall. induction Hall as [|k s ks ss Hs Hall IH]; constructor.
  - rewrite lookup_delete_ne; [done|]. intros Heq. apply Hk.
    rewrite fmap_cons, Heq. by left.
  - apply IH. intros Hin. apply Hk. rewrite fmap_cons. by right.
Qed.

Lemma read_rendered_prefix dir folder base ks1 ks2 (images : list (ndarray V))
    fs ss :
  NoDup (rendered_file dir folder base <$> ks1) ->
  Forall2 (fun k s => fs !! rendered_file dir folder base k = Some (Png s)) ks1 ss ->
  exists fs',
    read_rendered dir folder base (ks1 ++ ks2) images fs
    = read_rendered dir folder base ks2 (images ++ (png_decode <$> ss)) fs' /\
    forall p, fs' !! p
              = if bool_decide (p ∈ rendered_file dir folder base <$> ks1)
                then None else fs !! p.
Proof.
  revert ss images fs. induction ks1 as [|k ks1 IH]; intros ss images fs Hnd Hall.
  - apply Forall2_nil_inv_l in Hall as ->. exists fs. cbn [app fmap list_fmap].
    by rewrite app_nil_r.
  - apply Forall2_cons_inv_l in Hall as (s & ss' & Hs & Hall & ->).
    rewrite fmap_cons in Hnd. apply NoDup_cons in Hnd as [Hk Hnd].
    destruct (IH ss' (images ++ [png_decode s])
                (delete (rendered_file dir folder base k) fs) Hnd
                (rendered_after_delete _ _ _ _ _ _ _ Hk Hall))
      as (fs' & Hrun & Hfs').
    exists fs'. split.
    + rewrite <- app_comm_cons, (run_read_one _ _ _ _ _ _ _ s Hs), Hrun.
      by rewrite fmap_cons, <- app_assoc.
    + intros p. rewrite Hfs', fmap_cons.
      destruct (decide (p = rendered_file dir folder base k)) as [->|Hne].
      * rewrite lookup_delete_eq, (bool_decide_eq_true_2 (_ ∈ _ :: _)) by (by left).
        by case_bool_decide.
      * rewrite lookup_delete_ne by done.
        repeat case_bool_decide; try done; exfalso;
          match goal with
          | Hin : _ ∈ _ :: _ |- _ => by apply elem_of_cons in Hin as [?|?]
          | Hout : _ ∉ _ :: _ |- _ => apply Hout; by right
          end.
Qed.

(** X21. Reading the rendered files back. When the files of the keys are
    distinct and each holds an image written by [plt.imsave], the images are
    returned decoded, in the order of the keys and after the images already
    collected; exactly these files are removed, every other path is left as
    it was, and nothing is displayed or printed. *)
Theorem read_rendered_reads_and_deletes dir folder base ks
    (images : list (ndarray V)) fs ss :
  NoDup (rendered_file dir folder base <$> ks) ->
  Forall2 (fun k s => fs !! rendered_file dir folder base k = Some (Png s)) ks ss ->
  exists fs',
    read_rendered dir folder base ks images fs
    = ([], fs', ok (images ++ (png_decode <$> ss))) /\
    forall p, fs' !! p
              = if bool_decide (p ∈ rendered_file dir folder base <$> ks)
                then None else fs !! p.
Proof.
  intros Hnd Hall.
  destruct (read_rendered_prefix dir folder base ks [] images fs ss Hnd Hall)
    as (fs' & Hrun & Hfs').
  exists fs'. split; [|done]. by rewrite app_nil_r in Hrun.
Qed.

(** X22. The first key whose file is missing ends the loop with
    [FileNotFoundError]: the files of the keys before it were read and stay
    removed, the keys after it are not looked at. *)
Theorem read_rendered_stops_at_missing dir folder base ks1 k ks2
    (images : list (ndarray V)) fs ss :
  NoDup (rendered_file dir folder base <$> ks1) ->
  Forall2 (fun k s => fs !! rendered_file dir folder base k = Some (Png s)) ks1 ss ->
  fs !! rendered_file dir folder base k = None ->
  exists fs',
    read_rendered dir folder base (ks1 ++ k :: ks2) images fs
    = ([], fs', raise FileNotFoundError) /\
    forall p, fs' !! p
              = if bool_decide (p ∈ rendered_file dir folder base <$> ks1)
                then None else fs !! p.
Proof.
  intros Hnd Hall Hk.
  destruct (read_rendered_prefix dir folder base ks1 (k :: ks2) images fs ss
              Hnd Hall) as (fs' & Hrun & Hfs').
  exists fs'. split; [|done]. rewrite Hrun. apply run_read_missing.
  rewrite Hfs'. by case_bool_decide.
Qed.

Lemma run_bind_ok {A B} (m : Py V A) (f : A -> Py V B) fs t fs' a :
  m fs = (t, fs', ok a) ->
  (m ≫= f) fs = match f a fs' with (t2, fs2, r) => (t ++ t2, fs2, r) end.
Proof. intros Hm. unfold mbind, Py_bind. by rewrite Hm. Qed.

Lemma run_bind_raise {A B} (m : Py V A) (f : A -> Py V B) fs t fs' e :
  m fs = (t, fs', raise e) -> (m ≫= f) fs = (t, fs', raise e).
Proof. intros Hm. unfold mbind, Py_bind. by rewrite Hm. Qed.

(** X23. A path of the command line that does not exist ends the run. The
    message of [vis_file] is printed; then, unless a file of that name was
    left in the directory of the results, reading the rendered image of the
    key colors raises [FileNotFoundError], and the paths that follow are not
    visited. *)
Theorem visualize_all_missing_file (args : cli_args V) path rest fs :
  fs !! path = None ->
  save args <> path ->
  fs !! rendered_file (save args) (os_path.basename (os_path.dirname path))
          (os_path.splitext (os_path.basename path)).1 "colors" = None ->
  save args <> rendered_file (save args) (os_path.basename (os_path.dirname path))
                 (os_path.splitext (os_path.basename path)).1 "colors" ->
  visualize_all args (Some (path :: rest)) fs
  = ([Print ("The file does not exist: " +:+ path)],
     with_save_dir fs (Some (save args)), raise FileNotFoundError).
Proof.
  intros Hp Hsave Hc Hsavec. unfold visualize_all. cbn [for_each].
  apply run_bind_raise. unfold visualize_path.
  erewrite run_bind_ok; cycle 1.
  { rewrite vis_file_prepare, run_exists, with_save_dir_lookup, Hp by congruence.
    by case_bool_decide as Hs; [destruct Hs|]. }
  erewrite run_bind_raise; [done|].
  apply run_read_missing. rewrite with_save_dir_lookup by congruence. done.
Qed.

End CommandLineRuns.

Lemma cli_samples_directory_witness :
  cli (engine:=py_engine) (fl:=Integer.flow) (cv:=Integer.with_cv2)
    (px:=Integer.pixel) (pil:=Integer.nearest) (glob:=Integer.one_file_glob)
    (rnd:=Integer.first_k) (png:=Integer.grey_png)
    (Integer.count_args 1 (Some ["elsewhere/1.hdf5"])) Integer.sample_fs
  = (emit (RandomSample ["data/scene/0.hdf5"] 1);;
     for_each ["data/scene/0.hdf5"]
       (visualize_path (engine:=py_engine) (fl:=Integer.flow) (cv:=Integer.with_cv2)
          (px:=Integer.pixel) (pil:=Integer.nearest) (png:=Integer.grey_png)
          (Integer.count_args 1 (Some ["elsewhere/1.hdf5"])))) Integer.sample_fs.
Proof.
  apply (cli_samples_directory (engine:=py_engine) (fl:=Integer.flow)
           (cv:=Integer.with_cv2) (px:=Integer.pixel) (pil:=Integer.nearest)
           (glob:=Integer.one_file_glob) (rnd:=Integer.first_k)
           (png:=Integer.grey_png)
           (Integer.count_args 1 (Some ["elsewhere/1.hdf5"]))
           "data/blenderproc/hf-objaverse-v3" Integer.sample_fs).
  - reflexivity.
  - simpl. lia.
Defined.

Lemma cli_negative_count_witness :
  cli (engine:=py_engine) (fl:=Integer.flow) (cv:=Integer.with_cv2)
    (px:=Integer.pixel) (pil:=Integer.nearest) (glob:=Integer.one_file_glob)
    (rnd:=Integer.first_k) (png:=Integer.grey_png)
    (Integer.count_args (-1) None) Integer.sample_fs
  = ([RandomSample ["data/scene/0.hdf5"] (-1)], Integer.sample_fs, raise ValueError).
Proof.
  apply (cli_negative_count (engine:=py_engine) (fl:=Integer.flow)
           (cv:=Integer.with_cv2) (px:=Integer.pixel) (pil:=Integer.nearest)
           (glob:=Integer.one_file_glob) (rnd:=Integer.first_k)
           (png:=Integer.grey_png) (Integer.count_args (-1) None)
           "data/blenderproc/hf-objaverse-v3" Integer.sample_fs).
  - reflexivity.
  - simpl. lia.
Defined.

Lemma cli_not_enough_files_no_paths_witness :
  Integer.run_cli None
  = ([Print "Error: Not enough HDF5 files in the directory. Found 0, need 25."],
     Integer.sample_fs, raise TypeError).
Proof.
  apply (cli_not_enough_files_no_paths (engine:=py_engine) (fl:=Integer.flow)
           (cv:=Integer.with_cv2) (px:=Integer.pixel) (pil:=Integer.nearest)
           (glob:=Integer.empty_glob) (rnd:=Integer.first_k)
           (png:=Integer.grey_png) (Integer.sample_args None)
           "data/blenderproc/hf-objaverse-v3" Integer.sample_fs).
  - reflexivity.
  - simpl. lia.
  - reflexivity.
Defined.

Lemma read_rendered_reads_and_deletes_witness :
  exists fs',
    read_rendered (png:=Integer.grey_png) "runs/out" "scene" "0"
      ["colors"; "depth"] [] Integer.rendered_fs
    = ([], fs',
       ok ([] ++ (Integer.grey_png <$>
                    [Saved (Integer.ramp_image 3 3 3 2) None None;
                     Saved (Integer.flat_image 3 3 3 9) None None]))) /\
    forall p, fs' !! p
              = if bool_decide (p ∈ rendered_file "runs/out" "scene" "0"
                                      <$> ["colors"; "depth"])
                then None else Integer.rendered_fs !! p.
Proof.
  apply (read_rendered_reads_and_deletes (png:=Integer.grey_png)
           "runs/out" "scene" "0" ["colors"; "depth"] [] Integer.rendered_fs).
  - apply (bool_decide_unpack _). reflexivity.
  - repeat constructor.
Defined.

Lemma read_rendered_stops_at_missing_witness :
  exists fs',
    read_rendered (png:=Integer.grey_png) "runs/out" "scene" "0"
      (["colors"] ++ "category_id_segmaps" :: ["depth"]) [] Integer.rendered_fs
    = ([], fs', raise FileNotFoundError) /\
    forall p, fs' !! p
              = if bool_decide (p ∈ rendered_file "runs/out" "scene" "0"
                                      <$> ["colors"])
                then None else Integer.rendered_fs !! p.
Proof.
  apply (read_rendered_stops_at_missing (png:=Integer.grey_png)
           "runs/out" "scene" "0" ["colors"] "category_id_segmaps" ["depth"] []
           Integer.rendered_fs
           [Saved (Integer.ramp_image 3 3 3 2) None None]).
  - apply (bool_decide_unpack _). reflexivity.
  - repeat constructor.
  - reflexivity.
Defined.

Lemma visualize_all_missing_file_witness :
  visualize_all (engine:=py_engine) (fl:=Integer.flow) (cv:=Integer.with_cv2)
    (px:=Integer.pixel) (pil:=Integer.nearest) (png:=Integer.grey_png)
    (Integer.sample_args None)
    (Some ["data/scene/1.hdf5"; "data/scene/0.hdf5"]) Integer.sample_fs
  = ([Print "The file does not exist: data/scene/1.hdf5"],
     <["runs/out" := Directory]> Integer.sample_fs, raise FileNotFoundError).
Proof.
  apply (visualize_all_missing_file (engine:=py_engine) (fl:=Integer.flow)
           (cv:=Integer.with_cv2) (px:=Integer.pixel) (pil:=Integer.nearest)
           (png:=Integer.grey_png) (Integer.sample_args None)
           "data/scene/1.hdf5" ["data/scene/0.hdf5"] Integer.sample_fs).
  - reflexivity.
  - discriminate.
  - reflexivity.
  - discriminate.
Defined.

(** ** The grid: images that cannot be composed *)

Section GridFailures.
Context {V : Type} {px : PixelScalar V} {pil : Pil V}.

Lemma indices_zero (sh : list nat) : 0 ∈ sh -> indices sh = [].
Proof.
  induction sh as [|n sh IH]; intros Hin; [by apply elem_of_nil in Hin|].
  cbn [indices]. apply elem_of_cons in Hin as [<-|Hin]; [done|].
  rewrite (IH Hin). clear. generalize 0.
  induction n as [|n IHn]; intros start; [done|]. cbn [seq]. apply IHn.
Qed.

Lemma amax_zero (leb : V -> V -> bool) (a : ndarray V) :
  0 ∈ shape a -> amax leb a = raise ValueError.
Proof. intros Hin. unfold amax, cells. by rewrite (indices_zero _ Hin). Qed.

Lemma strip_and_scale_empty (img : ndarray V) h w c sh :
  shape img = h :: w :: c :: sh -> h = 0 \/ w = 0 ->
  strip_and_scale img = raise ValueError.
Proof.
  intros Hsh Hzero. unfold strip_and_scale, shape_at, slice_axis2_to.
  rewrite Hsh. cbn [lookup list_lookup]. rewrite bind_ok.
  destruct (c =? 4).
  - rewrite bind_ok, amax_zero; [done|].
    unfold first_channels. cbn [shape]. rewrite Hsh. cbn [take app].
    destruct Hzero as [-> | ->]; [by left|right; by left].
  - rewrite bind_ok, amax_zero; [done|]. rewrite Hsh.
    destruct Hzero as [-> | ->]; [by left|right; by left].
Qed.

(** X24. Lists that cannot be composed: no image at all, or a main image
    with fewer than three axes, raise [IndexError]; a main image without
    rows or without columns raises [ValueError], its maximum being asked
    for. In each case [create_image_grid] ends before [plt.imsave]: nothing
    is written. *)
Theorem create_image_grid_failures (images : list (ndarray V)) (cols : list nat)
    (save_file : string) fs :
  (images = [] ->
   create_image_grid images cols save_file fs = ([], fs, raise IndexError)) /\
  (forall img rest, images = img :: rest -> length (shape img) < 3 ->
   create_image_grid images cols save_file fs = ([], fs, raise IndexError)) /\
  (forall img rest h w c sh, images = img :: rest ->
   shape img = h :: w :: c :: sh -> h = 0 \/ w = 0 ->
   create_image_grid images cols save_file fs = ([], fs, raise ValueError)).
Proof.
  split; [|split].
  - by intros ->.
  - intros img rest -> Hlen. unfold create_image_grid, image_grid.
    rewrite bind_ok. unfold strip_and_scale, shape_at.
    by rewrite (lookup_ge_None_2 (shape img) 2) by lia.
  - intros img rest h w c sh -> Hsh Hzero. unfold create_image_grid, image_grid.
    by rewrite bind_ok, (strip_and_scale_empty img h w c sh Hsh Hzero).
Qed.

End GridFailures.

Section GridOverflow.
#[local] Existing Instance Integer.pixel.
Context {pil : Pil Z}.

Lemma place_thumbnails_app (grid : ndarray Z) h w i (l1 l2 : list (ndarray Z)) :
  place_thumbnails grid h w i (l1 ++ l2)
  = (grid' ← place_thumbnails grid h w i l1;
     place_thumbnails grid' h w (i + length l1) l2).
Proof.
  revert grid i. induction l1 as [|img l1 IH]; intros grid i.
  - cbn [app length place_thumbnails]. by rewrite bind_ok, Nat.add_0_r.
  - rewrite <- app_comm_cons, !place_thumbnails_cons.
    destruct (strip_and_scale img) as [e|s]; [done|]. rewrite !bind_ok.
    destruct (pil_resize s (w / 3) (h / 3)) as [e|resized]; [done|].
    rewrite !bind_ok.
    destruct (assign_slices _ _ _ _) as [e|grid1]; [done|]. rewrite !bind_ok.
    rewrite IH. cbn [length]. by rewrite Nat.add_succ_r.
Qed.

(** X25. A fourth thumbnail. For a main image of width [w] at least 6 and
    other than 8, and [PIL] resizing as assumed: once three thumbnails are
    placed, the columns left for a fourth are [w mod 3], fewer than the
    [w // 3] of the resized image, whose assignment to the grid raises
    [ValueError]; the images after it are not looked at and no file is
    written. *)
Theorem create_image_grid_fourth_thumbnail (main : ndarray Z)
    (first : list (ndarray Z)) (fourth : ndarray Z) (others : list (ndarray Z))
    (h w c : nat) (cols : list nat) (save_file : string) fs :
  0 < h -> 6 <= w -> w <> 8 ->
  shape main = [h; w; c] -> c = 3 \/ c = 4 ->
  length first = 3 ->
  Forall (fun t => shape t = [h; w; 3]) (first ++ [fourth]) ->
  pil_resizes_to_thirds pil h w ->
  create_image_grid (main :: first ++ fourth :: others) cols save_file fs
  = ([], fs, raise ValueError).
Proof.
  intros Hh Hw Hw8 Hmain Hc Hlen Hthumbs Hpil.
  apply Forall_app in Hthumbs as [Hfirst Hfourth].
  apply Forall_cons in Hfourth as [Hfourth _].
  destruct (strip_and_scale_spec main h w c ltac:(lia) ltac:(lia) Hmain Hc)
    as (m & full_image & Hfull & Hshape_full & _).
  destruct (assign_slices_box px_to_u8 (full [h + h / 3; w; 3] px_white)
              full_image (h + h / 3) w (0, Some h) (0, Some w) 0 h 0 w)
    as (grid1 & Hassign & Hshape1 & _); [done|done|..].
  { unfold clip_slice. simpl. f_equal; lia. }
  { unfold clip_slice. simpl. f_equal; lia. }
  pose proof (Nat.div_mod_eq w 3) as Hdiv.
  pose proof (Nat.mod_upper_bound w 3 ltac:(lia)) as Hmod.
  destruct (place_thumbnails_spec h w first Hh ltac:(lia) Hpil grid1 0)
    as (grid3 & Hplace & Hshape3 & _); [done|done|..].
  { rewrite Hlen. lia. }
  destruct (strip_and_scale_spec fourth h w 3 Hh ltac:(lia) Hfourth)
    as (m4 & s4 & Hs4 & Hshape_s4 & _); [by left|].
  destruct (Hpil s4 Hshape_s4) as (resized & Hres & Hshape_r & _).
  assert (image_grid (main :: first ++ fourth :: others) = raise ValueError)
    as Hgrid.
  { rewrite image_grid_cons, Hfull, bind_ok, Hshape_full.
    change (unpack2 (take 2 [h; w; 3])) with (ok (h, w)).
    rewrite bind_ok. cbn [fst snd].
    rewrite Hassign, bind_ok, place_thumbnails_app, Hplace, bind_ok.
    rewrite place_thumbnails_cons, Hs4, bind_ok, Hres, bind_ok, Hlen.
    unfold assign_slices. rewrite Hshape3, Hshape_r.
    remember (w / 3) as w3 eqn:Ew3. remember (h / 3) as h3 eqn:Eh3.
    cbn [length Nat.ltb Nat.leb region_of clip_slice fst snd default
         fmap list_fmap].
    replace (id ((0 + 3 + 1) * w3) `min` w - ((0 + 3) * w3) `min` w)
      with (w mod 3) by (unfold id; lia).
    unfold reverse. cbn [rev_append bcast_ok].
    replace (w3 =? w mod 3) with false by (symmetry; apply Nat.eqb_neq; lia).
    replace (w3 =? 1) with false by (symmetry; apply Nat.eqb_neq; lia).
    by rewrite andb_false_r. }
  unfold create_image_grid. by rewrite Hgrid.
Qed.

End GridOverflow.

Lemma create_image_grid_failures_witness :
  create_image_grid (px:=Integer.pixel) (pil:=Integer.nearest)
    [] [1; 3] "final.png" ∅ = ([], ∅, raise IndexError) /\
  create_image_grid (px:=Integer.pixel) (pil:=Integer.nearest)
    [full [3; 3] 7%Z] [1; 3] "final.png" ∅ = ([], ∅, raise IndexError) /\
  create_image_grid (px:=Integer.pixel) (pil:=Integer.nearest)
    [Integer.flat_image 0 3 3 7; Integer.flat_image 3 3 3 9] [1; 3] "final.png" ∅
  = ([], ∅, raise ValueError).
Proof.
  split; [|split].
  - apply (proj1 (create_image_grid_failures (px:=Integer.pixel)
                    (pil:=Integer.nearest) [] [1; 3] "final.png" ∅)).
    reflexivity.
  - apply (proj1 (proj2 (create_image_grid_failures (px:=Integer.pixel)
                           (pil:=Integer.nearest) [full [3; 3] 7%Z] [1; 3]
                           "final.png" ∅)) (full [3; 3] 7%Z) []).
    + reflexivity.
    + simpl. lia.
  - apply (proj2 (proj2 (create_image_grid_failures (px:=Integer.pixel)
                           (pil:=Integer.nearest)
                           [Integer.flat_image 0 3 3 7; Integer.flat_image 3 3 3 9]
                           [1; 3] "final.png" ∅))
             (Integer.flat_image 0 3 3 7) [Integer.flat_image 3 3 3 9] 0 3 3 []).
    + reflexivity.
    + reflexivity.
    + by left.
Defined.

Lemma nearest_resizes_wide : pil_resizes_to_thirds Integer.nearest 3 6.
Proof.
  intros img Hsh. unfold pil_resize, Integer.nearest. rewrite Hsh. simpl.
  eexists. split; [done|]. split; [done|].
  intros idx Hidx. simpl in Hidx.
  apply Forall2_cons_inv_r in Hidx as (r & idx1 & Hr & Hidx & ->).
  apply Forall2_cons_inv_r in Hidx as (j & idx2 & Hj & Hidx & ->).
  apply Forall2_cons_inv_r in Hidx as (k & idx3 & Hk & Hidx & ->).
  apply Forall2_nil_inv_r in Hidx as ->. cbn [cell].
  match goal with
  | |- (0 <= ?x `mod` 256 <= 255)%Z => pose proof (Z.mod_pos_bound x 256); lia
  end.
Qed.

Lemma create_image_grid_fourth_thumbnail_witness :
  create_image_grid (px:=Integer.pixel) (pil:=Integer.nearest)
    (Integer.ramp_image 3 6 4 0
       :: [Integer.ramp_image 3 6 3 2; Integer.ramp_image 3 6 3 5;
           Integer.flat_image 3 6 3 9]
       ++ Integer.flat_image 3 6 3 4 :: [])
    [1; 3] "final.png" ∅
  = ([], ∅, raise ValueError).
Proof.
  apply (create_image_grid_fourth_thumbnail (pil:=Integer.nearest)
           (Integer.ramp_image 3 6 4 0)
           [Integer.ramp_image 3 6 3 2; Integer.ramp_image 3 6 3 5;
            Integer.flat_image 3 6 3 9]
           (Integer.flat_image 3 6 3 4) [] 3 6 4 [1; 3] "final.png" ∅).
  - lia.
  - lia.
  - lia.
  - reflexivity.
  - by right.
  - reflexivity.
  - repeat constructor.
  - exact nearest_resizes_wide.
Defined.


Lemma key_matches_modes_agree_witness :
  exists i,
    key_matches (engine:=py_engine) "category_id_segmaps" default_segmap_keys true
    = ok (KPair true i) /\ (is_Some i <-> true = true).
Proof.
  apply (proj1 (key_matches_modes_agree (engine:=py_engine) "category_id_segmaps"
                  default_segmap_keys true)).
  reflexivity.
Defined.
